(** * rn-perf-toolkit: trace metric extraction and summary statistics

    A shallow embedding of the trace-processing core of
    [measure_performance.ts]: the regular expressions the script runs over
    an atrace dump, [processTraceData] (anchor resolution, lifecycle
    milestones, custom and paired markers, relative offsets, timestamp
    normalisation), [calculateStats] and the summary emission with
    [addAverageToSummary].

    Numbers are IEEE 754 binary64 values ([spec_float] at precision 53),
    strings are [string]s of code units below 256, the [metrics] object is a
    [gmap string number]. *)

From Stdlib Require Import ZArith List String Ascii Bool Lia Permutation Sorted.
From Stdlib Require Import Floats.SpecFloat Numbers.DecimalString.
From stdpp Require Import base option list gmap strings.

(** ** JavaScript numbers *)

Module Num.

Local Open Scope string_scope.

Definition number : Type := spec_float.

Definition prec : Z := 53.
Definition emax : Z := 1024.

Definition NaN : number := S754_nan.
Definition zero : number := S754_zero false.

(** The double nearest to the fraction [p / q] (round to nearest, ties to
    even), with the sign [neg]. *)
Definition ratio (neg : bool) (p q : positive) : number :=
  SFdiv prec emax (S754_finite neg p 0) (S754_finite false q 0).

(** An integer literal of the source, such as [1000000]. *)
Definition ofZ (z : Z) : number :=
  match z with
  | Z0 => zero
  | Zpos p => ratio false p 1
  | Zneg p => ratio true p 1
  end.

Definition add : number -> number -> number := SFadd prec emax.
Definition sub : number -> number -> number := SFsub prec emax.
Definition div : number -> number -> number := SFdiv prec emax.
Definition gt (x y : number) : bool := SFltb y x.

(** [ToBoolean] on a number: [if (x)] fails for [+0], [-0] and [NaN]. *)
Definition truthy (x : number) : bool :=
  match x with
  | S754_zero _ | S754_nan => false
  | _ => true
  end.

(** [if (metrics[key])]: a missing property reads as [undefined]. *)
Definition truthyProp (x : option number) : bool :=
  match x with
  | Some v => truthy v
  | None => false
  end.

(** *** Decimal text *)

Definition isDigit (a : ascii) : bool :=
  (48 <=? nat_of_ascii a)%nat && (nat_of_ascii a <=? 57)%nat.

Definition digitValue (a : ascii) : Z := Z.of_nat (nat_of_ascii a) - 48.

(** [StrWhiteSpaceChar] among the code units below 256. *)
Definition isWhiteSpace (a : ascii) : bool :=
  let n := nat_of_ascii a in
  ((9 <=? n)%nat && (n <=? 13)%nat) || (n =? 32)%nat || (n =? 160)%nat.

Fixpoint trimStart (s : string) : string :=
  match s with
  | String a s' => if isWhiteSpace a then trimStart s' else s
  | EmptyString => s
  end.

(** Reads a run of decimal digits: the value accumulated onto [acc], the
    number of digits read, and the rest of the text. *)
Fixpoint spanDigits (s : string) (acc : Z) (n : nat) : Z * nat * string :=
  match s with
  | String a s' =>
      if isDigit a then spanDigits s' (10 * acc + digitValue a) (S n)
      else (acc, n, s)
  | EmptyString => (acc, n, s)
  end.

(** The double nearest to [d * 10 ^ q]. *)
Definition decimal (neg : bool) (d q : Z) : number :=
  match d with
  | Zpos p =>
      if (0 <=? q)%Z then ratio neg (p * Z.to_pos (10 ^ q)) 1
      else ratio neg p (Z.to_pos (10 ^ (- q)))
  | _ => S754_zero neg
  end.

Definition stripPrefix (p s : string) : option string :=
  if String.prefix p s
  then Some (String.substring (String.length p) (String.length s - String.length p) s)
  else None.

(** The optional [ExponentPart] of a [StrDecimalLiteral]; it is taken only
    when at least one digit follows the [e]. *)
Definition exponentPart (s : string) : Z :=
  match s with
  | String a s' =>
      if (Ascii.eqb a "e" || Ascii.eqb a "E")%bool then
        let '(neg, s'') :=
          match s' with
          | String "-" t => (true, t)
          | String "+" t => (false, t)
          | _ => (false, s')
          end in
        let '(v, n, _) := spanDigits s'' 0 0 in
        match n with
        | O => 0%Z
        | _ => if neg then (- v)%Z else v
        end
      else 0%Z
  | EmptyString => 0%Z
  end.

(** [parseFloat]: the longest prefix of the trimmed text that is a
    [StrDecimalLiteral] is converted; when there is none the result is
    [NaN]. *)
Definition parseFloat (s : string) : number :=
  let s0 := trimStart s in
  let '(neg, s1) :=
    match s0 with
    | String "-" t => (true, t)
    | String "+" t => (false, t)
    | _ => (false, s0)
    end in
  match stripPrefix "Infinity" s1 with
  | Some _ => S754_infinity neg
  | None =>
      let '(ip, ni, s2) := spanDigits s1 0 0 in
      let '(d, nf, s3) :=
        match s2 with
        | String "." t => spanDigits t ip 0
        | _ => (ip, O, s2)
        end in
      match (ni + nf)%nat with
      | O => NaN
      | _ => decimal neg d (exponentPart s3 - Z.of_nat nf)
      end
  end.

(** [parseFloat(match[1])]: an unset group is [undefined], which parses to
    [NaN]. *)
Definition parseFloatGroup (g : option string) : number :=
  match g with
  | Some s => parseFloat s
  | None => NaN
  end.

Definition showZ (z : Z) : string := NilZero.string_of_int (Z.to_int z).
Definition showNat (n : nat) : string := NilZero.string_of_uint (Nat.to_uint n).

Fixpoint zeros (n : nat) : string :=
  match n with
  | O => ""
  | S n' => String "0" (zeros n')
  end.

(** The decimal digits of [n >= 0] with a point before the last three,
    padded with zeros on the left to at least one integer digit. *)
Definition fixedPoint3 (n : Z) : string :=
  let ds := showZ n in
  let ds := zeros (4 - String.length ds) ++ ds in
  let k := (String.length ds - 3)%nat in
  String.substring 0 k ds ++ "." ++ String.substring k 3 ds.

(** The value of a finite double as an exact fraction [(p, q)] of
    integers. *)
Definition fraction (m : positive) (e : Z) : Z * Z :=
  match e with
  | Zneg k => (Zpos m, 2 ^ Zpos k)%Z
  | _ => (Zpos m * 2 ^ e, 1)%Z
  end.

(** [Number::toString] for a finite integer value [x >= 10^21]: the
    shortest digit string [s] (of [k] digits) with [s * 10^(n-k)]
    converting back to the double, printed in exponent notation. *)
Fixpoint shortestDigits (fuel : nat) (k : nat) (x : Z) (nd : nat) (v : number)
  : Z * nat :=
  let p := (10 ^ Z.of_nat (nd - k))%Z in
  let lo := (x / p)%Z in
  let hi := (lo + 1)%Z in
  let okLo := match SFcompare (ofZ (lo * p)) v with Some Eq => true | _ => false end in
  let okHi := match SFcompare (ofZ (hi * p)) v with Some Eq => true | _ => false end in
  let pick (s : Z) : Z * nat :=
    if (s =? 10 ^ Z.of_nat k)%Z then (1%Z, S nd) else (s, nd) in
  let closerLo := (x - lo * p <=? hi * p - x)%Z in
  match okLo, okHi with
  | true, true => pick (if closerLo then lo else hi)
  | true, false => pick lo
  | false, true => pick hi
  | false, false =>
      match fuel with
      | O => pick lo
      | S fuel' => shortestDigits fuel' (S k) x nd v
      end
  end.

Definition toStringLarge (neg : bool) (x : Z) (v : number) : string :=
  let nd := String.length (showZ x) in
  let '(s, n) := shortestDigits 20 1 x nd (SFabs v) in
  let ds := showZ s in
  let body :=
    match ds with
    | String a EmptyString => ds
    | String a rest => String a ("." ++ rest)
    | EmptyString => ds
    end in
  (if neg then "-" else "") ++ body ++ "e+" ++ showNat (n - 1).

(** [x.toFixed(3)]: for [|x| < 10^21] the integer [n] with [n / 1000]
    nearest to [|x|] (the larger one on a tie) printed with three
    decimals; above that, [ToString(x)]. *)
Definition toFixed3 (x : number) : string :=
  match x with
  | S754_nan => "NaN"
  | S754_infinity s => if s then "-Infinity" else "Infinity"
  | S754_zero _ => "0.000"
  | S754_finite s m e =>
      let '(p, q) := fraction m e in
      if (10 ^ 21 * q <=? p)%Z then toStringLarge s p x
      else
        let n := ((2 * 1000 * p + q) / (2 * q))%Z in
        (if s then "-" else "") ++ fixedPoint3 n
  end.

(** [parseFloat(x.toFixed(3))]. *)
Definition round3 (x : number) : number := parseFloat (toFixed3 x).

End Num.

Import Num.

(** ** Regular expressions

    Every pattern of the script is a flat sequence of one-character atoms,
    some of them under a quantifier ([+], [*] or the lazy [*?]), with one
    capturing group and, in the slash-delimited literals, the end
    assertion [$].  A pattern is kept as the list of its terms, in the
    order of the pattern text. *)

Module Regex.

Inductive atom : Type :=
| Lit (a : ascii)       (* an ordinary character *)
| Dot                   (* [.]: anything but a line terminator *)
| Digit                 (* [\d] *)
| Word                  (* [\w] *)
| Space                 (* [\s] *)
| NonSpace              (* [\S] *)
| DigitOrDot.           (* the class [[0-9.]] *)

Inductive term : Type :=
| One (c : atom)                    (* the atom, once *)
| Rep (greedy : bool) (c : atom)    (* the atom under [*] or [*?] *)
| GroupOpen                         (* the [(] of group 1 *)
| GroupClose                        (* the [)] of group 1 *)
| AssertEnd.                        (* [$], no [m] flag: the end of the input *)

Definition regex : Type := list term.

Definition isWordChar (a : ascii) : bool :=
  let n := nat_of_ascii a in
  ((48 <=? n)%nat && (n <=? 57)%nat) || ((65 <=? n)%nat && (n <=? 90)%nat)
  || ((97 <=? n)%nat && (n <=? 122)%nat) || (n =? 95)%nat.

Definition isLineTerminator (a : ascii) : bool :=
  let n := nat_of_ascii a in (n =? 10)%nat || (n =? 13)%nat.

Definition accepts (c : atom) (a : ascii) : bool :=
  match c with
  | Lit b => Ascii.eqb a b
  | Dot => negb (isLineTerminator a)
  | Digit => isDigit a
  | Word => isWordChar a
  | Space => isWhiteSpace a
  | NonSpace => negb (isWhiteSpace a)
  | DigitOrDot => isDigit a || Ascii.eqb a "."
  end.

(** The state of group 1: the input as it stood at the [(], and the text
    captured at the last [)]. *)
Record groups : Type := { opened : string; captured : option string }.

Definition noGroups : groups := {| opened := ""; captured := None |}.

Definition outcome : Type := option (option string).

(** A greedy [*]: take the atom as often as possible, then give characters
    back one at a time until the rest of the pattern [k] matches. *)
Fixpoint repGreedy (c : atom) (k : string -> outcome) (s : string) : outcome :=
  match s with
  | String a s' =>
      if accepts c a then
        match repGreedy c k s' with
        | Some r => Some r
        | None => k s
        end
      else k s
  | EmptyString => k s
  end.

(** A lazy [*?]: try the rest of the pattern first, take one more
    character only when it fails. *)
Fixpoint repLazy (c : atom) (k : string -> outcome) (s : string) : outcome :=
  match k s with
  | Some r => Some r
  | None =>
      match s with
      | String a s' => if accepts c a then repLazy c k s' else None
      | EmptyString => None
      end
  end.

(** The backtracking matcher, anchored at the start of [s]: the value of
    group 1 for the first way (in priority order) the pattern matches a
    prefix of [s]. *)
Fixpoint run (r : regex) (s : string) (g : groups) {struct r} : outcome :=
  match r with
  | [] => Some (captured g)
  | One c :: r' =>
      match s with
      | String a s' => if accepts c a then run r' s' g else None
      | EmptyString => None
      end
  | Rep true c :: r' => repGreedy c (fun s' => run r' s' g) s
  | Rep false c :: r' => repLazy c (fun s' => run r' s' g) s
  | GroupOpen :: r' => run r' s {| opened := s; captured := captured g |}
  | GroupClose :: r' =>
      run r' s
        {| opened := opened g;
           captured :=
             Some (String.substring 0 (String.length (opened g) - String.length s)
                     (opened g)) |}
  | AssertEnd :: r' =>
      match s with
      | EmptyString => run r' s g
      | String _ _ => None
      end
  end.

(** [text.match(pattern)] for a pattern without the [g] flag: the match at
    the leftmost index where there is one; [None] is [null], [Some g] is a
    match array whose element 1 is [g]. *)
Fixpoint search (r : regex) (s : string) : outcome :=
  match run r s noGroups with
  | Some g => Some g
  | None =>
      match s with
      | String _ s' => search r s'
      | EmptyString => None
      end
  end.

(** *** Pattern text to terms *)

Definition lit (s : string) : regex :=
  map (fun a => One (Lit a)) (list_ascii_of_string s).

Definition plus (c : atom) : regex := [One c; Rep true c].
Definition star (c : atom) : regex := [Rep true c].
Definition lazyStar (c : atom) : regex := [Rep false c].
Definition group (r : regex) : regex := GroupOpen :: r ++ [GroupClose].

(** A name spliced into a template string that is handed to [new RegExp]:
    its text becomes pattern text.  For a name made of letters, digits,
    [_], [-], [:], [/], spaces and dots, every character stands for itself
    except the dot, which is the wildcard.  For a name with another syntax
    character [new RegExp] builds another pattern, or throws, and
    [processTraceData] then leaves no metrics: [splice] stands for the
    constructor on the names of [plainName] only, and every statement
    about the patterns of a configuration assumes [plainConfig]. *)
Definition splice (name : string) : regex :=
  map (fun a => if Ascii.eqb a "." then One Dot else One (Lit a))
    (list_ascii_of_string name).

(** The names for which [splice] is the pattern [new RegExp] builds: no
    syntax character other than the dot. *)
Definition isSyntaxChar (a : ascii) : bool :=
  existsb (Ascii.eqb a)
    (list_ascii_of_string "\^$*+?()[]{}|").

Definition plainName (name : string) : bool :=
  forallb (fun a => negb (isSyntaxChar a)) (list_ascii_of_string name).

(** The first pattern of the list that matches decides: the script's
    [for (const pattern of patterns) { ... if (match) { ...; break; } }]. *)
Fixpoint firstMatch (patterns : list regex) (s : string) : outcome :=
  match patterns with
  | [] => None
  | p :: rest =>
      match search p s with
      | Some g => Some g
      | None => firstMatch rest s
      end
  end.

End Regex.

Import Regex.

(** ** The patterns of [processTraceData] *)

Module Patterns.

(** [\S+\s+\(\s*\d+\)\s+\[\d+\]\s+\.+\s+([0-9.]+):], the head of an atrace
    line, up to and including the timestamp field. *)
Definition lineHead : regex :=
  plus NonSpace ++ plus Space ++ lit "(" ++ star Space ++ plus Digit ++ lit ")"
  ++ plus Space ++ lit "[" ++ plus Digit ++ lit "]" ++ plus Space
  ++ plus (Lit ".") ++ plus Space ++ group (plus DigitOrDot) ++ lit ":".

(** [lineHead] followed by [\s+tracing_mark_write:]. *)
Definition markWrite : regex :=
  lineHead ++ plus Space ++ lit "tracing_mark_write:".

(** [([0-9.]+)], the leading group of the looser patterns. *)
Definition stamp : regex := group (plus DigitOrDot).

(** What the text [${config.appPackage}] is inside a slash-delimited
    regular expression literal, where nothing is interpolated: the end
    assertion [$] followed by the characters [{config], any character, and
    [appPackage}]. *)
Definition uninterpolated : regex :=
  [AssertEnd] ++ lit "{config" ++ [One Dot] ++ lit "appPackage}".

(** The fifteen entries of [appStartPatterns], in order: eight built with
    [new RegExp] from a template (the package name is spliced in), then
    seven regular expression literals. *)
Definition appStartPatterns (appPackage : string) : list regex :=
  [ markWrite ++ plus Space ++ lit "B|" ++ plus Digit ++ lit "|Startup";
    markWrite ++ star Dot ++ lit "APPLICATION_START";
    markWrite ++ star Dot ++ lit "ActivityManager" ++ star Dot ++ lit "START"
      ++ lazyStar Dot ++ splice appPackage;
    markWrite ++ star Dot ++ lit "ActivityTaskManager" ++ star Dot ++ lit "START"
      ++ lazyStar Dot ++ splice appPackage;
    markWrite ++ star Dot ++ lit "Displayed" ++ lazyStar Dot ++ splice appPackage;
    markWrite ++ star Dot ++ lit "am_create_activity" ++ lazyStar Dot
      ++ splice appPackage;
    markWrite ++ star Dot ++ lit "am_on_resume_called" ++ lazyStar Dot
      ++ splice appPackage;
    markWrite ++ star Dot ++ lit "am_proc_start" ++ lazyStar Dot
      ++ splice appPackage;
    stamp ++ star Dot ++ lit "ActivityManager" ++ star Dot ++ lit "START"
      ++ lazyStar Dot ++ uninterpolated;
    stamp ++ star Dot ++ lit "ActivityTaskManager" ++ star Dot ++ lit "START"
      ++ lazyStar Dot ++ uninterpolated;
    stamp ++ star Dot ++ lit "ActivityManager" ++ star Dot ++ lit "Displayed"
      ++ lazyStar Dot ++ uninterpolated;
    stamp ++ star Dot ++ lit "am_create_activity" ++ lazyStar Dot ++ uninterpolated;
    stamp ++ star Dot ++ lit "am_on_resume_called" ++ lazyStar Dot ++ uninterpolated;
    stamp ++ star Dot ++ lit "am_proc_start" ++ lazyStar Dot ++ uninterpolated;
    stamp ++ star Dot ++ lit "am_create_task" ++ lazyStar Dot ++ uninterpolated ].

(** [appFirstMentionPattern]. *)
Definition appFirstMentionPattern (appPackage : string) : regex :=
  lineHead ++ plus Space ++ star Dot ++ splice appPackage.

(** The literal [/\S+\s+\(\s*\d+\)\s+\[\d+\]\s+\.+\s+([0-9.]+):/]. *)
Definition firstTimestampPattern : regex := lineHead.

(** The four lifecycle literals,
    [/([0-9.]+).*performCreate.*?${config.appPackage}/] and its siblings. *)
Definition lifecyclePattern (event : string) : regex :=
  stamp ++ star Dot ++ lit event ++ lazyStar Dot ++ uninterpolated.

Definition createPattern : regex := lifecyclePattern "performCreate".
Definition startPattern : regex := lifecyclePattern "performStart".
Definition resumePattern : regex := lifecyclePattern "performResume".
Definition drawnPattern : regex := lifecyclePattern "reportFullyDrawn".

(** The same four literals as the first revision of the script has them,
    with a greedy [.*] before the package text:
    [/([0-9.]+).*performCreate.*${config.appPackage}/]. *)
Definition lifecyclePatternV1 (event : string) : regex :=
  stamp ++ star Dot ++ lit event ++ star Dot ++ uninterpolated.

(** The ten fallback patterns of a custom marker, in order. *)
Definition markerPatterns (marker : string) : list regex :=
  [ markWrite ++ plus Space ++ plus Word ++ lit "|" ++ plus Digit ++ lit "|"
      ++ splice marker;
    markWrite ++ star Dot ++ splice marker;
    stamp ++ star Dot ++ lit "PerfettoTracer" ++ star Dot ++ lit "beginTrace"
      ++ star Dot ++ splice marker;
    stamp ++ star Dot ++ lit "PerfettoTracer" ++ star Dot ++ splice marker;
    stamp ++ star Dot ++ lit "beginTrace" ++ star Dot ++ splice marker;
    stamp ++ star Dot ++ splice marker ++ star Dot ++ lit "begin";
    stamp ++ star Dot ++ lit "begin" ++ star Dot ++ splice marker;
    stamp ++ star Dot ++ lit "TEST_EVENT_MANUAL";
    stamp ++ star Dot ++ lit "test_event_manual";
    stamp ++ star Dot ++ splice marker ].

(** [startPatterns] and [endPatterns] of a paired marker: the same five
    patterns, built from [pair.start] and from [pair.end]. *)
Definition pairPatterns (marker : string) : list regex :=
  [ markWrite ++ plus Space ++ plus Word ++ lit "|" ++ plus Digit ++ lit "|"
      ++ splice marker;
    markWrite ++ star Dot ++ splice marker;
    stamp ++ star Dot ++ lit "PerfettoTracer" ++ star Dot ++ lit "beginTrace"
      ++ star Dot ++ splice marker;
    stamp ++ star Dot ++ lit "PerfettoTracer" ++ star Dot ++ splice marker;
    stamp ++ star Dot ++ splice marker ].

End Patterns.

Import Patterns.

(** ** [processTraceData] *)

Record PairedMarker : Type :=
  { pm_start : string; pm_end : string; pm_name : string }.

Record Config : Type :=
  { appPackage : string;
    customMarkers : list string;
    pairedMarkers : list PairedMarker }.

(** The property names the function writes. *)
Definition timestampKey (marker : string) : string := marker +:+ "Timestamp".
Definition relativeTimeKey (marker : string) : string := "timeTo" +:+ marker.
Definition durationKey (name : string) : string := name +:+ "Duration".

(** [let appStartTimestamp = 0; for (const pattern of appStartPatterns)
    ...; if (!appStartTimestamp) ...; if (!appStartTimestamp) ...]. *)
Definition anchorFromPatterns (pkg text : string) : number :=
  match firstMatch (appStartPatterns pkg) text with
  | Some g => parseFloatGroup g
  | None => zero
  end.

Definition anchorFromFirstMention (pkg text : string) (a : number) : number :=
  if truthy a then a
  else
    match search (appFirstMentionPattern pkg) text with
    | Some g => parseFloatGroup g
    | None => a
    end.

Definition anchorFromFirstTimestamp (text : string) (a : number) : number :=
  if truthy a then a
  else
    match search firstTimestampPattern text with
    | Some g => parseFloatGroup g
    | None => a
    end.

Definition resolveAppStart (pkg text : string) : number :=
  anchorFromFirstTimestamp text
    (anchorFromFirstMention pkg text (anchorFromPatterns pkg text)).

(** [if (m) metrics.key = parseFloat(m[1])]. *)
Definition setIfMatched (key : string) (m : outcome)
    (metrics : gmap string number) : gmap string number :=
  match m with
  | Some g => <[key := parseFloatGroup g]> metrics
  | None => metrics
  end.

Definition collectLifecycle (text : string) (metrics : gmap string number)
  : gmap string number :=
  let createMatch := search createPattern text in
  let startMatch := search startPattern text in
  let resumeMatch := search resumePattern text in
  let drawnMatch := search drawnPattern text in
  setIfMatched "activityDrawnTimestamp" drawnMatch
    (setIfMatched "activityResumeTimestamp" resumeMatch
      (setIfMatched "activityStartTimestamp" startMatch
        (setIfMatched "activityCreateTimestamp" createMatch metrics))).

(** One round of [for (const marker of config.customMarkers)]. *)
Definition collectMarker (text : string) (metrics : gmap string number)
    (marker : string) : gmap string number :=
  setIfMatched (timestampKey marker) (firstMatch (markerPatterns marker) text)
    metrics.

(** The value a pattern list leaves in [startTimestamp] / [endTimestamp],
    which start at [0]. *)
Definition resolved (m : outcome) : number :=
  match m with
  | Some g => parseFloatGroup g
  | None => zero
  end.

(** One round of the first [for (const pair of config.pairedMarkers)]. *)
Definition collectPair (text : string) (metrics : gmap string number)
    (pair : PairedMarker) : gmap string number :=
  let startMatch := firstMatch (pairPatterns (pm_start pair)) text in
  let endMatch := firstMatch (pairPatterns (pm_end pair)) text in
  let startTimestamp := resolved startMatch in
  let endTimestamp := resolved endMatch in
  let metrics := setIfMatched (timestampKey (pm_start pair)) startMatch metrics in
  let metrics := setIfMatched (timestampKey (pm_end pair)) endMatch metrics in
  if truthy startTimestamp && truthy endTimestamp
  then <[durationKey (pm_name pair) := sub endTimestamp startTimestamp]> metrics
  else metrics.

(** [if (metrics[from]) metrics[to] = metrics[from] - appStartTimestamp]. *)
Definition deriveOffset (anchor : number) (from to : string)
    (metrics : gmap string number) : gmap string number :=
  match metrics !! from with
  | Some t => if truthy t then <[to := sub t anchor]> metrics else metrics
  | None => metrics
  end.

Definition deriveMarker (anchor : number) (metrics : gmap string number)
    (marker : string) : gmap string number :=
  deriveOffset anchor (timestampKey marker) (relativeTimeKey marker) metrics.

(** Both timestamps of the pair are read before either offset is
    written. *)
Definition derivePair (anchor : number) (metrics : gmap string number)
    (pair : PairedMarker) : gmap string number :=
  let startTimestamp := metrics !! timestampKey (pm_start pair) in
  let endTimestamp := metrics !! timestampKey (pm_end pair) in
  let metrics :=
    match startTimestamp with
    | Some t =>
        if truthy t
        then <[relativeTimeKey (pm_start pair) := sub t anchor]> metrics
        else metrics
    | None => metrics
    end in
  match endTimestamp with
  | Some t =>
      if truthy t
      then <[relativeTimeKey (pm_end pair) := sub t anchor]> metrics
      else metrics
  | None => metrics
  end.

(** The four lifecycle offsets. *)
Definition deriveLifecycle (anchor : number) (metrics : gmap string number)
  : gmap string number :=
  let metrics :=
    deriveOffset anchor "activityCreateTimestamp" "timeToCreate" metrics in
  let metrics :=
    deriveOffset anchor "activityStartTimestamp" "timeToStart" metrics in
  let metrics :=
    deriveOffset anchor "activityResumeTimestamp" "timeToResume" metrics in
  deriveOffset anchor "activityDrawnTimestamp" "timeToFullyDrawn" metrics.

(** The block under [if (appStartTimestamp)]. *)
Definition deriveOffsets (cfg : Config) (anchor : number)
    (metrics : gmap string number) : gmap string number :=
  if truthy anchor then
    let metrics := deriveLifecycle anchor metrics in
    let metrics := foldl (deriveMarker anchor) metrics (customMarkers cfg) in
    foldl (derivePair anchor) metrics (pairedMarkers cfg)
  else metrics.

Definition normalizeTimestamp (timestamp : number) : number :=
  if gt timestamp (ofZ 1000000)
  then parseFloat (toFixed3 (div timestamp (ofZ 1000000)))
  else timestamp.

(** [if (metrics[key]) metrics[key] = f(metrics[key])]. *)
Definition updateIfTruthy (f : number -> number) (key : string)
    (metrics : gmap string number) : gmap string number :=
  match metrics !! key with
  | Some t => if truthy t then <[key := f t]> metrics else metrics
  | None => metrics
  end.

Definition normalizeMarker (metrics : gmap string number) (marker : string)
  : gmap string number :=
  let metrics := updateIfTruthy normalizeTimestamp (timestampKey marker) metrics in
  updateIfTruthy round3 (relativeTimeKey marker) metrics.

Definition normalizePair (metrics : gmap string number) (pair : PairedMarker)
  : gmap string number :=
  let metrics :=
    updateIfTruthy normalizeTimestamp (timestampKey (pm_start pair)) metrics in
  let metrics :=
    updateIfTruthy normalizeTimestamp (timestampKey (pm_end pair)) metrics in
  let metrics := updateIfTruthy round3 (durationKey (pm_name pair)) metrics in
  let metrics := updateIfTruthy round3 (relativeTimeKey (pm_start pair)) metrics in
  updateIfTruthy round3 (relativeTimeKey (pm_end pair)) metrics.

(** The five fixed timestamps. *)
Definition normalizeLifecycle (metrics : gmap string number)
  : gmap string number :=
  let metrics := updateIfTruthy normalizeTimestamp "appStartTimestamp" metrics in
  let metrics :=
    updateIfTruthy normalizeTimestamp "activityCreateTimestamp" metrics in
  let metrics :=
    updateIfTruthy normalizeTimestamp "activityStartTimestamp" metrics in
  let metrics :=
    updateIfTruthy normalizeTimestamp "activityResumeTimestamp" metrics in
  updateIfTruthy normalizeTimestamp "activityDrawnTimestamp" metrics.

Definition normalizeAll (cfg : Config) (metrics : gmap string number)
  : gmap string number :=
  let metrics := normalizeLifecycle metrics in
  let metrics := foldl normalizeMarker metrics (customMarkers cfg) in
  foldl normalizePair metrics (pairedMarkers cfg).

(** The timestamps as collected from the trace, before any offset is
    derived: the [metrics] object after the two marker loops. *)
Definition collect (cfg : Config) (text : string) : gmap string number :=
  let appStartTimestamp := resolveAppStart (appPackage cfg) text in
  let metrics : gmap string number := <["appStartTimestamp" := appStartTimestamp]> ∅ in
  let metrics := collectLifecycle text metrics in
  let metrics := foldl (collectMarker text) metrics (customMarkers cfg) in
  foldl (collectPair text) metrics (pairedMarkers cfg).

(** The [metrics] object [processTraceData] hands to [writeMetricsToFile],
    for the trace content [text]. *)
Definition processTraceData (cfg : Config) (text : string) : gmap string number :=
  let appStartTimestamp := resolveAppStart (appPackage cfg) text in
  normalizeAll cfg (deriveOffsets cfg appStartTimestamp (collect cfg text)).

(** ** Summary statistics *)

Record Stats : Type :=
  { stat_min : number; stat_max : number; stat_avg : number; stat_median : number }.

(** [(a, b) => a - b] places [a] after [b] when the difference is
    positive. *)
Definition comesAfter (a b : number) : bool := gt (sub a b) zero.

Fixpoint insertSorted (x : number) (l : list number) : list number :=
  match l with
  | [] => [x]
  | y :: ys => if comesAfter x y then y :: insertSorted x ys else x :: y :: ys
  end.

(** [[...values].sort((a, b) => a - b)]: the sort is stable, here by
    insertion. *)
Fixpoint sortNumbers (values : list number) : list number :=
  match values with
  | [] => []
  | x :: rest => insertSorted x (sortNumbers rest)
  end.

(** [array[i]]; beyond the end it is [undefined], which is [NaN] in
    arithmetic. *)
Definition at_ (l : list number) (i : nat) : number := default NaN (l !! i).

Definition lengthOf (l : list number) : number := ofZ (Z.of_nat (length l)).

Definition sum (values : list number) : number := foldl add zero values.

Definition calculateStats (values : list number) : Stats :=
  match values with
  | [] => {| stat_min := zero; stat_max := zero; stat_avg := zero; stat_median := zero |}
  | _ =>
      let sortedValues := sortNumbers values in
      let min := at_ sortedValues 0 in
      let max := at_ sortedValues (length sortedValues - 1) in
      let avg := div (sum sortedValues) (lengthOf sortedValues) in
      let mid := (length sortedValues / 2)%nat in
      let median :=
        if Nat.even (length sortedValues)
        then div (add (at_ sortedValues (mid - 1)) (at_ sortedValues mid)) (ofZ 2)
        else at_ sortedValues mid in
      {| stat_min := min; stat_max := max; stat_avg := avg; stat_median := median |}
  end.

(** The comparator orders the listed values consistently: of two values
    at most one comes after the other, and "does not come after" is
    transitive.  This is what [Array.prototype.sort] asks of a comparator;
    it holds for finite numbers. *)
Definition consistent (values : list number) : bool :=
  forallb (fun a =>
    forallb (fun b =>
      (negb (comesAfter a b) || negb (comesAfter b a))
      && forallb (fun c =>
           implb (negb (comesAfter a b) && negb (comesAfter b c))
             (negb (comesAfter a c)))
           values)
      values)
    values.

Definition notAfter (a b : number) : Prop := comesAfter a b = false.

(** ** The summary report of the first revision *)

Module Summary.

Definition nl : string := String (ascii_of_nat 10) EmptyString.

(** [text.match(pattern)] followed by [parseFloat(match[1])], or [null]. *)
Definition extractMetric (metricsContent : string) (pattern : regex)
  : option number :=
  match search pattern metricsContent with
  | Some g => Some (parseFloatGroup g)
  | None => None
  end.

Definition addMetric (metrics : gmap string (list number)) (name : string)
    (value : number) : gmap string (list number) :=
  <[name := default [] (metrics !! name) ++ [value]]> metrics.

(** [const v = extractMetric(pattern); if (v) addMetric(allMetrics, name, v)]. *)
Definition collectMetric (metricsContent : string) (pattern : regex)
    (name : string) (allMetrics : gmap string (list number))
  : gmap string (list number) :=
  match extractMetric metricsContent pattern with
  | Some v => if truthy v then addMetric allMetrics name v else allMetrics
  | None => allMetrics
  end.

(** [label ([0-9.]+)unit]. *)
Definition valueLine (label unit : string) : regex :=
  lit label ++ group (plus DigitOrDot) ++ lit unit.

(** The pairs [(customMarkers[i], customMarkers[j])] with [i < j], in the
    order of the two nested loops. *)
Fixpoint markerPairs (markers : list string) : list (string * string) :=
  match markers with
  | [] => []
  | m :: rest => map (fun m' => (m, m')) rest ++ markerPairs rest
  end.

Definition jankPattern (label : string) : regex :=
  lit label ++ plus Digit ++ lit "/" ++ plus Digit ++ lit " ("
  ++ group (plus DigitOrDot) ++ lit "%)".

(** The body of [for (const iteration of successfulRuns)], for the text of
    one metrics file. *)
Definition collectFile (markers : list string)
    (allMetrics : gmap string (list number)) (metricsContent : string)
  : gmap string (list number) :=
  let put := collectMetric metricsContent in
  let allMetrics :=
    put (valueLine "Time from intent to performCreate: " "s") "timeToCreate" allMetrics in
  let allMetrics :=
    put (valueLine "Time from performCreate to performStart: " "s") "createToStart"
      allMetrics in
  let allMetrics :=
    put (valueLine "Time from performStart to performResume: " "s") "startToResume"
      allMetrics in
  let allMetrics :=
    put (valueLine "Total startup time (intent to performResume): " "s")
      "totalStartupTime" allMetrics in
  let allMetrics :=
    put (valueLine "Total time to fully drawn: " "s") "timeToFullyDrawn" allMetrics in
  let allMetrics :=
    foldl (fun acc marker =>
             put (lit "Time from app start to " ++ splice marker ++ lit ": "
                  ++ group (plus DigitOrDot) ++ lit "s")
               ("timeTo" +:+ marker) acc)
      allMetrics markers in
  let allMetrics :=
    foldl (fun acc '(marker1, marker2) =>
             put (lit "Time from " ++ splice marker1 ++ lit " to " ++ splice marker2
                  ++ lit ": " ++ group (plus DigitOrDot) ++ lit "s")
               (marker1 +:+ "To" +:+ marker2) acc)
      allMetrics (markerPairs markers) in
  let allMetrics :=
    put (valueLine "Average frame duration: " "ms") "avgFrameDuration" allMetrics in
  let allMetrics := put (valueLine "Average FPS: " "") "avgFps" allMetrics in
  let allMetrics := put (jankPattern "Janky frames: ") "jankyPercentage" allMetrics in
  put (jankPattern "Severe janky frames: ") "severeJankyPercentage" allMetrics.

Definition addAverageToSummary (content : string)
    (metrics : gmap string (list number)) (metricName displayName unit : string)
  : string :=
  match metrics !! metricName with
  | Some ((_ :: _) as values) =>
      let avg := div (foldl add zero values) (lengthOf values) in
      content +:+ "- " +:+ displayName +:+ ": " +:+ toFixed3 avg +:+ unit
        +:+ " (averaged over " +:+ showNat (length values) +:+ " runs)" +:+ nl
  | _ => content +:+ "- " +:+ displayName +:+ ": No data available" +:+ nl
  end.

(** An expression statement: the call is made and its value dropped;
    [content], a string, is what it was. *)
Definition dropped {A : Type} (value : A) (content : string) : string := content.

(** [value || "Unknown"]. *)
Definition orUnknown (value : option string) : string :=
  match value with
  | Some (String a s) => String a s
  | _ => "Unknown"
  end.

(** The text [generateSummaryReport] writes to [summary_report.txt], given
    the date string, the two device properties and the texts of the
    metrics files of the successful runs. *)
Definition generateSummaryReport (date : string) (model androidVersion : option string)
    (markers : list string) (files : list string) : string :=
  let content := "======== Performance Test Summary ========" +:+ nl in
  let content := content +:+ "Date: " +:+ date +:+ nl in
  let content := content +:+ "Device: " +:+ orUnknown model +:+ nl in
  let content :=
    content +:+ "Android version: " +:+ orUnknown androidVersion +:+ nl +:+ nl in
  let allMetrics := foldl (collectFile markers) ∅ files in
  let content :=
    content +:+ "App startup performance (averaged over successful runs):" +:+ nl in
  let content :=
    dropped (addAverageToSummary content allMetrics "timeToCreate"
               "Time from intent to performCreate" "s") content in
  let content :=
    dropped (addAverageToSummary content allMetrics "createToStart"
               "Time from performCreate to performStart" "s") content in
  let content :=
    dropped (addAverageToSummary content allMetrics "startToResume"
               "Time from performStart to performResume" "s") content in
  let content :=
    dropped (addAverageToSummary content allMetrics "totalStartupTime"
               "Total startup time (intent to performResume)" "s") content in
  let content :=
    dropped (addAverageToSummary content allMetrics "timeToFullyDrawn"
               "Total time to fully drawn" "s") content in
  let content :=
    content +:+ nl +:+ "Custom marker timings (averaged over successful runs):"
      +:+ nl in
  let content :=
    foldl (fun content marker =>
             dropped (addAverageToSummary content allMetrics ("timeTo" +:+ marker)
                        ("Time from app start to " +:+ marker) "s") content)
      content markers in
  let content :=
    content +:+ nl +:+ "Marker-to-marker timings (averaged over successful runs):"
      +:+ nl in
  let content :=
    foldl (fun content '(marker1, marker2) =>
             dropped (addAverageToSummary content allMetrics
                        (marker1 +:+ "To" +:+ marker2)
                        ("Time from " +:+ marker1 +:+ " to " +:+ marker2) "s") content)
      content (markerPairs markers) in
  let content :=
    content +:+ nl +:+ "Frame rendering performance (averaged over successful runs):"
      +:+ nl in
  let content :=
    dropped (addAverageToSummary content allMetrics "avgFrameDuration"
               "Average frame duration" "ms") content in
  let content :=
    dropped (addAverageToSummary content allMetrics "avgFps" "Average FPS" "s")
      content in
  let content :=
    dropped (addAverageToSummary content allMetrics "jankyPercentage"
               "Janky frames percentage" "%") content in
  let content :=
    dropped (addAverageToSummary content allMetrics "severeJankyPercentage"
               "Severe jank percentage" "%") content in
  content.

(** [haystack.includes(needle)]. *)
Definition includes (haystack needle : string) : bool :=
  match String.index 0 needle haystack with
  | Some _ => true
  | None => false
  end.

End Summary.

(** ** Metric keys of a configuration *)

(** [if (t) f(t) else t], the shape of every rewrite in the normalisation
    block. *)
Definition whenTruthy (f : number -> number) (t : number) : number :=
  if truthy t then f t else t.

Definition fixedKeys : list string :=
  [ "appStartTimestamp"; "activityCreateTimestamp"; "activityStartTimestamp";
    "activityResumeTimestamp"; "activityDrawnTimestamp";
    "timeToCreate"; "timeToStart"; "timeToResume"; "timeToFullyDrawn" ].

(** The properties the rounds for one custom marker write. *)
Definition markerKeys (marker : string) : list string :=
  [ timestampKey marker; relativeTimeKey marker ].

(** The properties the rounds for one paired marker write. *)
Definition pairKeys (pair : PairedMarker) : list string :=
  [ timestampKey (pm_start pair); timestampKey (pm_end pair);
    durationKey (pm_name pair);
    relativeTimeKey (pm_start pair); relativeTimeKey (pm_end pair) ].

Definition metricKeys (cfg : Config) : list string :=
  fixedKeys ++ flat_map markerKeys (customMarkers cfg)
  ++ flat_map pairKeys (pairedMarkers cfg).

(** A configuration whose property names do not collide: no name is
    listed twice, and no generated key is also another one. *)
Definition distinctKeys (cfg : Config) : Prop := NoDup (metricKeys cfg).

(** Every name of the configuration is free of pattern syntax, so that
    [splice] is what [new RegExp] makes of it. *)
Definition plainConfig (cfg : Config) : bool :=
  plainName (appPackage cfg)
  && forallb plainName (customMarkers cfg)
  && forallb (fun p => plainName (pm_start p) && plainName (pm_end p))
       (pairedMarkers cfg).

(** The marker names the trace is searched for. *)
Definition subjects (cfg : Config) : list string :=
  customMarkers cfg
  ++ flat_map (fun p => [pm_start p; pm_end p]) (pairedMarkers cfg).

(** Every derived offset with the absolute timestamp it is computed
    from, as pairs (operand property, offset property). *)
Definition offsetOperands (cfg : Config) : list (string * string) :=
  [ ("activityCreateTimestamp", "timeToCreate");
    ("activityStartTimestamp", "timeToStart");
    ("activityResumeTimestamp", "timeToResume");
    ("activityDrawnTimestamp", "timeToFullyDrawn") ]
  ++ map (fun x => (timestampKey x, relativeTimeKey x)) (subjects cfg).

(** The absolute timestamps of the result. *)
Definition timestampKeys (cfg : Config) : list string :=
  [ "appStartTimestamp"; "activityCreateTimestamp"; "activityStartTimestamp";
    "activityResumeTimestamp"; "activityDrawnTimestamp" ]
  ++ map timestampKey (subjects cfg).

(** The property [k] is generated once by the configuration: it is one
    property of one round, and no other marker, pair side, offset or
    duration has the same name. *)
Definition namedOnce (cfg : Config) (k : string) : bool :=
  Nat.eqb (count_occ string_dec (metricKeys cfg) k) 1.

(** [x !== 0]. *)
Definition isNonZero (x : number) : bool := negb (SFeqb x zero).

(** The property is there and its value is not [0]. *)
Definition presentNonZero (x : option number) : bool :=
  match x with
  | Some v => isNonZero v
  | None => false
  end.

(** [s] is what is left of [t] from some index on. *)
Inductive tailOf (s : string) : string -> Prop :=
| tail_here : tailOf s s
| tail_later (a : ascii) (t : string) : tailOf s t -> tailOf s (String a t).

(** The pattern matches at no index of the text. *)
Definition failsOn (t : string) (r : regex) : Prop :=
  forall (s : string) (g : groups), tailOf s t -> run r s g = None.

(** The pattern has an end assertion directly followed by a term that
    needs one more character. *)
Fixpoint deadEnd (r : regex) : bool :=
  match r with
  | AssertEnd :: One _ :: _ => true
  | _ :: r' => deadEnd r'
  | [] => false
  end.

(** A map that writes only the listed properties. *)
Definition writesOnly (f : gmap string number -> gmap string number)
    (keys : list string) : Prop :=
  forall (M : gmap string number) (k : string), k ∉ keys -> f M !! k = M !! k.

(** Two objects with the same values at the listed properties. *)
Definition agreeOn (keys : list string) (M M' : gmap string number) : Prop :=
  forall k : string, k ∈ keys -> M !! k = M' !! k.

(** A map whose result at the listed properties depends on its argument
    at those properties only. *)
Definition readsOnly (f : gmap string number -> gmap string number)
    (keys : list string) : Prop :=
  forall M M' : gmap string number, agreeOn keys M M' -> agreeOn keys (f M) (f M').

(** The rounds of the three passes for one custom marker, run on their
    own from an empty object. *)
Definition markerMetrics (anchor : number) (text marker : string)
  : gmap string number :=
  let collected := collectMarker text ∅ marker in
  normalizeMarker
    (if truthy anchor then deriveMarker anchor collected marker else collected)
    marker.

(** The rounds of the three passes for one paired marker, on their own. *)
Definition pairMetrics (anchor : number) (text : string) (pair : PairedMarker)
  : gmap string number :=
  let collected := collectPair text ∅ pair in
  normalizePair
    (if truthy anchor then derivePair anchor collected pair else collected)
    pair.

(** The fixed properties, on their own. *)
Definition lifecycleMetrics (anchor : number) (text : string)
  : gmap string number :=
  let collected := collectLifecycle text (<["appStartTimestamp" := anchor]> ∅) in
  normalizeLifecycle
    (if truthy anchor then deriveLifecycle anchor collected else collected).

(** ** Sample traces and configurations *)

Module Samples.

Definition nl : string := String (ascii_of_nat 10) EmptyString.

(** An atrace line of the process [app-100] with the given timestamp field
    and payload. *)
Definition traceLine (stamp payload : string) : string :=
  "app-100 ( 100) [000] .... " +:+ stamp +:+ ": " +:+ payload.

Definition markLine (stamp name : string) : string :=
  traceLine stamp ("tracing_mark_write: B|100|" +:+ name).

Definition package : string := "com.example.app".

Definition oneMarker : Config :=
  {| appPackage := package;
     customMarkers := ["app_js_initialized"];
     pairedMarkers := [] |}.

Definition onePair : Config :=
  {| appPackage := package;
     customMarkers := ["app_js_initialized"];
     pairedMarkers :=
       [ {| pm_start := "trace_article_tap_start";
            pm_end := "trace_article_fully_loaded_end";
            pm_name := "article_load" |} ] |}.

(** The scenario of the specification. *)
Definition scenarioTrace : string :=
  markLine "123.456" "Startup" +:+ nl +:+ markLine "124.100" "app_js_initialized".

(** The same two events with the timestamp column in microseconds. *)
Definition microsecondTrace : string :=
  markLine "1500000" "Startup" +:+ nl +:+ markLine "2500000" "app_js_initialized".

(** A launch whose [performCreate] slice names the package. *)
Definition lifecycleTrace : string :=
  markLine "123.456" "Startup" +:+ nl
  +:+ markLine "123.789" "performCreate:com.example.app/.MainActivity".

(** A [Startup] slice stamped [0.0], then a line of the package. *)
Definition zeroStartupTrace : string :=
  markLine "0.0" "Startup" +:+ nl
  +:+ traceLine "5.5" "sched_wakeup: comm=com.example.app pid=100".

(** A launch stamped in microseconds, the marker a quarter of a second
    after the start. *)
Definition lateMarkerTrace : string :=
  markLine "3000000" "Startup" +:+ nl +:+ markLine "3250000" "app_js_initialized".

(** A log line with an ellipsis before the marker name. *)
Definition ellipsisTrace : string :=
  markLine "10.5" "Startup" +:+ nl +:+ "Loading... app_js_initialized".

(** A trace that has the manual test event and nothing else. *)
Definition manualEventTrace : string := "7.25 TEST_EVENT_MANUAL".

Definition pairTrace : string :=
  markLine "10.5" "Startup" +:+ nl
  +:+ markLine "11.25" "trace_article_tap_start" +:+ nl
  +:+ markLine "12.75" "trace_article_fully_loaded_end".

Definition startOnlyTrace : string :=
  markLine "10.5" "Startup" +:+ nl
  +:+ markLine "11.25" "trace_article_tap_start".

(** The end marker logged before the start marker. *)
Definition reversedPairTrace : string :=
  markLine "10.5" "Startup" +:+ nl
  +:+ markLine "11.25" "trace_article_fully_loaded_end" +:+ nl
  +:+ markLine "12.75" "trace_article_tap_start".

(** A metrics file of the first revision, with one startup metric. *)
Definition metricsFile : string :=
  "===== App Performance Metrics =====" +:+ nl +:+ nl
  +:+ "== Startup Performance Metrics ==" +:+ nl
  +:+ "Time from intent to performCreate: 0.250s" +:+ nl +:+ nl
  +:+ "== Custom Performance Markers ==" +:+ nl
  +:+ "app_js_initialized marker: Not found in trace" +:+ nl.

(** A start marker that is also listed as a custom marker. *)
Definition sharedStart : Config :=
  {| appPackage := package;
     customMarkers := ["tap_start"];
     pairedMarkers :=
       [ {| pm_start := "tap_start"; pm_end := "tap_end"; pm_name := "tap" |} ] |}.

(** The manual test event, then the end marker of the pair. *)
Definition manualThenEndTrace : string :=
  "1.5 TEST_EVENT_MANUAL" +:+ nl +:+ "2.5 tap_end".

(** The start marker of [sharedStart] stamped 2.5e12, the end marker
    4000000. *)
Definition sharedStartTrace : string :=
  markLine "2500000000000" "tap_start" +:+ nl +:+ markLine "4000000" "tap_end".

End Samples.

Import Samples.


(** ** Patterns and texts without a timestamp *)

(** The term [[0-9.]], taken once: every pattern of [processTraceData]
    has it, inside its group. *)
Definition isStampTerm (t : term) : bool :=
  match t with
  | One DigitOrDot => true
  | _ => false
  end.

Definition needsStamp (r : regex) : bool := existsb isStampTerm r.

(** A text with no digit and no dot in it. *)
Definition stampFree (text : string) : bool :=
  forallb (fun a => negb (accepts DigitOrDot a)) (list_ascii_of_string text).

(** No step of the function removes a property. *)
Definition keepsKeys (f : gmap string number -> gmap string number) : Prop :=
  forall (M : gmap string number) (k : string), is_Some (M !! k) -> is_Some (f M !! k).

(** ** The metrics file of one iteration *)

Module Report.

Definition nl : string := String (ascii_of_nat 10) EmptyString.

(** [if (x)] on a property that was read: its value when it is there and
    truthy. *)
Definition usable (x : option number) : option number :=
  match x with
  | Some t => if truthy t then Some t else None
  | None => None
  end.

(** One of the four blocks under [== App Lifecycle Events ==]. *)
Definition lifecycleEntry (title stampKey offsetKey : string)
    (metrics : gmap string number) (content : string) : string :=
  match usable (metrics !! stampKey) with
  | Some t =>
      let content :=
        content +:+ title +:+ ": " +:+ toFixed3 t +:+ " seconds (absolute time)"
          +:+ nl in
      match usable (metrics !! offsetKey) with
      | Some d =>
          content +:+ "  - Time from app start: " +:+ toFixed3 d +:+ " seconds" +:+ nl
      | None => content
      end
  | None => content
  end.

(** One round of [for (const marker of config.customMarkers)]. *)
Definition markerEntry (metrics : gmap string number) (content marker : string)
  : string :=
  let markerTimestamp := metrics !! timestampKey marker in
  let timeToMarker := metrics !! relativeTimeKey marker in
  match usable markerTimestamp with
  | Some t =>
      let content := content +:+ marker +:+ ":" +:+ nl in
      let content :=
        content +:+ "  - Absolute time: " +:+ toFixed3 t +:+ " seconds" +:+ nl in
      match usable timeToMarker with
      | Some d =>
          content +:+ "  - Time from app start (t=0): " +:+ toFixed3 d
            +:+ " seconds" +:+ nl
      | None => content
      end
  | None => content +:+ marker +:+ ": Not found in trace" +:+ nl
  end.

(** The start or the end marker of a pair; here the offset is printed
    whenever it is not [undefined]. *)
Definition pairSide (metrics : gmap string number) (content marker : string)
  : string :=
  match usable (metrics !! timestampKey marker) with
  | Some t =>
      let content := content +:+ marker +:+ ":" +:+ nl in
      let content :=
        content +:+ "  - Absolute time: " +:+ toFixed3 t +:+ " seconds" +:+ nl in
      match metrics !! relativeTimeKey marker with
      | Some d =>
          content +:+ "  - Time from app start (t=0): " +:+ toFixed3 d
            +:+ " seconds" +:+ nl
      | None => content
      end
  | None => content +:+ marker +:+ ": Not found in trace" +:+ nl
  end.

(** The duration line: [endTimestamp - startTimestamp] of the two
    properties as they stand in [metrics]; the [<name>Duration] property
    is read into [duration] and not used. *)
Definition durationLine (metrics : gmap string number) (pair : PairedMarker)
  : string :=
  match usable (metrics !! timestampKey (pm_start pair)),
        usable (metrics !! timestampKey (pm_end pair)) with
  | Some startTimestamp, Some endTimestamp =>
      let calculatedDuration := sub endTimestamp startTimestamp in
      "Duration of " +:+ pm_name pair +:+ ": " +:+ toFixed3 calculatedDuration
        +:+ " seconds" +:+ nl
  | _, _ => "Duration of " +:+ pm_name pair +:+ ": Could not be calculated" +:+ nl
  end.

(** One round of [for (const pair of config.pairedMarkers)]. *)
Definition pairEntry (metrics : gmap string number) (content : string)
    (pair : PairedMarker) : string :=
  let content := content +:+ "=== " +:+ pm_name pair +:+ " ===" +:+ nl in
  let content := pairSide metrics content (pm_start pair) in
  let content := pairSide metrics content (pm_end pair) in
  let content := content +:+ durationLine metrics pair in
  content +:+ nl.

(** The text [writeMetricsToFile] writes, given the date string and
    [config.warmMode]. *)
Definition writeMetricsToFile (date : string) (warmMode : bool)
    (metrics : gmap string number) (cfg : Config) : string :=
  let content := "=== Performance Metrics ===" +:+ nl in
  let content := content +:+ "App Package: " +:+ appPackage cfg +:+ nl in
  let content :=
    content +:+ "Run Mode: " +:+ (if warmMode then "Warm" else "Cold") +:+ nl in
  let content := content +:+ "Date: " +:+ date +:+ nl +:+ nl in
  let content :=
    match usable (metrics !! "appStartTimestamp") with
    | Some t =>
        content +:+ "App Start Timestamp (t=0): " +:+ toFixed3 t
          +:+ " seconds (absolute time)" +:+ nl +:+ nl
    | None => content
    end in
  let content := content +:+ "== App Lifecycle Events ==" +:+ nl in
  let content :=
    lifecycleEntry "Activity Create" "activityCreateTimestamp" "timeToCreate"
      metrics content in
  let content :=
    lifecycleEntry "Activity Start" "activityStartTimestamp" "timeToStart"
      metrics content in
  let content :=
    lifecycleEntry "Activity Resume" "activityResumeTimestamp" "timeToResume"
      metrics content in
  let content :=
    lifecycleEntry "Activity Fully Drawn" "activityDrawnTimestamp" "timeToFullyDrawn"
      metrics content in
  let content := content +:+ nl +:+ "== Custom Markers ==" +:+ nl in
  let content := foldl (markerEntry metrics) content (customMarkers cfg) in
  match pairedMarkers cfg with
  | [] => content
  | _ :: _ =>
      let content := content +:+ nl +:+ "== Paired Markers (Start/End) ==" +:+ nl in
      foldl (pairEntry metrics) content (pairedMarkers cfg)
  end.

(** The properties the report reads and uses. *)
Definition reportKeys (cfg : Config) : list string :=
  fixedKeys ++ flat_map markerKeys (customMarkers cfg)
  ++ flat_map (fun p => markerKeys (pm_start p) ++ markerKeys (pm_end p))
       (pairedMarkers cfg).

(** What [processTraceData] leaves in [metrics_<i>.txt]: it ends by
    handing its [metrics] to [writeMetricsToFile]. *)
Definition metricsFile (date : string) (warmMode : bool) (cfg : Config)
    (text : string) : string :=
  writeMetricsToFile date warmMode (processTraceData cfg text) cfg.

End Report.

(** ** [loadEnvConfig] *)

Module Env.

(** The pattern of [loadEnvConfig] (from [^] to [$]: white space, a group
    of one or more characters other than [=], white space, [=], white
    space, a group of characters up to a line terminator) has two groups,
    a negated class and both assertions; it gets a matcher of its own,
    with the classes as predicates and the captured texts in a list. *)
Inductive piece : Type :=
| Begin                       (* [^], no [m] flag: index 0 of the input *)
| Finish                      (* [$], no [m] flag: the end of the input *)
| Char (c : ascii -> bool)    (* one character of a class *)
| Star (c : ascii -> bool)    (* a class under a greedy [*] *)
| Open                        (* [(] *)
| Close.                      (* [)] *)

Definition captures : Type := list string.

(** A greedy [*]; [atStart] tells whether the position is still index 0. *)
Fixpoint star (c : ascii -> bool) (k : bool -> string -> option captures)
    (atStart : bool) (s : string) : option captures :=
  match s with
  | String a s' =>
      if c a then
        match star c k false s' with
        | Some r => Some r
        | None => k atStart s
        end
      else k atStart s
  | EmptyString => k atStart s
  end.

(** The matcher, anchored at the current position: the texts of the
    groups closed so far, in the order of their [)]. *)
Fixpoint run (r : list piece) (atStart : bool) (s : string) (opened : string)
    (caps : captures) {struct r} : option captures :=
  match r with
  | [] => Some caps
  | Begin :: r' => if atStart then run r' atStart s opened caps else None
  | Finish :: r' =>
      match s with
      | EmptyString => run r' atStart s opened caps
      | String _ _ => None
      end
  | Char c :: r' =>
      match s with
      | String a s' => if c a then run r' false s' opened caps else None
      | EmptyString => None
      end
  | Star c :: r' => star c (fun b s' => run r' b s' opened caps) atStart s
  | Open :: r' => run r' atStart s s caps
  | Close :: r' =>
      run r' atStart s opened
        (caps ++ [String.substring 0 (String.length opened - String.length s) opened])
  end.

Fixpoint searchFrom (r : list piece) (atStart : bool) (s : string)
  : option captures :=
  match run r atStart s "" [] with
  | Some caps => Some caps
  | None =>
      match s with
      | String _ s' => searchFrom r false s'
      | EmptyString => None
      end
  end.

(** [line.match(pattern)]: the groups of the leftmost match, or [null]. *)
Definition matchLine (r : list piece) (line : string) : option captures :=
  searchFrom r true line.

Definition isEquals (a : ascii) : bool := Ascii.eqb a "=".
Definition notEquals (a : ascii) : bool := negb (Ascii.eqb a "=").
Definition notLineTerminator (a : ascii) : bool := negb (isLineTerminator a).

(** The pattern, piece by piece: [^], [\s*], [([^=]+)], [\s*], [=],
    [\s*], the group of [.*], [$]. *)
Definition assignment : list piece :=
  [ Begin; Star isWhiteSpace; Open; Char notEquals; Star notEquals; Close;
    Star isWhiteSpace; Char isEquals; Star isWhiteSpace;
    Open; Star notLineTerminator; Close; Finish ].

(** [String.prototype.trim]. *)
Fixpoint trimEnd (s : string) : string :=
  match s with
  | String a s' =>
      match trimEnd s' with
      | EmptyString => if isWhiteSpace a then EmptyString else String a EmptyString
      | t => String a t
      end
  | EmptyString => EmptyString
  end.

Definition trim (s : string) : string := trimEnd (trimStart s).

(** [text.split("\n")]. *)
Fixpoint splitLines (s : string) : list string :=
  match s with
  | String a s' =>
      if Ascii.eqb a (ascii_of_nat 10) then EmptyString :: splitLines s'
      else
        match splitLines s' with
        | l :: ls => String a l :: ls
        | [] => [String a EmptyString]
        end
  | EmptyString => [EmptyString]
  end.

(** [config[key] = value] on a plain object: the key [__proto__] goes to
    the accessor of [Object.prototype], which ignores a string. *)
Definition assign (key value : string) (config : gmap string string)
  : gmap string string :=
  if String.eqb key "__proto__" then config else <[key := value]> config.

(** The body of [for (const line of lines)]. *)
Definition envLine (config : gmap string string) (line : string)
  : gmap string string :=
  if String.prefix "#" (trim line) || String.eqb (trim line) "" then config
  else
    match matchLine assignment line with
    | Some [key; value] => assign (trim key) (trim value) config
    | _ => config
    end.

(** [loadEnvConfig], given the text of the file, or [None] when there is
    no such file or it cannot be read. *)
Definition loadEnvConfig (file : option string) : gmap string string :=
  match file with
  | Some content => foldl envLine ∅ (splitLines content)
  | None => ∅
  end.

(** A text with a line terminator after its leading white space. *)
Definition brokenValue (v : string) : bool :=
  existsb isLineTerminator (list_ascii_of_string (trimStart v)).

Definition hasEquals (s : string) : bool :=
  existsb isEquals (list_ascii_of_string s).

(** A key part that the pattern and the two guards accept: no [=], not
    only white space, and no [#] at its first visible character. *)
Definition wellFormedKey (k : string) : bool :=
  negb (hasEquals k) && negb (String.eqb (trimStart k) "")
  && negb (String.prefix "#" (trimStart k)).

Definition singleLine (s : string) : bool :=
  forallb (fun a => negb (Ascii.eqb a (ascii_of_nat 10))) (list_ascii_of_string s).

(** The next character, if there is one, is not of the class. *)
Definition headRejects (c : ascii -> bool) (s : string) : Prop :=
  match s with
  | String a _ => c a = false
  | EmptyString => True
  end.

End Env.

(** ** [checkDeviceConnected] *)

Module Device.

(** The function, given [success] and [stdout] of [adb devices]. *)
Definition checkDeviceConnected (success : bool) (stdout : string) : bool :=
  if success then
    match Env.splitLines (Env.trim stdout) with
    | _ :: line :: _ => Summary.includes line "device"
    | _ => false
    end
  else false.

(** Nothing, or a line break and whatever follows. *)
Definition lineEnd (tail : string) : bool :=
  match tail with
  | EmptyString => true
  | String a _ => Ascii.eqb a (ascii_of_nat 10)
  end.

End Device.

(** ** Frame statistics of the first revision *)

Module Frames.

Definition mul : number -> number -> number := SFmul prec emax.

(** [match.match(/^([0-9.]+)/)] on one of the frame matches, then
    [timestamp ? parseFloat(timestamp[1]) : 0]. *)
Definition frameTimestamp (frameMatch : string) : number :=
  match run stamp frameMatch noGroups with
  | Some g => parseFloatGroup g
  | None => zero
  end.

(** [frameMatches.map(...).filter(ts => ts > 0)]. *)
Definition frameTimestamps (frameMatches : list string) : list number :=
  filter (fun ts => gt ts zero = true) (map frameTimestamp frameMatches).

(** [(frameTimestamps[i] - frameTimestamps[i-1]) * 1000] for [i] from 1. *)
Fixpoint frameDurations (timestamps : list number) : list number :=
  match timestamps with
  | previous :: (current :: _) as rest =>
      mul (sub current previous) (ofZ 1000) :: frameDurations rest
  | _ => []
  end.

Definition jankThreshold : number := parseFloat "16.67".
Definition severeJankThreshold : number := parseFloat "33.33".

Definition countAbove (threshold : number) (durations : list number) : nat :=
  length (filter (fun duration => gt duration threshold = true) durations).

Definition ofNat (n : nat) : number := ofZ (Z.of_nat n).

(** The block from [// Extract frame data] to the end of the
    calculations, given what
    [traceContent.match(/[0-9.]+.*Choreographer.*doFrame/g) || []] is. *)
Definition frameMetrics (frameMatches : list string)
    (metrics : gmap string number) : gmap string number :=
  let metrics := <["totalFrames" := ofNat (length frameMatches)]> metrics in
  if (1 <? length frameMatches)%nat then
    let frameDurations := frameDurations (frameTimestamps frameMatches) in
    match frameDurations with
    | [] => metrics
    | _ :: _ =>
        let avgFrameDuration :=
          div (foldl add zero frameDurations) (ofNat (length frameDurations)) in
        let metrics := <["avgFrameDuration" := avgFrameDuration]> metrics in
        let metrics := <["avgFps" := div (ofZ 1000) avgFrameDuration]> metrics in
        let jankyFrames := countAbove jankThreshold frameDurations in
        let metrics := <["jankyFrames" := ofNat jankyFrames]> metrics in
        let metrics :=
          <["jankyFramesPercentage" :=
              mul (div (ofNat jankyFrames) (ofNat (length frameDurations))) (ofZ 100)]>
            metrics in
        let severeJankyFrames := countAbove severeJankThreshold frameDurations in
        let metrics := <["severeJankyFrames" := ofNat severeJankyFrames]> metrics in
        <["severeJankyFramesPercentage" :=
            mul (div (ofNat severeJankyFrames) (ofNat (length frameDurations)))
              (ofZ 100)]> metrics
    end
  else metrics.

End Frames.

(** ** What a group can capture *)

(** The sign bit of a number; [NaN] has none. *)
Definition isNegative (x : number) : bool :=
  match x with
  | S754_zero s | S754_infinity s | S754_finite s _ _ => s
  | S754_nan => false
  end.

Definition isStampAtom (c : atom) : bool :=
  match c with
  | DigitOrDot => true
  | _ => false
  end.

(** Reads a pattern from left to right, [inside] telling whether the
    group is open: the result is that state at the end of the pattern, or
    [None] when the brackets do not pair up or the group holds anything
    but [[0-9.]] atoms. *)
Fixpoint groupState (inside : bool) (r : regex) : option bool :=
  match r with
  | [] => Some inside
  | One c :: r' | Rep _ c :: r' =>
      if inside && negb (isStampAtom c) then None else groupState inside r'
  | GroupOpen :: r' => if inside then None else groupState true r'
  | GroupClose :: r' => if inside then groupState false r' else None
  | AssertEnd :: r' => groupState inside r'
  end.

(** The group of the pattern holds digits and dots only. *)
Definition stampGroup (r : regex) : Prop := groupState false r = Some false.

(** A text of digits and dots. *)
Definition stampText (s : string) : bool :=
  forallb (accepts DigitOrDot) (list_ascii_of_string s).

Definition stampCapture (c : option string) : bool :=
  match c with
  | Some s => stampText s
  | None => true
  end.

(** While the group is open, what has been read since its [(] is digits
    and dots; what an earlier [)] captured is, too. *)
Definition groupInvariant (inside : bool) (s : string) (g : groups) : Prop :=
  stampCapture (captured g) = true
  /\ (inside = true ->
      exists w, opened g = w +:+ s /\ stampText w = true).

Definition isGroupTerm (t : term) : bool :=
  match t with
  | GroupOpen | GroupClose => true
  | _ => false
  end.

(** A stretch of pattern without brackets. *)
Definition noGroup (r : regex) : bool := forallb (fun t => negb (isGroupTerm t)) r.

(** The text begins with something other than white space or a minus
    sign. *)
Definition plainStart (s : string) : bool :=
  match s with
  | String a _ => negb (isWhiteSpace a) && negb (Ascii.eqb a "-")
  | EmptyString => true
  end.

(** A collected value that is a number above 0 (or [+Infinity]): truthy
    and without the sign bit. *)
Definition isPositive (v : number) : bool := truthy v && negb (isNegative v).

(** Every list of the object holds positive values only. *)
Definition allPositive (allMetrics : gmap string (list number)) : Prop :=
  forall (name : string) (values : list number) (v : number),
    allMetrics !! name = Some values -> v ∈ values -> isPositive v = true.

(** ** Markers that do not occur in the trace *)

(** The two patterns of a custom marker that do not mention it. *)
Definition manualEventPatterns : list regex :=
  [ stamp ++ star Dot ++ lit "TEST_EVENT_MANUAL";
    stamp ++ star Dot ++ lit "test_event_manual" ].

(** ** The looser patterns on a line *)

(** The characters the group accepts. *)
Definition stampChars : list ascii := list_ascii_of_string "0123456789.".

(** The pattern cannot begin at a digit or a dot: its first term is a
    single atom that accepts none of them. *)
Definition startsOffStamp (r : regex) : bool :=
  match r with
  | One c :: _ => forallb (fun a => negb (accepts c a)) stampChars
  | _ => false
  end.

(** A name that does not begin with a digit or a dot, and is not empty. *)
Definition startsWithLetter (name : string) : bool :=
  match name with
  | String a _ => negb (accepts DigitOrDot a)
  | EmptyString => false
  end.

Definition noLineBreak (s : string) : bool :=
  forallb (fun a => negb (isLineTerminator a)) (list_ascii_of_string s).

(** The text does not begin with a digit or a dot. *)
Definition startsOffNumber (s : string) : bool :=
  match s with
  | String a _ => negb (accepts DigitOrDot a)
  | EmptyString => true
  end.

(** The tails of the eight patterns of a custom marker that begin with
    the bare group, in order. *)
Definition looseTails (marker : string) : list regex :=
  [ lit "PerfettoTracer" ++ star Dot ++ lit "beginTrace" ++ star Dot ++ splice marker;
    lit "PerfettoTracer" ++ star Dot ++ splice marker;
    lit "beginTrace" ++ star Dot ++ splice marker;
    splice marker ++ star Dot ++ lit "begin";
    lit "begin" ++ star Dot ++ splice marker;
    lit "TEST_EVENT_MANUAL";
    lit "test_event_manual";
    splice marker ].

(** The text up to its first line terminator. *)
Fixpoint firstLine (s : string) : string :=
  match s with
  | String a s' => if isLineTerminator a then "" else String a (firstLine s')
  | EmptyString => ""
  end.

(** The empty text, or one that ends with a line terminator. *)
Fixpoint endsLine (s : string) : bool :=
  match s with
  | EmptyString => true
  | String a s' =>
      match s' with
      | EmptyString => isLineTerminator a
      | String _ _ => endsLine s'
      end
  end.

(** The empty text, or one that begins with a line terminator. *)
Definition startsLine (s : string) : bool :=
  match s with
  | String a _ => isLineTerminator a
  | EmptyString => true
  end.

(** The atom takes neither of the two line terminators. *)
Definition keepsToLine (c : atom) : bool :=
  negb (accepts c (ascii_of_nat 10)) && negb (accepts c (ascii_of_nat 13)).

(** No term of the pattern takes a line terminator, and none looks for
    the end of the input: a match lies within one line. *)
Definition lineBound (r : regex) : bool :=
  forallb (fun t => match t with
                    | One c | Rep _ c => keepsToLine c
                    | GroupOpen | GroupClose => true
                    | AssertEnd => false
                    end) r.

(** A stretch of text that reads [pre], the number [d], then [rest] up
    to the end of the line: [d] is the first number in it. *)
Definition firstNumber (pre d rest : string) : bool :=
  stampFree pre && stampText d && negb (String.eqb d "")
  && startsOffNumber rest && noLineBreak rest.

(** A name that a pattern can begin with after the number, and that
    stays within a line. *)
Definition lineName (name : string) : bool :=
  startsWithLetter name && noLineBreak name.

(** A log that mentions the marker on its second line; every line
    begins with the date. *)
Definition logBefore : string :=
  "01-02 11:59:59.900 ActivityManager: Start proc" +:+ nl.
Definition logRest : string :=
  "-02 12:00:00.123 PerfettoTracer: beginTrace app_js_initialized".
Definition logAfter : string :=
  nl +:+ "01-02 12:00:00.250 ActivityManager: Displayed".

(** ** More sample inputs *)

Module Inputs.

(** A pair of markers on a trace stamped in microseconds. *)
Definition microsecondPairTrace : string :=
  markLine "1500000" "Startup" +:+ nl
  +:+ markLine "2500000" "trace_article_tap_start" +:+ nl
  +:+ markLine "4000000" "trace_article_fully_loaded_end".

(** A metrics file of the first revision with a negative timing. *)
Definition negativeMetricsFile : string :=
  "== Startup Performance Metrics ==" +:+ nl
  +:+ "Time from intent to performCreate: -0.250s" +:+ nl.

Definition tab : string := String (ascii_of_nat 9) EmptyString.

(** What [adb devices] prints for one emulator in the given state. *)
Definition deviceList (state : string) : string :=
  "List of devices attached" +:+ nl +:+ "emulator-5554" +:+ tab +:+ state +:+ nl +:+ nl.

(** The same with no device, after the start-up banner of the server. *)
Definition bannerThenList : string :=
  "* daemon started successfully" +:+ nl +:+ "List of devices attached" +:+ nl +:+ nl.

Definition carriageReturn : string := String (ascii_of_nat 13) EmptyString.

Definition frameLines : list string :=
  [ "10.000 Choreographer#doFrame"; "10.016 Choreographer#doFrame";
    "10.056 Choreographer#doFrame" ].

End Inputs.

(** * Properties *)

(** ** Facts about the matcher *)

Lemma tailOf_trans (s1 s2 s3 : string) :
  tailOf s1 s2 -> tailOf s2 s3 -> tailOf s1 s3.
Proof.
  intros H12 H23. induction H23 as [|a t _ IH]; [exact H12|].
  apply tail_later, IH.
Qed.

Lemma repGreedy_none (c : atom) (k : string -> outcome) (s : string) :
  (forall s', tailOf s' s -> k s' = None) -> repGreedy c k s = None.
Proof.
  induction s as [|a s IH]; intros Hk; simpl.
  - apply Hk, tail_here.
  - rewrite IH by (intros s' Hs'; apply Hk, tail_later, Hs').
    rewrite (Hk _ (tail_here _)). destruct (accepts c a); reflexivity.
Qed.

Lemma repLazy_none (c : atom) (k : string -> outcome) (s : string) :
  (forall s', tailOf s' s -> k s' = None) -> repLazy c k s = None.
Proof.
  induction s as [|a s IH]; intros Hk; simpl.
  - rewrite (Hk _ (tail_here _)). reflexivity.
  - rewrite (Hk _ (tail_here _)).
    rewrite IH by (intros s' Hs'; apply Hk, tail_later, Hs').
    destruct (accepts c a); reflexivity.
Qed.

(** The rest of a pattern is only ever tried on what is left of the
    input: when it fails on every tail, the whole pattern fails. *)
Lemma run_tail_none (r1 r2 : regex) :
  forall s g,
    (forall s' g', tailOf s' s -> run r2 s' g' = None) ->
    run (r1 ++ r2) s g = None.
Proof.
  induction r1 as [|t r1 IH]; intros s g Hk.
  - apply Hk, tail_here.
  - destruct t as [c|[|] c| | |]; simpl.
    + destruct s as [|a s]; [reflexivity|].
      destruct (accepts c a); [|reflexivity].
      apply IH. intros s' g' Hs'. apply Hk, tail_later, Hs'.
    + apply repGreedy_none. intros s' Hs'. apply IH.
      intros s'' g' Hs''. apply Hk. eapply tailOf_trans; eassumption.
    + apply repLazy_none. intros s' Hs'. apply IH.
      intros s'' g' Hs''. apply Hk. eapply tailOf_trans; eassumption.
    + apply IH, Hk.
    + apply IH, Hk.
    + destruct s; [apply IH, Hk | reflexivity].
Qed.

Lemma run_app_none (r1 r2 : regex) :
  (forall s g, run r2 s g = None) -> forall s g, run (r1 ++ r2) s g = None.
Proof. intros H s g. apply run_tail_none. intros s' g' _. apply H. Qed.

Lemma repGreedy_mono (c : atom) (k k' : string -> outcome) (s : string) :
  (forall s', k s' = None -> k' s' = None) ->
  repGreedy c k s = None -> repGreedy c k' s = None.
Proof.
  intros Hk. induction s as [|a s IH]; simpl; [apply Hk|].
  destruct (accepts c a); [|apply Hk].
  destruct (repGreedy c k s); [discriminate|].
  intros H. rewrite IH by reflexivity. apply Hk, H.
Qed.

Lemma repLazy_mono (c : atom) (k k' : string -> outcome) (s : string) :
  (forall s', k s' = None -> k' s' = None) ->
  repLazy c k s = None -> repLazy c k' s = None.
Proof.
  intros Hk. induction s as [|a s IH]; simpl.
  - destruct (k "") eqn:E; [discriminate|]. rewrite (Hk _ E). reflexivity.
  - destruct (k (String a s)) eqn:E; [discriminate|]. rewrite (Hk _ E).
    destruct (accepts c a); [exact IH | reflexivity].
Qed.

(** Whether a pattern matches does not depend on the groups recorded so
    far: there are no back-references. *)
Lemma run_none_groups (r : regex) :
  forall s g g', run r s g = None -> run r s g' = None.
Proof.
  induction r as [|t r IH]; intros s g g'; simpl; [discriminate|].
  destruct t as [c|[|] c| | |].
  - destruct s as [|a s]; [reflexivity|]. destruct (accepts c a); [apply IH|reflexivity].
  - apply repGreedy_mono. intros s'. apply IH.
  - apply repLazy_mono. intros s'. apply IH.
  - apply IH.
  - apply IH.
  - destruct s; [apply IH | reflexivity].
Qed.

(** A pattern whose first part cannot match cannot match. *)
Lemma run_none_l (r1 r2 : regex) :
  forall s g, run r1 s g = None -> run (r1 ++ r2) s g = None.
Proof.
  induction r1 as [|t r1 IH]; intros s g; simpl; [discriminate|].
  destruct t as [c|[|] c| | |].
  - destruct s as [|a s]; [reflexivity|]. destruct (accepts c a); [apply IH|reflexivity].
  - apply repGreedy_mono. intros s'. apply IH.
  - apply repLazy_mono. intros s'. apply IH.
  - apply IH.
  - apply IH.
  - destruct s; [apply IH | reflexivity].
Qed.

Lemma search_none (r : regex) (t : string) :
  search r t = None <-> (forall s, tailOf s t -> run r s noGroups = None).
Proof.
  induction t as [|a t IH]; simpl.
  - split.
    + intros H s Hs. inversion Hs; subst. destruct (run r "" noGroups); congruence.
    + intros H. rewrite (H _ (tail_here _)). reflexivity.
  - split.
    + intros H s Hs. destruct (run r (String a t) noGroups) eqn:E; [discriminate|].
      inversion Hs; subst; [exact E|]. apply IH; assumption.
    + intros H. rewrite (H _ (tail_here _)). apply IH.
      intros s Hs. apply H, tail_later, Hs.
Qed.

Lemma search_never (r : regex) :
  (forall s g, run r s g = None) -> forall t, search r t = None.
Proof. intros H t. apply search_none. intros s _. apply H. Qed.

Lemma failsOn_search (t : string) (r : regex) : failsOn t r -> search r t = None.
Proof. intros H. apply search_none. intros s Hs. apply H, Hs. Qed.

Lemma failsOn_app (t : string) (r1 r2 : regex) :
  failsOn t r2 -> failsOn t (r1 ++ r2).
Proof.
  intros H s g Hs. apply run_tail_none. intros s' g' Hs'. apply H.
  eapply tailOf_trans; eassumption.
Qed.

(** A pattern that contains the spliced name cannot match a text in which
    the name alone, as a pattern, matches nowhere. *)
Lemma failsOn_splice (name t : string) (r : regex) :
  search (splice name) t = None -> failsOn t (splice name ++ r).
Proof.
  intros H s g Hs. apply run_none_l. apply (run_none_groups _ _ noGroups).
  apply (proj1 (search_none _ _) H), Hs.
Qed.

Lemma failsOn_splice_end (name t : string) :
  search (splice name) t = None -> failsOn t (splice name).
Proof.
  intros H s g Hs. apply (run_none_groups _ _ noGroups).
  apply (proj1 (search_none _ _) H), Hs.
Qed.

Ltac mentions name H :=
  lazymatch goal with
  | |- failsOn _ (splice name ++ _) => apply failsOn_splice, H
  | |- failsOn _ (splice name) => apply failsOn_splice_end, H
  | |- failsOn _ (_ ++ _) => apply failsOn_app; mentions name H
  end.

Lemma firstMatch_at (ps : list regex) (t : string) :
  forall (i : nat) (p : regex) (g : option string),
    ps !! i = Some p -> search p t = Some g ->
    (forall j q, (j < i)%nat -> ps !! j = Some q -> search q t = None) ->
    firstMatch ps t = Some g.
Proof.
  induction ps as [|p0 ps IH]; intros i p g Hi Hp Hbefore; [discriminate|].
  destruct i as [|i]; simpl in *.
  - injection Hi as ->. rewrite Hp. reflexivity.
  - rewrite (Hbefore 0%nat p0) by (reflexivity || lia).
    apply (IH i p g Hi Hp). intros j q Hj Hq.
    apply (Hbefore (S j) q); [lia | exact Hq].
Qed.

Lemma firstMatch_none (ps : list regex) (t : string) :
  (forall p, p ∈ ps -> search p t = None) -> firstMatch ps t = None.
Proof.
  induction ps as [|p0 ps IH]; intros H; simpl; [reflexivity|].
  rewrite (H p0) by apply list_elem_of_here.
  apply IH. intros p Hp. apply H, list_elem_of_further, Hp.
Qed.

Lemma firstMatch_found (ps : list regex) (t : string) (g : option string) :
  firstMatch ps t = Some g ->
  exists (i : nat) (p : regex),
    ps !! i = Some p /\ search p t = Some g
    /\ forall j q, (j < i)%nat -> ps !! j = Some q -> search q t = None.
Proof.
  induction ps as [|p0 ps IH]; simpl; [discriminate|].
  destruct (search p0 t) as [g0|] eqn:E.
  - intros [= ->]. exists 0%nat, p0. repeat split; [exact E|]. intros j q Hj. lia.
  - intros H. destruct (IH H) as (i & p & Hi & Hp & Hb).
    exists (S i), p. repeat split; [exact Hi | exact Hp |].
    intros [|j] q Hj Hq; simpl in Hq.
    + injection Hq as <-. exact E.
    + apply (Hb j q); [lia | exact Hq].
Qed.

Lemma uninterpolated_never (s : string) (g : groups) : run uninterpolated s g = None.
Proof. destruct s; reflexivity. Qed.

Lemma lifecyclePattern_never (event s : string) (g : groups) :
  run (lifecyclePattern event) s g = None.
Proof.
  unfold lifecyclePattern.
  do 4 (apply run_app_none; intros ? ?). apply uninterpolated_never.
Qed.

Lemma lifecyclePatternV1_never (event s : string) (g : groups) :
  run (lifecyclePatternV1 event) s g = None.
Proof.
  unfold lifecyclePatternV1.
  do 4 (apply run_app_none; intros ? ?). apply uninterpolated_never.
Qed.

Lemma deadEnd_never (r : regex) :
  deadEnd r = true -> forall s g, run r s g = None.
Proof.
  induction r as [|t r IH]; [discriminate|].
  intros H.
  destruct t as [c|b c| | |];
    try (intros s g; apply (run_app_none [_] r (IH H))).
  destruct r as [|[c|b c| | |] r'];
    try (intros s g; apply (run_app_none [AssertEnd] _ (IH H))).
  intros [|a s] g; reflexivity.
Qed.

(** ** Facts about the metrics object *)

#[global] Arguments search : simpl never.
#[global] Arguments firstMatch : simpl never.

Lemma setIfMatched_lookup (k : string) (o : outcome) (M : gmap string number)
    (k' : string) :
  setIfMatched k o M !! k' =
    if decide (k = k')
    then match o with Some g => Some (parseFloatGroup g) | None => M !! k' end
    else M !! k'.
Proof.
  unfold setIfMatched. destruct o; [apply lookup_insert|].
  destruct (decide (k = k')); reflexivity.
Qed.

Lemma deriveOffset_lookup (a : number) (from to : string)
    (M : gmap string number) (k' : string) :
  deriveOffset a from to M !! k' =
    if truthyProp (M !! from) && bool_decide (to = k')
    then (fun t => sub t a) <$> M !! from
    else M !! k'.
Proof.
  unfold deriveOffset. destruct (M !! from) as [t|]; [|reflexivity].
  simpl. destruct (truthy t); simpl; [|reflexivity].
  rewrite lookup_insert. unfold bool_decide. destruct (decide_rel eq to k'); reflexivity.
Qed.

Lemma updateIfTruthy_lookup (f : number -> number) (k : string)
    (M : gmap string number) (k' : string) :
  updateIfTruthy f k M !! k' =
    if decide (k = k') then whenTruthy f <$> M !! k' else M !! k'.
Proof.
  unfold updateIfTruthy. destruct (M !! k) as [t|] eqn:E.
  - destruct (truthy t) eqn:Ht.
    + rewrite lookup_insert. destruct (decide (k = k')) as [<-|]; [|reflexivity].
      rewrite E. simpl. unfold whenTruthy. rewrite Ht. reflexivity.
    + destruct (decide (k = k')) as [<-|]; [|reflexivity].
      rewrite E. simpl. unfold whenTruthy. rewrite Ht. reflexivity.
  - destruct (decide (k = k')) as [<-|]; [|reflexivity]. rewrite E. reflexivity.
Qed.

Lemma writesOnly_mono (f : gmap string number -> gmap string number)
    (ks ks' : list string) :
  writesOnly f ks -> (forall k, k ∈ ks -> k ∈ ks') -> writesOnly f ks'.
Proof. intros H Hsub M k Hk. apply H. intros Hin. apply Hk, Hsub, Hin. Qed.

Lemma writesOnly_compose (f g : gmap string number -> gmap string number)
    (ks : list string) :
  writesOnly f ks -> writesOnly g ks -> writesOnly (fun M => g (f M)) ks.
Proof. intros Hf Hg M k Hk. rewrite Hg, Hf; trivial. Qed.

Lemma writesOnly_id (ks : list string) : writesOnly (fun M => M) ks.
Proof. intros M k _. reflexivity. Qed.

Lemma writesOnly_insert (k : string) (v : number) (ks : list string) :
  k ∈ ks -> writesOnly (insert k v) ks.
Proof.
  intros Hin M k' Hk'. apply lookup_insert_ne. intros ->. exact (Hk' Hin).
Qed.

Lemma writesOnly_setIfMatched (k : string) (o : outcome) (ks : list string) :
  k ∈ ks -> writesOnly (setIfMatched k o) ks.
Proof.
  intros Hin M k' Hk'. rewrite setIfMatched_lookup.
  destruct (decide (k = k')) as [<-|]; [destruct (Hk' Hin) | reflexivity].
Qed.

Lemma writesOnly_deriveOffset (a : number) (from to : string) (ks : list string) :
  to ∈ ks -> writesOnly (deriveOffset a from to) ks.
Proof.
  intros Hin M k' Hk'. rewrite deriveOffset_lookup.
  rewrite bool_decide_eq_false_2 by (intros ->; exact (Hk' Hin)).
  rewrite andb_false_r. reflexivity.
Qed.

Lemma writesOnly_updateIfTruthy (f : number -> number) (k : string)
    (ks : list string) :
  k ∈ ks -> writesOnly (updateIfTruthy f k) ks.
Proof.
  intros Hin M k' Hk'. rewrite updateIfTruthy_lookup.
  destruct (decide (k = k')) as [<-|]; [destruct (Hk' Hin) | reflexivity].
Qed.

Lemma writesOnly_foldl {A : Type}
    (step : gmap string number -> A -> gmap string number)
    (keys : A -> list string) (l : list A) :
  (forall x, writesOnly (fun M => step M x) (keys x)) ->
  writesOnly (fun M => foldl step M l) (flat_map keys l).
Proof.
  intros Hstep. induction l as [|x l IH]; intros M k Hk; simpl in *; [reflexivity|].
  rewrite IH by (intros Hin; apply Hk, elem_of_app; right; exact Hin).
  apply Hstep. intros Hin. apply Hk, elem_of_app. left. exact Hin.
Qed.

Lemma agreeOn_refl (ks : list string) (M : gmap string number) : agreeOn ks M M.
Proof. intros k _. reflexivity. Qed.

Lemma agreeOn_trans (ks : list string) (M1 M2 M3 : gmap string number) :
  agreeOn ks M1 M2 -> agreeOn ks M2 M3 -> agreeOn ks M1 M3.
Proof. intros H12 H23 k Hk. rewrite H12, H23; trivial. Qed.

(** A map that does not write [ks] leaves its argument as it was there. *)
Lemma writesOnly_agreeOn (f : gmap string number -> gmap string number)
    (ws ks : list string) (M : gmap string number) :
  writesOnly f ws -> (forall k, k ∈ ks -> k ∉ ws) -> agreeOn ks (f M) M.
Proof. intros Hf Hdis k Hk. apply Hf, Hdis, Hk. Qed.

Lemma readsOnly_compose (f g : gmap string number -> gmap string number)
    (ks : list string) :
  readsOnly f ks -> readsOnly g ks -> readsOnly (fun M => g (f M)) ks.
Proof. intros Hf Hg M M' H. apply Hg, Hf, H. Qed.

Lemma readsOnly_insert (k : string) (v : number) (ks : list string) :
  readsOnly (insert k v) ks.
Proof.
  intros M M' H k' Hk'. rewrite !lookup_insert.
  destruct (decide (k = k')); [reflexivity | apply H, Hk'].
Qed.

Lemma readsOnly_setIfMatched (k : string) (o : outcome) (ks : list string) :
  readsOnly (setIfMatched k o) ks.
Proof.
  intros M M' H k' Hk'. rewrite !setIfMatched_lookup. rewrite (H k' Hk'). reflexivity.
Qed.

Lemma readsOnly_deriveOffset (a : number) (from to : string) (ks : list string) :
  from ∈ ks -> readsOnly (deriveOffset a from to) ks.
Proof.
  intros Hfrom M M' H k' Hk'. rewrite !deriveOffset_lookup.
  rewrite (H from Hfrom), (H k' Hk'). reflexivity.
Qed.

Lemma readsOnly_updateIfTruthy (f : number -> number) (k : string)
    (ks : list string) :
  readsOnly (updateIfTruthy f k) ks.
Proof.
  intros M M' H k' Hk'. rewrite !updateIfTruthy_lookup. rewrite (H k' Hk'). reflexivity.
Qed.

(** In a loop whose rounds write disjoint sets of properties and read
    only their own, the properties of one element end as that element's
    round leaves them. *)
Lemma foldl_local {A : Type}
    (step : gmap string number -> A -> gmap string number)
    (keys : A -> list string) (l : list A) (x : A) :
  (forall y, writesOnly (fun M => step M y) (keys y)) ->
  (forall y, readsOnly (fun M => step M y) (keys y)) ->
  NoDup (flat_map keys l) -> x ∈ l ->
  forall M M0, agreeOn (keys x) M M0 ->
    agreeOn (keys x) (foldl step M l) (step M0 x).
Proof.
  intros Hw Hr. induction l as [|y l IH]; intros Hnd Hx M M0 Hagree.
  - inversion Hx.
  - simpl in Hnd. apply NoDup_app in Hnd as (Hy & Hdis & Hl). simpl.
    apply elem_of_cons in Hx as [->|Hx].
    + eapply agreeOn_trans.
      * apply (writesOnly_agreeOn _ _ _ _ (writesOnly_foldl step keys l Hw)).
        intros k Hk. apply Hdis, Hk.
      * apply (Hr y), Hagree.
    + apply IH; [exact Hl | exact Hx |].
      eapply agreeOn_trans; [|exact Hagree].
      apply (writesOnly_agreeOn _ _ _ _ (Hw y)).
      intros k Hk Hky. apply (Hdis k Hky).
      apply list_elem_of_In, in_flat_map. exists x. split; apply list_elem_of_In; assumption.
Qed.

Ltac solve_in :=
  unfold markerKeys, pairKeys, fixedKeys;
  solve [ repeat first [ apply list_elem_of_here | apply list_elem_of_further ] ].

Ltac untouched Hk :=
  repeat (let Hd := fresh "Hd" in
          case_decide as Hd; [exfalso; apply Hk; rewrite <- Hd; solve_in|]);
  reflexivity.

Lemma collectMarker_writes (text : string) (m : string) :
  writesOnly (fun M => collectMarker text M m) (markerKeys m).
Proof. apply writesOnly_setIfMatched. solve_in. Qed.

Lemma collectMarker_reads (text : string) (m : string) :
  readsOnly (fun M => collectMarker text M m) (markerKeys m).
Proof. apply readsOnly_setIfMatched. Qed.

Lemma collectPair_writes (text : string) (p : PairedMarker) :
  writesOnly (fun M => collectPair text M p) (pairKeys p).
Proof.
  intros M k Hk. unfold collectPair. cbv zeta.
  destruct (truthy _ && truthy _).
  - rewrite lookup_insert, !setIfMatched_lookup. untouched Hk.
  - rewrite !setIfMatched_lookup. untouched Hk.
Qed.

Lemma collectPair_reads (text : string) (p : PairedMarker) :
  readsOnly (fun M => collectPair text M p) (pairKeys p).
Proof.
  intros M M' H k Hk. unfold collectPair. cbv zeta.
  destruct (truthy _ && truthy _);
    rewrite ?lookup_insert, !setIfMatched_lookup, (H k Hk); reflexivity.
Qed.

Lemma deriveMarker_writes (a : number) (m : string) :
  writesOnly (fun M => deriveMarker a M m) (markerKeys m).
Proof. apply writesOnly_deriveOffset. solve_in. Qed.

Lemma deriveMarker_reads (a : number) (m : string) :
  readsOnly (fun M => deriveMarker a M m) (markerKeys m).
Proof. apply readsOnly_deriveOffset. solve_in. Qed.

Lemma derivePair_lookup (a : number) (M : gmap string number)
    (p : PairedMarker) (k : string) :
  derivePair a M p !! k =
    if truthyProp (M !! timestampKey (pm_end p))
       && bool_decide (relativeTimeKey (pm_end p) = k)
    then (fun t => sub t a) <$> M !! timestampKey (pm_end p)
    else deriveOffset a (timestampKey (pm_start p))
           (relativeTimeKey (pm_start p)) M !! k.
Proof.
  unfold derivePair, deriveOffset. cbv zeta.
  destruct (M !! timestampKey (pm_end p)) as [te|]; [|reflexivity].
  simpl. destruct (truthy te); simpl; [|reflexivity].
  rewrite lookup_insert. unfold bool_decide.
  destruct (decide_rel eq (relativeTimeKey (pm_end p)) k); reflexivity.
Qed.

Lemma derivePair_writes (a : number) (p : PairedMarker) :
  writesOnly (fun M => derivePair a M p) (pairKeys p).
Proof.
  intros M k Hk. rewrite derivePair_lookup.
  rewrite (writesOnly_deriveOffset a _ _ (pairKeys p)) by (solve_in || exact Hk).
  rewrite bool_decide_eq_false_2; [rewrite andb_false_r; reflexivity|].
  intros E. apply Hk. rewrite <- E. solve_in.
Qed.

Lemma derivePair_reads (a : number) (p : PairedMarker) :
  readsOnly (fun M => derivePair a M p) (pairKeys p).
Proof.
  intros M M' H k Hk. rewrite !derivePair_lookup.
  rewrite (H (timestampKey (pm_end p))) by solve_in.
  rewrite (readsOnly_deriveOffset a (timestampKey (pm_start p))
             (relativeTimeKey (pm_start p)) (pairKeys p) ltac:(solve_in) M M' H k Hk).
  reflexivity.
Qed.

Lemma normalizeMarker_writes (m : string) :
  writesOnly (fun M => normalizeMarker M m) (markerKeys m).
Proof.
  intros M k Hk. unfold normalizeMarker. cbv zeta.
  rewrite !updateIfTruthy_lookup. untouched Hk.
Qed.

Lemma normalizeMarker_reads (m : string) :
  readsOnly (fun M => normalizeMarker M m) (markerKeys m).
Proof.
  intros M M' H k Hk. unfold normalizeMarker. cbv zeta.
  rewrite !updateIfTruthy_lookup, (H k Hk). reflexivity.
Qed.

Lemma normalizePair_writes (p : PairedMarker) :
  writesOnly (fun M => normalizePair M p) (pairKeys p).
Proof.
  intros M k Hk. unfold normalizePair. cbv zeta.
  rewrite !updateIfTruthy_lookup. untouched Hk.
Qed.

Lemma normalizePair_reads (p : PairedMarker) :
  readsOnly (fun M => normalizePair M p) (pairKeys p).
Proof.
  intros M M' H k Hk. unfold normalizePair. cbv zeta.
  rewrite !updateIfTruthy_lookup, (H k Hk). reflexivity.
Qed.

(** No lifecycle pattern matches, so the lifecycle block writes nothing. *)
Lemma collectLifecycle_id (text : string) (M : gmap string number) :
  collectLifecycle text M = M.
Proof.
  unfold collectLifecycle, createPattern, startPattern, resumePattern, drawnPattern.
  cbv zeta.
  rewrite !(search_never _ (lifecyclePattern_never _)). reflexivity.
Qed.

Lemma readsOnly_deriveOffset_after
    (f : gmap string number -> gmap string number) (a : number)
    (from to : string) (ks : list string) :
  readsOnly f ks -> from ∈ ks ->
  readsOnly (fun M => deriveOffset a from to (f M)) ks.
Proof.
  intros Hf Hfrom. apply (readsOnly_compose f (deriveOffset a from to)); [exact Hf|].
  apply readsOnly_deriveOffset, Hfrom.
Qed.

Lemma deriveLifecycle_writes (a : number) :
  writesOnly (deriveLifecycle a) fixedKeys.
Proof.
  intros M k Hk. unfold deriveLifecycle. cbv zeta.
  rewrite !(writesOnly_deriveOffset a _ _ fixedKeys) by (solve_in || exact Hk).
  reflexivity.
Qed.

Lemma deriveLifecycle_reads (a : number) :
  readsOnly (deriveLifecycle a) fixedKeys.
Proof.
  unfold deriveLifecycle.
  repeat (apply readsOnly_deriveOffset_after; [|solve_in]).
  intros M M' H. exact H.
Qed.

Lemma normalizeLifecycle_writes : writesOnly normalizeLifecycle fixedKeys.
Proof.
  intros M k Hk. unfold normalizeLifecycle. cbv zeta.
  rewrite !updateIfTruthy_lookup. untouched Hk.
Qed.

Lemma normalizeLifecycle_reads : readsOnly normalizeLifecycle fixedKeys.
Proof.
  intros M M' H k Hk. unfold normalizeLifecycle. cbv zeta.
  rewrite !updateIfTruthy_lookup, (H k Hk). reflexivity.
Qed.

(** *** What distinct keys give *)

Lemma markerKeys_in (cfg : Config) (m k : string) :
  m ∈ customMarkers cfg -> k ∈ markerKeys m ->
  k ∈ flat_map markerKeys (customMarkers cfg).
Proof.
  intros Hm Hk. apply list_elem_of_In, in_flat_map.
  exists m. split; apply list_elem_of_In; assumption.
Qed.

Lemma pairKeys_in (cfg : Config) (p : PairedMarker) (k : string) :
  p ∈ pairedMarkers cfg -> k ∈ pairKeys p ->
  k ∈ flat_map pairKeys (pairedMarkers cfg).
Proof.
  intros Hp Hk. apply list_elem_of_In, in_flat_map.
  exists p. split; apply list_elem_of_In; assumption.
Qed.

Lemma distinctKeys_parts (cfg : Config) :
  distinctKeys cfg ->
  NoDup (flat_map markerKeys (customMarkers cfg))
  /\ NoDup (flat_map pairKeys (pairedMarkers cfg))
  /\ (forall k, k ∈ fixedKeys ->
        (k ∉ flat_map markerKeys (customMarkers cfg))
        /\ (k ∉ flat_map pairKeys (pairedMarkers cfg)))
  /\ (forall k, k ∈ flat_map markerKeys (customMarkers cfg) ->
        k ∉ flat_map pairKeys (pairedMarkers cfg)).
Proof.
  unfold distinctKeys, metricKeys. intros H.
  apply NoDup_app in H as (_ & Hfix & H).
  apply NoDup_app in H as (HM & HMP & HP).
  repeat split; try assumption.
  - intros Hin. apply (Hfix k); [assumption|]. apply elem_of_app. left. exact Hin.
  - intros Hin. apply (Hfix k); [assumption|]. apply elem_of_app. right. exact Hin.
Qed.

(** A pass of the function: the fixed block, the marker loop, the pair
    loop.  The properties of one marker end as its own round leaves
    them. *)
Lemma pass_marker (cfg : Config) (m : string)
    (F : gmap string number -> gmap string number)
    (stepM : gmap string number -> string -> gmap string number)
    (stepP : gmap string number -> PairedMarker -> gmap string number) :
  distinctKeys cfg -> m ∈ customMarkers cfg ->
  writesOnly F fixedKeys ->
  (forall y, writesOnly (fun M => stepM M y) (markerKeys y)) ->
  (forall y, readsOnly (fun M => stepM M y) (markerKeys y)) ->
  (forall y, writesOnly (fun M => stepP M y) (pairKeys y)) ->
  forall M M0, agreeOn (markerKeys m) M M0 ->
    agreeOn (markerKeys m)
      (foldl stepP (foldl stepM (F M) (customMarkers cfg)) (pairedMarkers cfg))
      (stepM M0 m).
Proof.
  intros Hd Hm HF HMw HMr HPw M M0 Hagree.
  destruct (distinctKeys_parts cfg Hd) as (HndM & HndP & Hfix & HMP).
  eapply agreeOn_trans.
  - apply (writesOnly_agreeOn _ _ _ _ (writesOnly_foldl stepP pairKeys _ HPw)).
    intros k Hk. apply HMP. eapply markerKeys_in; eassumption.
  - apply (foldl_local stepM markerKeys); try assumption.
    eapply agreeOn_trans; [|exact Hagree].
    apply (writesOnly_agreeOn _ _ _ _ HF).
    intros k Hk Hfixed. apply (proj1 (Hfix k Hfixed)).
    eapply markerKeys_in; eassumption.
Qed.

Lemma pass_pair (cfg : Config) (p : PairedMarker)
    (F : gmap string number -> gmap string number)
    (stepM : gmap string number -> string -> gmap string number)
    (stepP : gmap string number -> PairedMarker -> gmap string number) :
  distinctKeys cfg -> p ∈ pairedMarkers cfg ->
  writesOnly F fixedKeys ->
  (forall y, writesOnly (fun M => stepM M y) (markerKeys y)) ->
  (forall y, writesOnly (fun M => stepP M y) (pairKeys y)) ->
  (forall y, readsOnly (fun M => stepP M y) (pairKeys y)) ->
  forall M M0, agreeOn (pairKeys p) M M0 ->
    agreeOn (pairKeys p)
      (foldl stepP (foldl stepM (F M) (customMarkers cfg)) (pairedMarkers cfg))
      (stepP M0 p).
Proof.
  intros Hd Hp HF HMw HPw HPr M M0 Hagree.
  destruct (distinctKeys_parts cfg Hd) as (HndM & HndP & Hfix & HMP).
  apply (foldl_local stepP pairKeys); try assumption.
  eapply agreeOn_trans; [|exact Hagree].
  eapply agreeOn_trans.
  - apply (writesOnly_agreeOn _ _ _ _ (writesOnly_foldl stepM markerKeys _ HMw)).
    intros k Hk HkM. apply (HMP k HkM). eapply pairKeys_in; eassumption.
  - apply (writesOnly_agreeOn _ _ _ _ HF).
    intros k Hk Hfixed. apply (proj2 (Hfix k Hfixed)).
    eapply pairKeys_in; eassumption.
Qed.

Lemma pass_fixed (cfg : Config)
    (F : gmap string number -> gmap string number)
    (stepM : gmap string number -> string -> gmap string number)
    (stepP : gmap string number -> PairedMarker -> gmap string number) :
  distinctKeys cfg ->
  readsOnly F fixedKeys ->
  (forall y, writesOnly (fun M => stepM M y) (markerKeys y)) ->
  (forall y, writesOnly (fun M => stepP M y) (pairKeys y)) ->
  forall M M0, agreeOn fixedKeys M M0 ->
    agreeOn fixedKeys
      (foldl stepP (foldl stepM (F M) (customMarkers cfg)) (pairedMarkers cfg))
      (F M0).
Proof.
  intros Hd HF HMw HPw M M0 Hagree.
  destruct (distinctKeys_parts cfg Hd) as (HndM & HndP & Hfix & HMP).
  eapply agreeOn_trans.
  - apply (writesOnly_agreeOn _ _ _ _ (writesOnly_foldl stepP pairKeys _ HPw)).
    intros k Hk. apply (proj2 (Hfix k Hk)).
  - eapply agreeOn_trans.
    + apply (writesOnly_agreeOn _ _ _ _ (writesOnly_foldl stepM markerKeys _ HMw)).
      intros k Hk. apply (proj1 (Hfix k Hk)).
    + apply HF, Hagree.
Qed.

(** *** The three passes, property by property *)

Lemma collect_marker (cfg : Config) (text m : string) :
  distinctKeys cfg -> m ∈ customMarkers cfg ->
  agreeOn (markerKeys m) (collect cfg text) (collectMarker text ∅ m).
Proof.
  intros Hd Hm. unfold collect. cbv zeta.
  apply (pass_marker cfg m
           (fun M => collectLifecycle text
                       (<["appStartTimestamp" := resolveAppStart (appPackage cfg) text]> M))
           (collectMarker text) (collectPair text) Hd Hm).
  - intros M k Hk. rewrite collectLifecycle_id.
    apply (writesOnly_insert "appStartTimestamp" _ fixedKeys ltac:(solve_in) M k Hk).
  - apply collectMarker_writes.
  - apply collectMarker_reads.
  - apply collectPair_writes.
  - apply agreeOn_refl.
Qed.

Lemma collect_pair (cfg : Config) (text : string) (p : PairedMarker) :
  distinctKeys cfg -> p ∈ pairedMarkers cfg ->
  agreeOn (pairKeys p) (collect cfg text) (collectPair text ∅ p).
Proof.
  intros Hd Hp. unfold collect. cbv zeta.
  apply (pass_pair cfg p
           (fun M => collectLifecycle text
                       (<["appStartTimestamp" := resolveAppStart (appPackage cfg) text]> M))
           (collectMarker text) (collectPair text) Hd Hp).
  - intros M k Hk. rewrite collectLifecycle_id.
    apply (writesOnly_insert "appStartTimestamp" _ fixedKeys ltac:(solve_in) M k Hk).
  - apply collectMarker_writes.
  - apply collectPair_writes.
  - apply collectPair_reads.
  - apply agreeOn_refl.
Qed.

Lemma collect_fixed (cfg : Config) (text : string) :
  distinctKeys cfg ->
  agreeOn fixedKeys (collect cfg text)
    (<["appStartTimestamp" := resolveAppStart (appPackage cfg) text]> ∅).
Proof.
  intros Hd. unfold collect. cbv zeta. rewrite collectLifecycle_id.
  apply (pass_fixed cfg (fun M => M) (collectMarker text) (collectPair text) Hd).
  - intros M M' H. exact H.
  - apply collectMarker_writes.
  - apply collectPair_writes.
  - apply agreeOn_refl.
Qed.

(** With distinct keys, the properties of a custom marker in the result
    are those its own three rounds produce. *)
Lemma marker_local (cfg : Config) (text m : string) :
  distinctKeys cfg -> m ∈ customMarkers cfg ->
  agreeOn (markerKeys m) (processTraceData cfg text)
    (markerMetrics (resolveAppStart (appPackage cfg) text) text m).
Proof.
  intros Hd Hm. unfold processTraceData, markerMetrics, normalizeAll. cbv zeta.
  apply (pass_marker cfg m normalizeLifecycle normalizeMarker normalizePair Hd Hm
           normalizeLifecycle_writes normalizeMarker_writes normalizeMarker_reads
           normalizePair_writes).
  unfold deriveOffsets.
  destruct (truthy (resolveAppStart (appPackage cfg) text)).
  - apply (pass_marker cfg m (deriveLifecycle _) (deriveMarker _) (derivePair _) Hd Hm
             (deriveLifecycle_writes _) (deriveMarker_writes _) (deriveMarker_reads _)
             (derivePair_writes _)).
    apply collect_marker; assumption.
  - apply collect_marker; assumption.
Qed.

Lemma pair_local (cfg : Config) (text : string) (p : PairedMarker) :
  distinctKeys cfg -> p ∈ pairedMarkers cfg ->
  agreeOn (pairKeys p) (processTraceData cfg text)
    (pairMetrics (resolveAppStart (appPackage cfg) text) text p).
Proof.
  intros Hd Hp. unfold processTraceData, pairMetrics, normalizeAll. cbv zeta.
  apply (pass_pair cfg p normalizeLifecycle normalizeMarker normalizePair Hd Hp
           normalizeLifecycle_writes normalizeMarker_writes
           normalizePair_writes normalizePair_reads).
  unfold deriveOffsets.
  destruct (truthy (resolveAppStart (appPackage cfg) text)).
  - apply (pass_pair cfg p (deriveLifecycle _) (deriveMarker _) (derivePair _) Hd Hp
             (deriveLifecycle_writes _) (deriveMarker_writes _)
             (derivePair_writes _) (derivePair_reads _)).
    apply collect_pair; assumption.
  - apply collect_pair; assumption.
Qed.

Lemma fixed_local (cfg : Config) (text : string) :
  distinctKeys cfg ->
  agreeOn fixedKeys (processTraceData cfg text)
    (lifecycleMetrics (resolveAppStart (appPackage cfg) text) text).
Proof.
  intros Hd. unfold processTraceData, lifecycleMetrics, normalizeAll. cbv zeta.
  rewrite collectLifecycle_id.
  apply (pass_fixed cfg normalizeLifecycle normalizeMarker normalizePair Hd
           normalizeLifecycle_reads normalizeMarker_writes normalizePair_writes).
  unfold deriveOffsets.
  destruct (truthy (resolveAppStart (appPackage cfg) text)).
  - apply (pass_fixed cfg (deriveLifecycle _) (deriveMarker _) (derivePair _) Hd
             (deriveLifecycle_reads _) (deriveMarker_writes _) (derivePair_writes _)).
    apply collect_fixed; assumption.
  - apply collect_fixed; assumption.
Qed.

Lemma distinctKeys_marker (cfg : Config) (m : string) :
  distinctKeys cfg -> m ∈ customMarkers cfg ->
  timestampKey m <> relativeTimeKey m.
Proof.
  intros Hd Hm. destruct (distinctKeys_parts cfg Hd) as (HndM & _).
  apply list_elem_of_In, in_split in Hm as (l1 & l2 & E).
  rewrite E, flat_map_app in HndM. apply NoDup_app in HndM as (_ & _ & H).
  simpl in H. apply NoDup_cons in H as (H & _).
  intros E'. apply H. rewrite E'. apply list_elem_of_here.
Qed.

Lemma distinctKeys_pair (cfg : Config) (p : PairedMarker) :
  distinctKeys cfg -> p ∈ pairedMarkers cfg -> NoDup (pairKeys p).
Proof.
  intros Hd Hp. destruct (distinctKeys_parts cfg Hd) as (_ & HndP & _).
  apply list_elem_of_In, in_split in Hp as (l1 & l2 & E).
  rewrite E, flat_map_app in HndP. apply NoDup_app in HndP as (_ & _ & H).
  change (flat_map pairKeys (p :: l2))
    with (pairKeys p ++ flat_map pairKeys l2) in H.
  apply NoDup_app in H as (H & _). exact H.
Qed.

Lemma markerMetrics_timestamp (a : number) (text m : string) :
  timestampKey m <> relativeTimeKey m ->
  markerMetrics a text m !! timestampKey m =
    whenTruthy normalizeTimestamp
      <$> (parseFloatGroup <$> firstMatch (markerPatterns m) text).
Proof.
  intros Hne. unfold markerMetrics, normalizeMarker, deriveMarker, collectMarker.
  generalize (firstMatch (markerPatterns m) text). intros o.
  cbv zeta. rewrite !updateIfTruthy_lookup.
  rewrite decide_False by (intros E; apply Hne; symmetry; exact E).
  rewrite decide_True by reflexivity.
  f_equal.
  destruct (truthy a);
    rewrite ?deriveOffset_lookup, ?setIfMatched_lookup;
    rewrite ?bool_decide_eq_false_2 by (intros E; apply Hne; symmetry; exact E);
    rewrite ?andb_false_r, ?setIfMatched_lookup, ?decide_True by reflexivity;
    destruct o; reflexivity.
Qed.

Lemma markerMetrics_relative (a : number) (text m : string) :
  timestampKey m <> relativeTimeKey m ->
  markerMetrics a text m !! relativeTimeKey m =
    match firstMatch (markerPatterns m) text with
    | Some g =>
        if truthy a && truthy (parseFloatGroup g)
        then Some (whenTruthy round3 (sub (parseFloatGroup g) a))
        else None
    | None => None
    end.
Proof.
  intros Hne. unfold markerMetrics, normalizeMarker, deriveMarker, collectMarker.
  generalize (firstMatch (markerPatterns m) text). intros o.
  cbv zeta. rewrite !updateIfTruthy_lookup.
  rewrite decide_True by reflexivity.
  rewrite decide_False by exact Hne.
  destruct (truthy a); simpl.
  - rewrite deriveOffset_lookup, !setIfMatched_lookup.
    rewrite decide_True by reflexivity. rewrite decide_False by exact Hne.
    rewrite bool_decide_eq_true_2 by reflexivity.
    destruct o as [g|]; [|reflexivity].
    simpl. rewrite andb_true_r. destruct (truthy (parseFloatGroup g)); reflexivity.
  - rewrite !setIfMatched_lookup. rewrite decide_False by exact Hne.
    destruct o; reflexivity.
Qed.

Lemma NoDup_5 (k1 k2 k3 k4 k5 : string) :
  NoDup [k1; k2; k3; k4; k5] ->
  k1 <> k2 /\ k1 <> k3 /\ k1 <> k4 /\ k1 <> k5 /\ k2 <> k3 /\ k2 <> k4
  /\ k2 <> k5 /\ k3 <> k4 /\ k3 <> k5 /\ k4 <> k5.
Proof.
  intros H. repeat (apply NoDup_cons in H as [? H]). set_solver.
Qed.

Ltac decide_keys :=
  repeat first
    [ rewrite decide_True by reflexivity
    | rewrite decide_False by (assumption || (apply not_eq_sym; assumption))
    | rewrite bool_decide_eq_true_2 by reflexivity
    | rewrite bool_decide_eq_false_2 by (assumption || (apply not_eq_sym; assumption)) ].


Lemma collectPair_lookups (text : string) (p : PairedMarker) :
  NoDup (pairKeys p) ->
  let os := firstMatch (pairPatterns (pm_start p)) text in
  let oe := firstMatch (pairPatterns (pm_end p)) text in
  collectPair text ∅ p !! timestampKey (pm_start p) = (parseFloatGroup <$> os)
  /\ collectPair text ∅ p !! timestampKey (pm_end p) = (parseFloatGroup <$> oe)
  /\ collectPair text ∅ p !! durationKey (pm_name p)
      = (if truthy (resolved os) && truthy (resolved oe)
         then Some (sub (resolved oe) (resolved os)) else None)
  /\ collectPair text ∅ p !! relativeTimeKey (pm_start p) = None
  /\ collectPair text ∅ p !! relativeTimeKey (pm_end p) = None.
Proof.
  intros Hnd. apply NoDup_5 in Hnd as (?&?&?&?&?&?&?&?&?&?).
  unfold collectPair.
  generalize (firstMatch (pairPatterns (pm_start p)) text). intros os.
  generalize (firstMatch (pairPatterns (pm_end p)) text). intros oe.
  cbv zeta.
  repeat split;
    destruct (truthy (resolved os) && truthy (resolved oe));
    rewrite ?lookup_insert, ?setIfMatched_lookup; decide_keys;
    rewrite ?setIfMatched_lookup; decide_keys; destruct os, oe; reflexivity.
Qed.

Lemma truthyProp_resolved (o : outcome) :
  truthyProp (parseFloatGroup <$> o) = truthy (resolved o).
Proof. destruct o; reflexivity. Qed.

Lemma pairMetrics_lookups (a : number) (text : string) (p : PairedMarker) :
  NoDup (pairKeys p) ->
  let os := firstMatch (pairPatterns (pm_start p)) text in
  let oe := firstMatch (pairPatterns (pm_end p)) text in
  pairMetrics a text p !! timestampKey (pm_start p)
    = (whenTruthy normalizeTimestamp <$> (parseFloatGroup <$> os))
  /\ pairMetrics a text p !! timestampKey (pm_end p)
    = (whenTruthy normalizeTimestamp <$> (parseFloatGroup <$> oe))
  /\ pairMetrics a text p !! durationKey (pm_name p)
    = (if truthy (resolved os) && truthy (resolved oe)
       then Some (whenTruthy round3 (sub (resolved oe) (resolved os))) else None)
  /\ pairMetrics a text p !! relativeTimeKey (pm_start p)
    = (if truthy a && truthy (resolved os)
       then Some (whenTruthy round3 (sub (resolved os) a)) else None)
  /\ pairMetrics a text p !! relativeTimeKey (pm_end p)
    = (if truthy a && truthy (resolved oe)
       then Some (whenTruthy round3 (sub (resolved oe) a)) else None).
Proof.
  intros Hnd. destruct (collectPair_lookups text p Hnd) as (Hs & He & Hd & Hrs & Hre).
  apply NoDup_5 in Hnd as (?&?&?&?&?&?&?&?&?&?).
  cbv zeta in *. unfold pairMetrics, normalizePair. cbv zeta.
  rewrite !updateIfTruthy_lookup. decide_keys.
  destruct (truthy a);
    rewrite ?derivePair_lookup, ?deriveOffset_lookup; decide_keys;
    rewrite ?andb_false_r, ?andb_true_r, ?Hs, ?He, ?Hd, ?Hrs, ?Hre,
      ?truthyProp_resolved;
    repeat split; try reflexivity.
  all: repeat match goal with
       | |- context [firstMatch ?ps ?t] => destruct (firstMatch ps t); simpl
       end;
       repeat match goal with
       | |- context [truthy ?x] => destruct (truthy x); simpl
       end; reflexivity.
Qed.

Lemma lifecycleMetrics_lookup (a : number) (text k : string) :
  lifecycleMetrics a text !! k =
    if decide (k = "appStartTimestamp")
    then Some (whenTruthy normalizeTimestamp a)
    else None.
Proof.
  unfold lifecycleMetrics. rewrite collectLifecycle_id.
  assert (D : deriveLifecycle a (<["appStartTimestamp" := a]> ∅)
              = <["appStartTimestamp" := a]> ∅) by reflexivity.
  rewrite D. clear D.
  replace (if truthy a then <["appStartTimestamp" := a]> ∅
           else <["appStartTimestamp" := a]> ∅)
    with (<["appStartTimestamp" := a]> (∅ : gmap string number))
    by (destruct (truthy a); reflexivity).
  unfold normalizeLifecycle.
  rewrite !updateIfTruthy_lookup, lookup_insert, lookup_empty.
  repeat case_decide; subst; try discriminate; try reflexivity; congruence.
Qed.

(** ** Keys that cannot coincide *)

Lemma append_assoc (a b c : string) : (a +:+ b) +:+ c = a +:+ (b +:+ c).
Proof.
  induction a as [|x a IH]; [reflexivity|].
  change (String x ((a +:+ b) +:+ c) = String x (a +:+ (b +:+ c))).
  f_equal. exact IH.
Qed.

Lemma length_append (s t : string) :
  String.length (s +:+ t) = (String.length s + String.length t)%nat.
Proof.
  induction s as [|a s IH]; [reflexivity|].
  change (S (String.length (s +:+ t)) = S (String.length s + String.length t)).
  rewrite IH. reflexivity.
Qed.

(** Two texts that end in suffixes of the same length are equal only if
    the suffixes are. *)
Lemma append_eq_suffix (s1 s2 t1 t2 : string) :
  String.length t1 = String.length t2 ->
  s1 +:+ t1 = s2 +:+ t2 -> s1 = s2 /\ t1 = t2.
Proof.
  intros Hlen. revert s2. induction s1 as [|a s1 IH]; intros [|b s2] E.
  - split; [reflexivity | exact E].
  - change (t1 = String b (s2 +:+ t2)) in E. rewrite E in Hlen.
    change (S (String.length (s2 +:+ t2)) = String.length t2) in Hlen.
    rewrite length_append in Hlen. lia.
  - change (String a (s1 +:+ t1) = t2) in E. rewrite <- E in Hlen.
    change (String.length t1 = S (String.length (s1 +:+ t1))) in Hlen.
    rewrite length_append in Hlen. lia.
  - change (String a (s1 +:+ t1) = String b (s2 +:+ t2)) in E.
    injection E as -> E. destruct (IH s2 E) as [-> ->]. split; reflexivity.
Qed.

Lemma durationKey_inj (n1 n2 : string) :
  durationKey n1 = durationKey n2 -> n1 = n2.
Proof.
  unfold durationKey. intros E.
  apply (append_eq_suffix n1 n2 "Duration" "Duration" eq_refl E).
Qed.

Lemma timestampKey_not_durationKey (x n : string) :
  timestampKey x <> durationKey n.
Proof.
  unfold timestampKey, durationKey. intros E.
  replace (x +:+ "Timestamp") with ((x +:+ "T") +:+ "imestamp") in E
    by (rewrite append_assoc; reflexivity).
  destruct (append_eq_suffix (x +:+ "T") n "imestamp" "Duration" eq_refl E)
    as [_ [=]].
Qed.

Lemma fixedKeys_not_durationKey (k n : string) :
  k ∈ fixedKeys -> k <> durationKey n.
Proof.
  intros Hk E. unfold fixedKeys in Hk.
  repeat (apply elem_of_cons in Hk as [->|Hk]); try (inversion Hk; fail).
  - apply (timestampKey_not_durationKey "appStart" n E).
  - apply (timestampKey_not_durationKey "activityCreate" n E).
  - apply (timestampKey_not_durationKey "activityStart" n E).
  - apply (timestampKey_not_durationKey "activityResume" n E).
  - apply (timestampKey_not_durationKey "activityDrawn" n E).
  - change ("time" +:+ "ToCreate" = n +:+ "Duration") in E.
    destruct (append_eq_suffix "time" n "ToCreate" "Duration" eq_refl E) as [_ [=]].
  - change ("tim" +:+ "eToStart" = n +:+ "Duration") in E.
    destruct (append_eq_suffix "tim" n "eToStart" "Duration" eq_refl E) as [_ [=]].
  - change ("time" +:+ "ToResume" = n +:+ "Duration") in E.
    destruct (append_eq_suffix "time" n "ToResume" "Duration" eq_refl E) as [_ [=]].
  - change ("timeToFu" +:+ "llyDrawn" = n +:+ "Duration") in E.
    destruct (append_eq_suffix "timeToFu" n "llyDrawn" "Duration" eq_refl E) as [_ [=]].
Qed.

(** ** The duration of one pair, whatever else is configured *)

Lemma NoDup_names_split (pairs : list PairedMarker) (p : PairedMarker) :
  NoDup (pm_name <$> pairs) -> p ∈ pairs ->
  exists l1 l2, pairs = l1 ++ p :: l2
    /\ (forall q, q ∈ l1 ++ l2 -> pm_name q <> pm_name p).
Proof.
  intros Hnd Hp. apply list_elem_of_split in Hp as (l1 & l2 & ->).
  exists l1, l2. split; [reflexivity|].
  rewrite fmap_app, fmap_cons in Hnd.
  apply NoDup_app in Hnd as (_ & Hdis & Hnd). apply NoDup_cons in Hnd as (Hp2 & _).
  intros q Hq E. apply elem_of_app in Hq as [Hq|Hq].
  - apply (Hdis (pm_name q)); [apply list_elem_of_fmap; eauto|].
    rewrite E. apply list_elem_of_here.
  - apply Hp2. rewrite <- E. apply list_elem_of_fmap. eauto.
Qed.

Section Duration.

Variable cfg : Config.
Variable p : PairedMarker.
Hypothesis Hfree :
  forall x, x ∈ subjects cfg -> relativeTimeKey x <> durationKey (pm_name p).

Lemma duration_not_markerKeys (m : string) :
  m ∈ customMarkers cfg -> durationKey (pm_name p) ∉ markerKeys m.
Proof.
  intros Hm Hin. unfold markerKeys in Hin.
  apply elem_of_cons in Hin as [E|Hin].
  - exact (timestampKey_not_durationKey _ _ (eq_sym E)).
  - apply elem_of_cons in Hin as [E|Hin]; [|inversion Hin].
    apply (Hfree m); [|exact (eq_sym E)].
    unfold subjects. apply elem_of_app. left. exact Hm.
Qed.

Lemma pair_subjects (q : PairedMarker) :
  q ∈ pairedMarkers cfg -> pm_start q ∈ subjects cfg /\ pm_end q ∈ subjects cfg.
Proof.
  intros Hq. unfold subjects.
  split; apply elem_of_app; right; apply list_elem_of_In, in_flat_map;
    exists q; (split; [apply list_elem_of_In, Hq | simpl; auto]).
Qed.

Lemma duration_not_pairKeys (q : PairedMarker) :
  q ∈ pairedMarkers cfg -> pm_name q <> pm_name p ->
  durationKey (pm_name p) ∉ pairKeys q.
Proof.
  intros Hq Hne Hin. destruct (pair_subjects q Hq) as [Hs He].
  unfold pairKeys in Hin.
  repeat (apply elem_of_cons in Hin as [E|Hin]); [..|inversion Hin].
  - exact (timestampKey_not_durationKey _ _ (eq_sym E)).
  - exact (timestampKey_not_durationKey _ _ (eq_sym E)).
  - apply Hne. symmetry. exact (durationKey_inj _ _ E).
  - exact (Hfree _ Hs (eq_sym E)).
  - exact (Hfree _ He (eq_sym E)).
Qed.

Lemma duration_not_fixedKeys : durationKey (pm_name p) ∉ fixedKeys.
Proof. intros Hin. exact (fixedKeys_not_durationKey _ _ Hin eq_refl). Qed.

(** A pass over the custom markers leaves the duration alone. *)
Lemma duration_past_markers
    (step : gmap string number -> string -> gmap string number)
    (M : gmap string number) :
  (forall m, writesOnly (fun M => step M m) (markerKeys m)) ->
  foldl step M (customMarkers cfg) !! durationKey (pm_name p)
    = M !! durationKey (pm_name p).
Proof.
  intros Hw. apply (writesOnly_foldl step markerKeys _ Hw).
  intros Hin. apply list_elem_of_In, in_flat_map in Hin as (m & Hm & Hin).
  apply list_elem_of_In in Hm, Hin. exact (duration_not_markerKeys m Hm Hin).
Qed.

(** So does a pass over pairs of other names. *)
Lemma duration_past_pairs
    (step : gmap string number -> PairedMarker -> gmap string number)
    (l : list PairedMarker) (M : gmap string number) :
  (forall q, writesOnly (fun M => step M q) (pairKeys q)) ->
  (forall q, q ∈ l -> q ∈ pairedMarkers cfg /\ pm_name q <> pm_name p) ->
  foldl step M l !! durationKey (pm_name p) = M !! durationKey (pm_name p).
Proof.
  intros Hw Hl. apply (writesOnly_foldl step pairKeys _ Hw).
  intros Hin. apply list_elem_of_In, in_flat_map in Hin as (q & Hq & Hin).
  apply list_elem_of_In in Hq, Hin. destruct (Hl q Hq) as [Hq' Hne].
  exact (duration_not_pairKeys q Hq' Hne Hin).
Qed.

Hypothesis Hp : p ∈ pairedMarkers cfg.
Hypothesis Hnames : NoDup (pm_name <$> pairedMarkers cfg).

(** A pass over all the pairs changes the duration as the round of [p]
    alone does, when that round looks at no other property to set it. *)
Lemma duration_pass
    (step : gmap string number -> PairedMarker -> gmap string number)
    (change : option number -> option number) (M : gmap string number) :
  (forall q, writesOnly (fun M => step M q) (pairKeys q)) ->
  (forall M, step M p !! durationKey (pm_name p)
             = change (M !! durationKey (pm_name p))) ->
  foldl step M (pairedMarkers cfg) !! durationKey (pm_name p)
    = change (M !! durationKey (pm_name p)).
Proof.
  intros Hw Hstep.
  destruct (NoDup_names_split _ p Hnames Hp) as (l1 & l2 & E & Hne).
  assert (Hin : forall q, q ∈ l1 ++ l2 -> q ∈ pairedMarkers cfg).
  { intros q Hq. rewrite E. apply elem_of_app in Hq as [Hq|Hq].
    - apply elem_of_app. left. exact Hq.
    - apply elem_of_app. right. apply list_elem_of_further. exact Hq. }
  rewrite E at 1. rewrite foldl_app. simpl.
  rewrite (duration_past_pairs step l2 _ Hw) by
    (intros q Hq; split; [apply Hin | apply Hne];
     apply elem_of_app; right; exact Hq).
  rewrite Hstep.
  rewrite (duration_past_pairs step l1 _ Hw) by
    (intros q Hq; split; [apply Hin | apply Hne];
     apply elem_of_app; left; exact Hq).
  reflexivity.
Qed.

Lemma collectPair_duration (text : string) (M : gmap string number) :
  collectPair text M p !! durationKey (pm_name p)
  = (fun old =>
       if truthy (resolved (firstMatch (pairPatterns (pm_start p)) text))
          && truthy (resolved (firstMatch (pairPatterns (pm_end p)) text))
       then Some (sub (resolved (firstMatch (pairPatterns (pm_end p)) text))
                      (resolved (firstMatch (pairPatterns (pm_start p)) text)))
       else old) (M !! durationKey (pm_name p)).
Proof.
  unfold collectPair. cbv zeta beta.
  destruct (truthy _ && truthy _).
  - apply lookup_insert_eq.
  - rewrite !setIfMatched_lookup.
    rewrite !decide_False by apply timestampKey_not_durationKey. reflexivity.
Qed.

Lemma derivePair_duration (a : number) (M : gmap string number) :
  derivePair a M p !! durationKey (pm_name p) = M !! durationKey (pm_name p).
Proof.
  destruct (pair_subjects p Hp) as [Hs He].
  rewrite derivePair_lookup, deriveOffset_lookup.
  rewrite !bool_decide_eq_false_2 by (apply Hfree; assumption).
  rewrite !andb_false_r. reflexivity.
Qed.

Lemma normalizePair_duration (M : gmap string number) :
  normalizePair M p !! durationKey (pm_name p)
  = (whenTruthy round3 <$> M !! durationKey (pm_name p)).
Proof.
  destruct (pair_subjects p Hp) as [Hs He].
  unfold normalizePair. cbv zeta. rewrite !updateIfTruthy_lookup.
  rewrite !(decide_False (P := relativeTimeKey _ = _)) by (apply Hfree; assumption).
  rewrite decide_True by reflexivity.
  rewrite !decide_False by apply timestampKey_not_durationKey. reflexivity.
Qed.

(** The duration of [p] in the result. *)
Lemma duration_lookup (text : string) :
  processTraceData cfg text !! durationKey (pm_name p)
  = if truthy (resolved (firstMatch (pairPatterns (pm_start p)) text))
       && truthy (resolved (firstMatch (pairPatterns (pm_end p)) text))
    then Some (whenTruthy round3
                 (sub (resolved (firstMatch (pairPatterns (pm_end p)) text))
                      (resolved (firstMatch (pairPatterns (pm_start p)) text))))
    else None.
Proof.
  pose proof duration_not_fixedKeys as Hfix.
  assert (Hc : collect cfg text !! durationKey (pm_name p)
               = if truthy (resolved (firstMatch (pairPatterns (pm_start p)) text))
                    && truthy (resolved (firstMatch (pairPatterns (pm_end p)) text))
                 then Some (sub (resolved (firstMatch (pairPatterns (pm_end p)) text))
                                (resolved (firstMatch (pairPatterns (pm_start p)) text)))
                 else None).
  { unfold collect. cbv zeta.
    rewrite (duration_pass (collectPair text) _ _ (collectPair_writes text)
               (collectPair_duration text)).
    rewrite (duration_past_markers (collectMarker text) _ (collectMarker_writes text)).
    rewrite collectLifecycle_id, lookup_insert_ne
      by (intros E; apply Hfix; rewrite <- E; solve_in).
    rewrite lookup_empty. reflexivity. }
  assert (Hder : deriveOffsets cfg (resolveAppStart (appPackage cfg) text)
                   (collect cfg text) !! durationKey (pm_name p)
                 = collect cfg text !! durationKey (pm_name p)).
  { unfold deriveOffsets.
    destruct (truthy (resolveAppStart (appPackage cfg) text)); [|reflexivity].
    cbv zeta.
    rewrite (duration_pass (derivePair _) (fun old => old) _
               (derivePair_writes _) (derivePair_duration _)).
    rewrite (duration_past_markers (deriveMarker _) _ (deriveMarker_writes _)).
    apply deriveLifecycle_writes, Hfix. }
  unfold processTraceData, normalizeAll. cbv zeta.
  rewrite (duration_pass normalizePair (fmap (whenTruthy round3)) _
             normalizePair_writes normalizePair_duration).
  rewrite (duration_past_markers normalizeMarker _ normalizeMarker_writes).
  rewrite (normalizeLifecycle_writes _ _ Hfix), Hder, Hc.
  destruct (truthy _ && truthy _); reflexivity.
Qed.

End Duration.

Lemma collect_anchor (cfg : Config) (text : string) :
  distinctKeys cfg ->
  collect cfg text !! "appStartTimestamp"
    = Some (resolveAppStart (appPackage cfg) text).
Proof.
  intros Hd. rewrite (collect_fixed cfg text Hd) by solve_in.
  apply lookup_insert_eq.
Qed.

Lemma collect_marker_timestamp (cfg : Config) (text m : string) :
  distinctKeys cfg -> m ∈ customMarkers cfg ->
  collect cfg text !! timestampKey m
    = (parseFloatGroup <$> firstMatch (markerPatterns m) text).
Proof.
  intros Hd Hm. rewrite (collect_marker cfg text m Hd Hm) by solve_in.
  unfold collectMarker. rewrite setIfMatched_lookup, decide_True by reflexivity.
  destruct (firstMatch (markerPatterns m) text); reflexivity.
Qed.

Lemma collect_pair_timestamps (cfg : Config) (text : string) (p : PairedMarker) :
  distinctKeys cfg -> p ∈ pairedMarkers cfg ->
  collect cfg text !! timestampKey (pm_start p)
    = (parseFloatGroup <$> firstMatch (pairPatterns (pm_start p)) text)
  /\ collect cfg text !! timestampKey (pm_end p)
    = (parseFloatGroup <$> firstMatch (pairPatterns (pm_end p)) text).
Proof.
  intros Hd Hp.
  destruct (collectPair_lookups text p (distinctKeys_pair cfg p Hd Hp))
    as (Hs & He & _).
  rewrite !(collect_pair cfg text p Hd Hp) by solve_in. split; assumption.
Qed.

Lemma is_Some_if (b : bool) (v : number) :
  is_Some (if b then Some v else None) <-> b = true.
Proof.
  destruct b; split; intros H; try reflexivity; try discriminate; eauto.
  destruct H as [? [=]].
Qed.

(** Presence of the offset of one marker name. *)
Lemma marker_offset_presence (cfg : Config) (text m : string) :
  distinctKeys cfg -> m ∈ customMarkers cfg ->
  is_Some (processTraceData cfg text !! relativeTimeKey m)
  <-> truthy (resolveAppStart (appPackage cfg) text) = true
      /\ truthyProp (collect cfg text !! timestampKey m) = true.
Proof.
  intros Hd Hm.
  rewrite (marker_local cfg text m Hd Hm) by solve_in.
  rewrite (markerMetrics_relative _ _ _ (distinctKeys_marker cfg m Hd Hm)).
  rewrite (collect_marker_timestamp cfg text m Hd Hm).
  destruct (firstMatch (markerPatterns m) text) as [g|]; simpl.
  - rewrite is_Some_if. apply andb_true_iff.
  - split; [intros [? [=]] | intros [_ [=]]].
Qed.

Lemma pair_offset_presence (cfg : Config) (text : string) (p : PairedMarker) :
  distinctKeys cfg -> p ∈ pairedMarkers cfg ->
  (is_Some (processTraceData cfg text !! relativeTimeKey (pm_start p))
   <-> truthy (resolveAppStart (appPackage cfg) text) = true
       /\ truthyProp (collect cfg text !! timestampKey (pm_start p)) = true)
  /\ (is_Some (processTraceData cfg text !! relativeTimeKey (pm_end p))
      <-> truthy (resolveAppStart (appPackage cfg) text) = true
          /\ truthyProp (collect cfg text !! timestampKey (pm_end p)) = true)
  /\ (is_Some (processTraceData cfg text !! durationKey (pm_name p))
      <-> truthyProp (collect cfg text !! timestampKey (pm_start p)) = true
          /\ truthyProp (collect cfg text !! timestampKey (pm_end p)) = true).
Proof.
  intros Hd Hp.
  pose proof (distinctKeys_pair cfg p Hd Hp) as Hnd.
  destruct (pairMetrics_lookups (resolveAppStart (appPackage cfg) text) text p Hnd)
    as (_ & _ & Hdur & Hrs & Hre).
  destruct (collect_pair_timestamps cfg text p Hd Hp) as (Hcs & Hce).
  rewrite !(pair_local cfg text p Hd Hp) by solve_in.
  rewrite Hdur, Hrs, Hre, Hcs, Hce, !truthyProp_resolved, !is_Some_if.
  split; [|split]; apply andb_true_iff.
Qed.

(** C7 (as amended): for a configuration whose property names do not
    collide, a derived offset is in the result exactly when the anchor and
    the absolute timestamp it is computed from, as collected from the
    trace, are both numbers other than 0 (neither 0 nor NaN); a duration
    is in the result exactly when both timestamps of its pair are; with no
    anchor no offset is in the result; and a timestamp that is exactly 0
    counts as not found. *)
Theorem derived_keys_presence (cfg : Config) (text : string) :
  plainConfig cfg = true -> distinctKeys cfg ->
  let anchor := resolveAppStart (appPackage cfg) text in
  let collected := collect cfg text in
  let metrics := processTraceData cfg text in
  collected !! "appStartTimestamp" = Some anchor
  /\ (forall from to, (from, to) ∈ offsetOperands cfg ->
        (is_Some (metrics !! to)
         <-> truthy anchor = true /\ truthyProp (collected !! from) = true))
  /\ (forall p, p ∈ pairedMarkers cfg ->
        (is_Some (metrics !! durationKey (pm_name p))
         <-> truthyProp (collected !! timestampKey (pm_start p)) = true
             /\ truthyProp (collected !! timestampKey (pm_end p)) = true))
  /\ (truthy anchor = false ->
        forall from to, (from, to) ∈ offsetOperands cfg -> metrics !! to = None)
  /\ (forall from to, (from, to) ∈ offsetOperands cfg ->
        collected !! from = Some zero -> metrics !! to = None).
Proof.
  intros _ Hd anchor collected metrics.
  assert (Hiff : forall from to, (from, to) ∈ offsetOperands cfg ->
            (is_Some (metrics !! to)
             <-> truthy anchor = true /\ truthyProp (collected !! from) = true)).
  { intros from to Hin. unfold offsetOperands in Hin.
    apply elem_of_app in Hin as [Hin|Hin].
    - assert (Hto : metrics !! to = None /\ collected !! from = None).
      { unfold metrics, collected.
        repeat (apply elem_of_cons in Hin as [[= -> ->]|Hin]);
          try (inversion Hin; fail);
          (split;
           [ rewrite (fixed_local cfg text Hd) by solve_in;
             rewrite lifecycleMetrics_lookup; reflexivity
           | rewrite (collect_fixed cfg text Hd) by solve_in; reflexivity ]). }
      destruct Hto as [-> ->]. simpl.
      split; [intros [? [=]] | intros [_ [=]]].
    - apply list_elem_of_fmap in Hin as (x & [= -> ->] & Hx).
      unfold subjects in Hx. apply elem_of_app in Hx as [Hx|Hx].
      + apply marker_offset_presence; assumption.
      + apply list_elem_of_In, in_flat_map in Hx as (p & Hp & Hx).
        apply list_elem_of_In in Hp.
        destruct (pair_offset_presence cfg text p Hd Hp) as (Hs & He & _).
        destruct Hx as [<-|[<-|[]]]; assumption. }
  split; [apply collect_anchor, Hd|].
  split; [exact Hiff|].
  split; [|split].
  - intros p Hp. apply (pair_offset_presence cfg text p Hd Hp).
  - intros Hfalse from to Hin.
    destruct (metrics !! to) as [v|] eqn:E; [|reflexivity].
    destruct (proj1 (Hiff from to Hin)) as [Ha _]; [rewrite E; eauto|].
    congruence.
  - intros from to Hin Hzero.
    destruct (metrics !! to) as [v|] eqn:E; [|reflexivity].
    destruct (proj1 (Hiff from to Hin)) as [_ Hv]; [rewrite E; eauto|].
    rewrite Hzero in Hv. discriminate.
Qed.

Lemma derived_keys_presence_witness :
  plainConfig onePair = true /\ distinctKeys onePair
  /\ (is_Some (processTraceData onePair pairTrace !! "article_loadDuration")
      <-> truthyProp (collect onePair pairTrace !! "trace_article_tap_startTimestamp")
            = true
          /\ truthyProp
               (collect onePair pairTrace !! "trace_article_fully_loaded_endTimestamp")
             = true).
Proof.
  assert (Hp : plainConfig onePair = true) by reflexivity.
  assert (Hd : distinctKeys onePair)
    by (apply (bool_decide_unpack _); vm_compute; exact I).
  split; [exact Hp|]. split; [exact Hd|].
  destruct (derived_keys_presence onePair pairTrace Hp Hd) as (_ & _ & Hdur & _).
  apply (Hdur {| pm_start := "trace_article_tap_start";
                 pm_end := "trace_article_fully_loaded_end";
                 pm_name := "article_load" |}).
  apply list_elem_of_here.
Defined.

(** C7, the claim as stated fails: a marker found behind an ellipsis has
    the timestamp NaN, which is present and is not 0, and the anchor is
    present and not 0, yet there is no offset; and a start marker that is
    also a custom marker can have its timestamp from the manual-event
    pattern, so that both timestamps of the pair are present and not 0,
    yet there is no duration. *)
Lemma derived_keys_counterexample :
  (presentNonZero (processTraceData oneMarker ellipsisTrace !! "appStartTimestamp")
     = true
   /\ presentNonZero
        (processTraceData oneMarker ellipsisTrace !! "app_js_initializedTimestamp")
      = true
   /\ processTraceData oneMarker ellipsisTrace !! "timeToapp_js_initialized" = None)
  /\ (presentNonZero
        (processTraceData sharedStart manualThenEndTrace !! "tap_startTimestamp") = true
      /\ presentNonZero
           (processTraceData sharedStart manualThenEndTrace !! "tap_endTimestamp") = true
      /\ processTraceData sharedStart manualThenEndTrace !! "tapDuration" = None).
Proof. vm_compute. repeat split. Qed.

Lemma whenTruthy_normalize_small (v : number) :
  gt v (ofZ 1000000) = false -> whenTruthy normalizeTimestamp v = v.
Proof.
  intros H. unfold whenTruthy, normalizeTimestamp. rewrite H.
  destruct (truthy v); reflexivity.
Qed.

Lemma anchor_metric (cfg : Config) (text : string) :
  distinctKeys cfg ->
  processTraceData cfg text !! "appStartTimestamp"
    = Some (whenTruthy normalizeTimestamp (resolveAppStart (appPackage cfg) text)).
Proof.
  intros Hd. rewrite (fixed_local cfg text Hd) by solve_in.
  rewrite lifecycleMetrics_lookup. reflexivity.
Qed.

(** On a trace stamped in seconds (nothing above 1,000,000) and with
    property names that do not collide, a custom marker found by its
    pattern list has as [<marker>Timestamp] the timestamp captured by the
    first pattern that matches, and, when that timestamp and the anchor
    are both usable, [timeTo<marker>] is their difference rounded to three
    decimals (a zero difference is kept as it is). *)
Lemma marker_timestamp_and_offset (cfg : Config) (text m : string)
    (g : option string) :
  plainConfig cfg = true -> distinctKeys cfg -> m ∈ customMarkers cfg ->
  firstMatch (markerPatterns m) text = Some g ->
  gt (parseFloatGroup g) (ofZ 1000000) = false ->
  gt (resolveAppStart (appPackage cfg) text) (ofZ 1000000) = false ->
  processTraceData cfg text !! timestampKey m = Some (parseFloatGroup g)
  /\ processTraceData cfg text !! "appStartTimestamp"
     = Some (resolveAppStart (appPackage cfg) text)
  /\ (truthy (resolveAppStart (appPackage cfg) text) = true ->
      truthy (parseFloatGroup g) = true ->
      processTraceData cfg text !! relativeTimeKey m
      = Some (whenTruthy round3
                (sub (parseFloatGroup g) (resolveAppStart (appPackage cfg) text)))).
Proof.
  intros _ Hd Hm Hg Hv Ha.
  pose proof (distinctKeys_marker cfg m Hd Hm) as Hne.
  split; [|split].
  - rewrite (marker_local cfg text m Hd Hm) by solve_in.
    rewrite (markerMetrics_timestamp _ _ _ Hne), Hg. simpl.
    rewrite (whenTruthy_normalize_small _ Hv). reflexivity.
  - rewrite (anchor_metric cfg text Hd), (whenTruthy_normalize_small _ Ha).
    reflexivity.
  - intros Hta Htv.
    rewrite (marker_local cfg text m Hd Hm) by solve_in.
    rewrite (markerMetrics_relative _ _ _ Hne), Hg, Hta, Htv. reflexivity.
Qed.

Lemma marker_timestamp_and_offset_witness :
  processTraceData oneMarker scenarioTrace !! "app_js_initializedTimestamp"
    = Some (parseFloat "124.100")
  /\ processTraceData oneMarker scenarioTrace !! "appStartTimestamp"
     = Some (parseFloat "123.456")
  /\ processTraceData oneMarker scenarioTrace !! "timeToapp_js_initialized"
     = Some (parseFloat "0.644").
Proof.
  assert (Hp : plainConfig oneMarker = true) by reflexivity.
  assert (Hd : distinctKeys oneMarker)
    by (apply (bool_decide_unpack _); vm_compute; exact I).
  assert (Hm : "app_js_initialized" ∈ customMarkers oneMarker)
    by apply list_elem_of_here.
  assert (Hg : firstMatch (markerPatterns "app_js_initialized") scenarioTrace
               = Some (Some "124.100")) by (vm_compute; reflexivity).
  destruct (marker_timestamp_and_offset oneMarker scenarioTrace
              "app_js_initialized" (Some "124.100") Hp Hd Hm Hg)
    as (Hts & Ha & Hrel); [vm_compute; reflexivity | vm_compute; reflexivity |].
  split; [exact Hts|]. split.
  - etransitivity; [exact Ha | vm_compute; reflexivity].
  - etransitivity; [apply Hrel; vm_compute; reflexivity | vm_compute; reflexivity].
Defined.

(** C5 (the code departs from the claim): on a trace stamped in
    microseconds whose one [app_js_initialized] line is found, with
    3250000 in its timestamp field, a quarter of a second after the
    [Startup] line, the result has the anchor 3 and the marker's timestamp
    3.25, in seconds, and beside them the offset 250000: the difference of
    the two values as captured, not of the two timestamps of the result,
    which is 0.25. *)
Theorem marker_offset_microseconds :
  firstMatch (markerPatterns "app_js_initialized") lateMarkerTrace
    = Some (Some "3250000")
  /\ processTraceData oneMarker lateMarkerTrace !! "appStartTimestamp"
     = Some (parseFloat "3")
  /\ processTraceData oneMarker lateMarkerTrace !! "app_js_initializedTimestamp"
     = Some (parseFloat "3.25")
  /\ processTraceData oneMarker lateMarkerTrace !! "timeToapp_js_initialized"
     = Some (parseFloat "250000")
  /\ round3 (sub (parseFloat "3.25") (parseFloat "3")) = parseFloat "0.25".
Proof. vm_compute. repeat split. Qed.

(** For every paired marker whose name is listed once and whose duration
    key is not also an offset key: when the start and the end marker are
    both resolved to usable timestamps the result has [<name>Duration],
    equal to the end timestamp minus the start timestamp as the two were
    captured, rounded to three decimals when it is not 0; when either side
    is not found, or not usable, there is no such property. *)
Lemma paired_duration (cfg : Config) (text : string) (p : PairedMarker) :
  plainConfig cfg = true ->
  p ∈ pairedMarkers cfg ->
  NoDup (pm_name <$> pairedMarkers cfg) ->
  (forall x, x ∈ subjects cfg -> relativeTimeKey x <> durationKey (pm_name p)) ->
  let startTimestamp := resolved (firstMatch (pairPatterns (pm_start p)) text) in
  let endTimestamp := resolved (firstMatch (pairPatterns (pm_end p)) text) in
  let metrics := processTraceData cfg text in
  (truthy startTimestamp = true -> truthy endTimestamp = true ->
     metrics !! durationKey (pm_name p)
     = Some (whenTruthy round3 (sub endTimestamp startTimestamp)))
  /\ (firstMatch (pairPatterns (pm_start p)) text = None
      \/ firstMatch (pairPatterns (pm_end p)) text = None ->
      metrics !! durationKey (pm_name p) = None)
  /\ (truthy startTimestamp && truthy endTimestamp = false ->
      metrics !! durationKey (pm_name p) = None).
Proof.
  intros _ Hp Hnames Hfree startTimestamp endTimestamp metrics.
  pose proof (duration_lookup cfg p Hfree Hp Hnames text) as E.
  fold startTimestamp endTimestamp metrics in E.
  split; [|split].
  - intros Hs He. rewrite E, Hs, He. reflexivity.
  - intros Hnone. rewrite E. unfold startTimestamp, endTimestamp.
    destruct Hnone as [-> | ->]; simpl; rewrite ?andb_false_r; reflexivity.
  - intros Hfalse. rewrite E, Hfalse. reflexivity.
Qed.

Lemma paired_duration_witness :
  processTraceData onePair pairTrace !! "article_loadDuration"
    = Some (parseFloat "1.5")
  /\ processTraceData onePair startOnlyTrace !! "article_loadDuration" = None.
Proof.
  assert (Hc : plainConfig onePair = true) by reflexivity.
  assert (Hin : {| pm_start := "trace_article_tap_start";
                   pm_end := "trace_article_fully_loaded_end";
                   pm_name := "article_load" |} ∈ pairedMarkers onePair)
    by apply list_elem_of_here.
  assert (Hn : NoDup (pm_name <$> pairedMarkers onePair))
    by (apply (bool_decide_unpack _); vm_compute; exact I).
  assert (Hf : forall x, x ∈ subjects onePair ->
                 relativeTimeKey x <> durationKey "article_load").
  { intros x Hx. unfold subjects in Hx. simpl in Hx.
    repeat (apply elem_of_cons in Hx as [->|Hx]); [..|inversion Hx];
      intros E; vm_compute in E; discriminate E. }
  split.
  - destruct (paired_duration onePair pairTrace _ Hc Hin Hn Hf) as (H & _).
    etransitivity; [apply H; vm_compute; reflexivity | vm_compute; reflexivity].
  - destruct (paired_duration onePair startOnlyTrace _ Hc Hin Hn Hf) as (_ & H & _).
    apply H. right. vm_compute. reflexivity.
Defined.

(** On a trace stamped in seconds, and with property names that do not
    collide, the duration is the rounded difference of the two timestamps
    of the pair as they stand in the result. *)
Lemma paired_duration_stored (cfg : Config) (text : string) (p : PairedMarker)
    (s e : number) :
  distinctKeys cfg -> p ∈ pairedMarkers cfg ->
  processTraceData cfg text !! timestampKey (pm_start p) = Some s ->
  processTraceData cfg text !! timestampKey (pm_end p) = Some e ->
  gt (resolved (firstMatch (pairPatterns (pm_start p)) text)) (ofZ 1000000) = false ->
  gt (resolved (firstMatch (pairPatterns (pm_end p)) text)) (ofZ 1000000) = false ->
  processTraceData cfg text !! durationKey (pm_name p)
  = if truthy s && truthy e then Some (whenTruthy round3 (sub e s)) else None.
Proof.
  intros Hd Hp Hs He Hss Hse.
  pose proof (distinctKeys_pair cfg p Hd Hp) as Hnd.
  destruct (pairMetrics_lookups (resolveAppStart (appPackage cfg) text) text p Hnd)
    as (Ls & Le & Ldur & _).
  rewrite (pair_local cfg text p Hd Hp) in Hs, He |- * by solve_in.
  rewrite Ldur. rewrite Ls in Hs. rewrite Le in He.
  destruct (firstMatch (pairPatterns (pm_start p)) text) as [gs|]; [|discriminate Hs].
  destruct (firstMatch (pairPatterns (pm_end p)) text) as [ge|]; [|discriminate He].
  simpl in *. rewrite (whenTruthy_normalize_small _ Hss) in Hs.
  rewrite (whenTruthy_normalize_small _ Hse) in He.
  injection Hs as <-. injection He as <-. reflexivity.
Qed.


(** The end marker logged before the start marker: the duration is
    negative. *)
Example negative_duration :
  processTraceData onePair reversedPairTrace !! "article_loadDuration"
    = Some (parseFloat "-1.5").
Proof. vm_compute. reflexivity. Qed.

(** C1 (the code departs from the claim): the four lifecycle patterns are
    regular expression literals in which [${config.appPackage}] is not
    interpolated; they match no text at all, in the last revision and in
    the first, so that a trace with a [performCreate] line of the package
    yields neither [activityCreateTimestamp] nor [timeToCreate]. *)
Theorem lifecycle_never_found :
  (forall event text, search (lifecyclePattern event) text = None)
  /\ (forall event text, search (lifecyclePatternV1 event) text = None)
  /\ Summary.includes lifecycleTrace "performCreate:com.example.app" = true
  /\ processTraceData oneMarker lifecycleTrace !! "appStartTimestamp"
     = Some (parseFloat "123.456")
  /\ processTraceData oneMarker lifecycleTrace !! "activityCreateTimestamp" = None
  /\ processTraceData oneMarker lifecycleTrace !! "timeToCreate" = None.
Proof.
  split; [|split].
  - intros event text. apply search_never. intros s g. apply lifecyclePattern_never.
  - intros event text. apply search_never. intros s g. apply lifecyclePatternV1_never.
  - vm_compute. repeat split.
Qed.

(** With distinct keys no lifecycle timestamp and no lifecycle offset is
    ever in the result. *)
Corollary lifecycle_metrics_absent (cfg : Config) (text k : string) :
  distinctKeys cfg ->
  k ∈ fixedKeys -> k <> "appStartTimestamp" ->
  processTraceData cfg text !! k = None.
Proof.
  intros Hd Hk Hne. rewrite (fixed_local cfg text Hd k Hk), lifecycleMetrics_lookup.
  rewrite decide_False by exact Hne. reflexivity.
Qed.

(** C2 (the code departs from the claim): the offsets are derived before
    the timestamps are normalised.  On a trace stamped in microseconds the
    two absolute timestamps come out in seconds, 1.5 and 2.5, and the
    offset between them as 1000000, not as 1. *)
Theorem offsets_precede_normalisation :
  processTraceData oneMarker microsecondTrace !! "appStartTimestamp"
    = Some (parseFloat "1.5")
  /\ processTraceData oneMarker microsecondTrace !! "app_js_initializedTimestamp"
     = Some (parseFloat "2.5")
  /\ processTraceData oneMarker microsecondTrace !! "timeToapp_js_initialized"
     = Some (parseFloat "1000000")
  /\ round3 (sub (parseFloat "2.5") (parseFloat "1.5")) = parseFloat "1".
Proof. vm_compute. repeat split. Qed.

(** In general: with distinct keys the offset of a found marker is the
    rounded difference of the timestamps as captured, whereas the
    timestamps themselves are stored normalised. *)
Lemma marker_offset_from_captures (cfg : Config) (text m : string)
    (g : option string) :
  distinctKeys cfg -> m ∈ customMarkers cfg ->
  firstMatch (markerPatterns m) text = Some g ->
  truthy (resolveAppStart (appPackage cfg) text) = true ->
  truthy (parseFloatGroup g) = true ->
  processTraceData cfg text !! timestampKey m
    = Some (normalizeTimestamp (parseFloatGroup g))
  /\ processTraceData cfg text !! "appStartTimestamp"
     = Some (normalizeTimestamp (resolveAppStart (appPackage cfg) text))
  /\ processTraceData cfg text !! relativeTimeKey m
     = Some (whenTruthy round3
               (sub (parseFloatGroup g) (resolveAppStart (appPackage cfg) text))).
Proof.
  intros Hd Hm Hg Hta Htv.
  pose proof (distinctKeys_marker cfg m Hd Hm) as Hne.
  split; [|split].
  - rewrite (marker_local cfg text m Hd Hm) by solve_in.
    rewrite (markerMetrics_timestamp _ _ _ Hne), Hg. simpl.
    unfold whenTruthy. rewrite Htv. reflexivity.
  - rewrite (anchor_metric cfg text Hd). unfold whenTruthy. rewrite Hta. reflexivity.
  - rewrite (marker_local cfg text m Hd Hm) by solve_in.
    rewrite (markerMetrics_relative _ _ _ Hne), Hg, Hta, Htv. reflexivity.
Qed.

Lemma updateIfTruthy_stable (f : number -> number) (k k0 : string)
    (M : gmap string number) (v0 : number) :
  whenTruthy f v0 = v0 -> M !! k0 = Some v0 ->
  updateIfTruthy f k M !! k0 = Some v0.
Proof.
  intros Hf H0. rewrite updateIfTruthy_lookup, H0. simpl. rewrite Hf.
  destruct (decide (k = k0)); reflexivity.
Qed.

(** A value that normalisation and rounding both leave alone stays where
    it is through the whole normalisation pass, whatever the names. *)
Lemma normalizeAll_stable (cfg : Config) (M : gmap string number)
    (k0 : string) (v0 : number) :
  whenTruthy normalizeTimestamp v0 = v0 -> whenTruthy round3 v0 = v0 ->
  M !! k0 = Some v0 -> normalizeAll cfg M !! k0 = Some v0.
Proof.
  intros Hn Hr. unfold normalizeAll. cbv zeta. intros H0.
  assert (HL : normalizeLifecycle M !! k0 = Some v0).
  { unfold normalizeLifecycle. cbv zeta.
    repeat apply updateIfTruthy_stable; assumption. }
  assert (HM : forall l M', M' !! k0 = Some v0 ->
            foldl normalizeMarker M' l !! k0 = Some v0).
  { induction l as [|x l IH]; intros M' H'; simpl; [exact H'|].
    apply IH. unfold normalizeMarker. cbv zeta.
    repeat apply updateIfTruthy_stable; assumption. }
  assert (HP : forall l M', M' !! k0 = Some v0 ->
            foldl normalizePair M' l !! k0 = Some v0).
  { induction l as [|x l IH]; intros M' H'; simpl; [exact H'|].
    apply IH. unfold normalizePair. cbv zeta.
    repeat apply updateIfTruthy_stable; assumption. }
  apply HP, HM, HL.
Qed.

Lemma manual_event_first (m : string) :
  search (splice m) manualEventTrace = None ->
  firstMatch (markerPatterns m) manualEventTrace = Some (Some "7.25").
Proof.
  intros H. unfold markerPatterns. cbv beta iota delta [firstMatch].
  do 7 (rewrite failsOn_search by mentions m H; cbv iota).
  replace (search (stamp ++ star Dot ++ lit "TEST_EVENT_MANUAL") manualEventTrace)
    with (Some (Some "7.25")) by (vm_compute; reflexivity).
  reflexivity.
Qed.

(** C10: whatever the marker name, the eighth and ninth fallback patterns
    are the ones for [TEST_EVENT_MANUAL] and [test_event_manual], which do
    not mention it; so on the trace that has nothing but a timestamped
    [TEST_EVENT_MANUAL] line, every marker that occurs nowhere in it is
    recorded with that line's timestamp. *)
Theorem manual_event_patterns :
  (forall m,
     markerPatterns m !! 7%nat = Some (stamp ++ star Dot ++ lit "TEST_EVENT_MANUAL")
     /\ markerPatterns m !! 8%nat = Some (stamp ++ star Dot ++ lit "test_event_manual"))
  /\ (forall m,
        plainName m = true ->
        search (splice m) manualEventTrace = None ->
        processTraceData
          {| appPackage := package; customMarkers := [m]; pairedMarkers := [] |}
          manualEventTrace !! timestampKey m
        = Some (parseFloat "7.25")).
Proof.
  split; [intros m; split; reflexivity|].
  intros m _ Hm. unfold processTraceData. cbv zeta.
  apply normalizeAll_stable; [vm_compute; reflexivity | vm_compute; reflexivity |].
  unfold deriveOffsets. cbn [appPackage].
  replace (truthy (resolveAppStart package manualEventTrace)) with false
    by (vm_compute; reflexivity).
  unfold collect. cbn [appPackage customMarkers pairedMarkers foldl].
  rewrite collectLifecycle_id. unfold collectMarker.
  rewrite (manual_event_first m Hm). unfold setIfMatched.
  rewrite lookup_insert_eq. reflexivity.
Qed.

Lemma manual_event_patterns_witness :
  plainName "app_js_initialized" = true
  /\ search (splice "app_js_initialized") manualEventTrace = None
  /\ processTraceData oneMarker manualEventTrace !! "app_js_initializedTimestamp"
     = Some (parseFloat "7.25").
Proof.
  split; [reflexivity|]. split; [vm_compute; reflexivity|].
  apply (proj2 manual_event_patterns "app_js_initialized");
    vm_compute; reflexivity.
Defined.

(** The seven literal entries of [appStartPatterns] never match: they
    carry the uninterpolated [${config.appPackage}]. *)
Lemma literal_anchor_patterns_never_match (pkg text : string) (i : nat) (p : regex) :
  (8 <= i)%nat -> appStartPatterns pkg !! i = Some p -> search p text = None.
Proof.
  intros Hi Hp. unfold appStartPatterns in Hp.
  do 8 (destruct i as [|i]; [lia|]).
  apply search_never, deadEnd_never.
  destruct i as [|[|[|[|[|[|[|i]]]]]]]; cbn [lookup list_lookup] in Hp;
    try discriminate; injection Hp as <-; vm_compute; reflexivity.
Qed.




Lemma foldl_unchanged {A : Type} (l : list A) (content : string) :
  foldl (fun content _ => content) content l = content.
Proof. induction l as [|x l IH]; simpl; [reflexivity | exact IH]. Qed.

Lemma foldl_unchanged_pairs {A B : Type} (l : list (A * B)) (content : string) :
  foldl (fun content '(_, _) => content) content l = content.
Proof. induction l as [|[a b] l IH]; simpl; [reflexivity | exact IH]. Qed.

(** C4 (the code departs from the claim): [addAverageToSummary] returns
    the extended text and every call drops it, so the summary that is
    written holds its four section titles and no metric line: neither the
    average of a metric that runs produced nor a "No data available"
    entry for one that none produced. *)
Theorem summary_drops_averages :
  (forall date model version markers files,
     Summary.generateSummaryReport date model version markers files
     = "======== Performance Test Summary ========" +:+ Summary.nl
       +:+ "Date: " +:+ date +:+ Summary.nl
       +:+ "Device: " +:+ Summary.orUnknown model +:+ Summary.nl
       +:+ "Android version: " +:+ Summary.orUnknown version +:+ Summary.nl
       +:+ Summary.nl
       +:+ "App startup performance (averaged over successful runs):" +:+ Summary.nl
       +:+ Summary.nl
       +:+ "Custom marker timings (averaged over successful runs):" +:+ Summary.nl
       +:+ Summary.nl
       +:+ "Marker-to-marker timings (averaged over successful runs):" +:+ Summary.nl
       +:+ Summary.nl
       +:+ "Frame rendering performance (averaged over successful runs):"
       +:+ Summary.nl)
  /\ foldl (Summary.collectFile ["app_js_initialized"]) ∅ [metricsFile]
       !! "timeToCreate" = Some [parseFloat "0.250"]
  /\ Summary.addAverageToSummary ""
       (foldl (Summary.collectFile ["app_js_initialized"]) ∅ [metricsFile])
       "timeToCreate" "Time from intent to performCreate" "s"
     = "- Time from intent to performCreate: 0.250s (averaged over 1 runs)"
       +:+ Summary.nl
  /\ Summary.addAverageToSummary ""
       (foldl (Summary.collectFile ["app_js_initialized"]) ∅ [metricsFile])
       "timeToFullyDrawn" "Total time to fully drawn" "s"
     = "- Total time to fully drawn: No data available" +:+ Summary.nl
  /\ Summary.includes
       (Summary.generateSummaryReport "2025-01-01T00:00:00.000Z" (Some "Pixel 7")
          (Some "14") ["app_js_initialized"] [metricsFile])
       "performCreate" = false
  /\ Summary.includes
       (Summary.generateSummaryReport "2025-01-01T00:00:00.000Z" (Some "Pixel 7")
          (Some "14") ["app_js_initialized"] [metricsFile])
       "No data available" = false.
Proof.
  split.
  - intros date model version markers files.
    unfold Summary.generateSummaryReport, Summary.dropped. cbv beta zeta.
    rewrite foldl_unchanged_pairs, foldl_unchanged, !append_assoc. reflexivity.
  - vm_compute. repeat split.
Qed.

(** ** Facts about the sort *)

Lemma insertSorted_perm (x : number) (l : list number) :
  Permutation (insertSorted x l) (x :: l).
Proof.
  induction l as [|y l IH]; simpl; [reflexivity|].
  destruct (comesAfter x y); [|reflexivity].
  rewrite IH. apply perm_swap.
Qed.

Lemma sortNumbers_perm (values : list number) :
  Permutation (sortNumbers values) values.
Proof.
  induction values as [|x l IH]; simpl; [reflexivity|].
  rewrite insertSorted_perm, IH. reflexivity.
Qed.

Lemma consistent_spec (values : list number) :
  consistent values = true ->
  (forall a b, a ∈ values -> b ∈ values ->
     comesAfter a b = true -> comesAfter b a = false)
  /\ (forall a b c, a ∈ values -> b ∈ values -> c ∈ values ->
        comesAfter a b = false -> comesAfter b c = false -> comesAfter a c = false).
Proof.
  unfold consistent. intros H.
  assert (H' : forall a b, a ∈ values -> b ∈ values ->
            (negb (comesAfter a b) || negb (comesAfter b a)) = true
            /\ forall c, c ∈ values ->
                 implb (negb (comesAfter a b) && negb (comesAfter b c))
                   (negb (comesAfter a c)) = true).
  { intros a b Ha Hb.
    apply list_elem_of_In in Ha, Hb.
    pose proof (proj1 (forallb_forall _ _) H a Ha) as H1.
    pose proof (proj1 (forallb_forall _ _) H1 b Hb) as H2.
    apply andb_true_iff in H2 as [H2 H3]. split; [exact H2|].
    intros c Hc. apply list_elem_of_In in Hc.
    exact (proj1 (forallb_forall _ _) H3 c Hc). }
  split.
  - intros a b Ha Hb Hab. destruct (H' a b Ha Hb) as [H1 _].
    rewrite Hab in H1. simpl in H1. destruct (comesAfter b a); [discriminate|reflexivity].
  - intros a b c Ha Hb Hc Hab Hbc. destruct (H' a b Ha Hb) as [_ H1].
    specialize (H1 c Hc). rewrite Hab, Hbc in H1. simpl in H1.
    destruct (comesAfter a c); [discriminate|reflexivity].
Qed.

Section Sorting.

Variable values : list number.
Hypothesis Hcons : consistent values = true.

Lemma insertSorted_sorted (x : number) (l : list number) :
  x ∈ values -> (forall y, y ∈ l -> y ∈ values) ->
  StronglySorted notAfter l -> StronglySorted notAfter (insertSorted x l).
Proof.
  destruct (consistent_spec values Hcons) as [Hasym Htrans].
  intros Hx Hl Hs. induction Hs as [|y l Hs IH Hy]; simpl.
  - constructor; constructor.
  - assert (Hyv : y ∈ values) by (apply Hl, list_elem_of_here).
    assert (Hlv : forall z, z ∈ l -> z ∈ values)
      by (intros z Hz; apply Hl, list_elem_of_further, Hz).
    destruct (comesAfter x y) eqn:E.
    + constructor; [apply IH, Hlv|].
      apply Forall_forall. intros z Hz.
      rewrite insertSorted_perm in Hz. apply elem_of_cons in Hz as [->|Hz].
      * apply (Hasym x y Hx Hyv E).
      * apply (proj1 (Forall_forall _ _) Hy z Hz).
    + constructor; [constructor; assumption|].
      constructor; [exact E|].
      apply Forall_forall. intros z Hz.
      apply (Htrans x y z Hx Hyv); [apply Hlv, Hz | exact E |].
      apply (proj1 (Forall_forall _ _) Hy z Hz).
Qed.

Lemma sortNumbers_sorted_sub (l : list number) :
  (forall y, y ∈ l -> y ∈ values) -> StronglySorted notAfter (sortNumbers l).
Proof.
  induction l as [|x l IH]; intros Hl; simpl; [constructor|].
  apply insertSorted_sorted.
  - apply Hl, list_elem_of_here.
  - intros y Hy. rewrite sortNumbers_perm in Hy. apply Hl, list_elem_of_further, Hy.
  - apply IH. intros y Hy. apply Hl, list_elem_of_further, Hy.
Qed.

Lemma sortNumbers_sorted : StronglySorted notAfter (sortNumbers values).
Proof. apply sortNumbers_sorted_sub. auto. Qed.

Lemma notAfter_refl (x : number) : x ∈ values -> notAfter x x.
Proof.
  destruct (consistent_spec values Hcons) as [Hasym _].
  intros Hx. unfold notAfter. destruct (comesAfter x x) eqn:E; [|reflexivity].
  rewrite (Hasym x x Hx Hx E) in E. discriminate.
Qed.

Lemma sorted_lookup (l : list number) :
  StronglySorted notAfter l ->
  forall i j a b, (i < j)%nat -> l !! i = Some a -> l !! j = Some b -> notAfter a b.
Proof.
  induction 1 as [|x l Hs IH Hx]; intros i j a b Hij Hi Hj; [discriminate|].
  destruct j as [|j]; [lia|]. simpl in Hj.
  destruct i as [|i]; simpl in Hi.
  - injection Hi as <-. apply (proj1 (Forall_forall _ _) Hx b).
    eapply list_elem_of_lookup_2. exact Hj.
  - apply (IH i j a b); [lia | assumption | assumption].
Qed.

(** With a consistent comparator the first sorted value comes after no
    value of the list, and no value comes after the last. *)
Lemma sorted_ends (x : number) :
  x ∈ values ->
  notAfter (at_ (sortNumbers values) 0) x
  /\ notAfter x (at_ (sortNumbers values) (length values - 1)).
Proof.
  intros Hx. pose proof sortNumbers_sorted as Hs.
  pose proof (sortNumbers_perm values) as Hp.
  assert (Hlen : length (sortNumbers values) = length values)
    by (apply Permutation_length, Hp).
  assert (Hx' : x ∈ sortNumbers values) by (rewrite Hp; exact Hx).
  apply list_elem_of_lookup in Hx' as [j Hj].
  pose proof (lookup_lt_Some _ _ _ Hj) as Hjlt.
  unfold at_. split.
  - destruct (sortNumbers values !! 0%nat) as [m|] eqn:E0; simpl.
    + destruct j as [|j].
      * rewrite E0 in Hj. injection Hj as ->. apply notAfter_refl, Hx.
      * apply (sorted_lookup _ Hs 0%nat (S j) m x); [lia | exact E0 | exact Hj].
    + apply lookup_ge_None in E0. lia.
  - destruct (sortNumbers values !! (length values - 1)%nat) as [m|] eqn:E1; simpl.
    + destruct (decide (j = (length values - 1)%nat)) as [->|Hne].
      * rewrite E1 in Hj. injection Hj as ->. apply notAfter_refl, Hx.
      * apply (sorted_lookup _ Hs j (length values - 1)%nat x m);
          [lia | exact Hj | exact E1].
    + apply lookup_ge_None in E1. lia.
Qed.

End Sorting.

(** C9: for a non-empty list, [calculateStats] sorts the values and
    returns the first as [min], the last as [max], their sum over their
    number as [avg], and as [median] the middle value for an odd length
    and the mean of the two middle values for an even length; when the
    comparator orders the values consistently the sorted list is ascending,
    so [min] and [max] are the least and the greatest value.  The median
    of [1, 2, 3] is 2, that of [1, 2, 3, 4] is 2.5. *)
Theorem calculateStats_spec :
  (forall values : list number,
     values <> [] ->
     let sorted := sortNumbers values in
     let n := length values in
     Permutation sorted values
     /\ calculateStats values
        = {| stat_min := at_ sorted 0;
             stat_max := at_ sorted (n - 1);
             stat_avg := div (sum sorted) (lengthOf values);
             stat_median :=
               if Nat.even n
               then div (add (at_ sorted (n / 2 - 1)) (at_ sorted (n / 2))) (ofZ 2)
               else at_ sorted (n / 2) |}
     /\ (consistent values = true ->
         StronglySorted notAfter sorted
         /\ forall x, x ∈ values ->
              comesAfter (stat_min (calculateStats values)) x = false
              /\ comesAfter x (stat_max (calculateStats values)) = false))
  /\ stat_median (calculateStats [parseFloat "1.0"; parseFloat "2.0"; parseFloat "3.0"])
     = parseFloat "2.0"
  /\ stat_median
       (calculateStats
          [parseFloat "1.0"; parseFloat "2.0"; parseFloat "3.0"; parseFloat "4.0"])
     = parseFloat "2.5"
  /\ calculateStats [parseFloat "1.0"; parseFloat "1.2"; parseFloat "0.8"]
     = {| stat_min := parseFloat "0.8"; stat_max := parseFloat "1.2";
          stat_avg := parseFloat "1.0"; stat_median := parseFloat "1.0" |}.
Proof.
  split; [|vm_compute; repeat split].
  intros values Hne sorted n.
  pose proof (sortNumbers_perm values) as Hp.
  assert (Hlen : length sorted = n) by (apply Permutation_length, Hp).
  assert (E : calculateStats values
              = {| stat_min := at_ sorted 0;
                   stat_max := at_ sorted (n - 1);
                   stat_avg := div (sum sorted) (lengthOf values);
                   stat_median :=
                     if Nat.even n
                     then div (add (at_ sorted (n / 2 - 1)) (at_ sorted (n / 2))) (ofZ 2)
                     else at_ sorted (n / 2) |}).
  { unfold calculateStats. destruct values as [|v vs]; [congruence|].
    cbv zeta. fold sorted. unfold lengthOf. rewrite Hlen. reflexivity. }
  split; [exact Hp|]. split; [exact E|].
  intros Hc. split; [apply (sortNumbers_sorted values Hc)|].
  intros x Hx. rewrite E. cbn [stat_min stat_max].
  apply (sorted_ends values Hc x Hx).
Qed.

Lemma calculateStats_spec_witness :
  [parseFloat "3.0"; parseFloat "1.0"; parseFloat "2.0"] <> []
  /\ consistent [parseFloat "3.0"; parseFloat "1.0"; parseFloat "2.0"] = true
  /\ StronglySorted notAfter
       (sortNumbers [parseFloat "3.0"; parseFloat "1.0"; parseFloat "2.0"])
  /\ stat_min (calculateStats [parseFloat "3.0"; parseFloat "1.0"; parseFloat "2.0"])
     = parseFloat "1.0".
Proof.
  assert (Hne : [parseFloat "3.0"; parseFloat "1.0"; parseFloat "2.0"] <> [])
    by discriminate.
  assert (Hc : consistent [parseFloat "3.0"; parseFloat "1.0"; parseFloat "2.0"] = true)
    by (vm_compute; reflexivity).
  split; [exact Hne|]. split; [exact Hc|].
  destruct (proj1 calculateStats_spec _ Hne) as (_ & E & Hs).
  split; [apply (proj1 (Hs Hc))|].
  rewrite E. vm_compute. reflexivity.
Defined.

Lemma normalizeTimestamp_falsy (t : number) :
  truthy t = false -> normalizeTimestamp t = t.
Proof. destruct t; try discriminate; reflexivity. Qed.

Lemma whenTruthy_normalizeTimestamp (t : number) :
  whenTruthy normalizeTimestamp t = normalizeTimestamp t.
Proof.
  unfold whenTruthy. destruct (truthy t) eqn:E; [reflexivity|].
  symmetry. apply normalizeTimestamp_falsy, E.
Qed.

Lemma fmap_whenTruthy_normalizeTimestamp (o : option number) :
  whenTruthy normalizeTimestamp <$> o = normalizeTimestamp <$> o.
Proof. destruct o; simpl; [rewrite whenTruthy_normalizeTimestamp|]; reflexivity. Qed.

(** ** A property that is generated once *)

Lemma count_none (l : list string) (k : string) :
  count_occ string_dec l k = 0%nat -> k ∉ l.
Proof.
  intros H Hin. apply list_elem_of_In in Hin.
  apply (count_occ_not_In string_dec) in H. exact (H Hin).
Qed.

Lemma count_some (l : list string) (k : string) :
  k ∈ l -> (0 < count_occ string_dec l k)%nat.
Proof.
  intros Hin. apply list_elem_of_In in Hin.
  apply (count_occ_In string_dec) in Hin. lia.
Qed.

Lemma count_head (l : list string) (k : string) :
  count_occ string_dec (k :: l) k = S (count_occ string_dec l k).
Proof. apply count_occ_cons_eq. reflexivity. Qed.

Lemma count_cons_none (l : list string) (x k : string) :
  count_occ string_dec (x :: l) k = 0%nat -> x <> k /\ (k ∉ l).
Proof.
  intros H. destruct (string_dec x k) as [->|Hne].
  - rewrite count_head in H. discriminate H.
  - rewrite count_occ_cons_neq in H by exact Hne.
    split; [exact Hne | apply count_none, H].
Qed.

(** In a loop whose rounds write their own properties only, a property
    that belongs to one round ends as that round leaves it. *)
Lemma foldl_owner {A : Type}
    (step : gmap string number -> A -> gmap string number)
    (keys : A -> list string) (l1 l2 : list A) (x : A) (k : string)
    (h : option number -> option number) :
  (forall y, writesOnly (fun M => step M y) (keys y)) ->
  k ∉ flat_map keys l1 -> k ∉ flat_map keys l2 ->
  (forall M, step M x !! k = h (M !! k)) ->
  forall M, foldl step M (l1 ++ x :: l2) !! k = h (M !! k).
Proof.
  intros Hw H1 H2 Hx M. rewrite foldl_app. cbn [foldl].
  rewrite (writesOnly_foldl step keys l2 Hw _ k H2), Hx.
  rewrite (writesOnly_foldl step keys l1 Hw _ k H1). reflexivity.
Qed.

(** Where a timestamp that is generated once stands: among the five
    fixed ones, as the timestamp of one custom marker, or as the start or
    the end timestamp of one pair; nothing else has its name. *)
Lemma namedOnce_cases (cfg : Config) (k : string) :
  k ∈ timestampKeys cfg -> namedOnce cfg k = true ->
  (k ∈ fixedKeys
   /\ (k ∉ [ "timeToCreate"; "timeToStart"; "timeToResume"; "timeToFullyDrawn" ])
   /\ (k ∉ flat_map markerKeys (customMarkers cfg))
   /\ (k ∉ flat_map pairKeys (pairedMarkers cfg)))
  \/ (exists m l1 l2,
        customMarkers cfg = l1 ++ m :: l2 /\ k = timestampKey m
        /\ (k ∉ fixedKeys) /\ (k ∉ flat_map markerKeys l1)
        /\ relativeTimeKey m <> k /\ (k ∉ flat_map markerKeys l2)
        /\ (k ∉ flat_map pairKeys (pairedMarkers cfg)))
  \/ (exists p l1 l2,
        pairedMarkers cfg = l1 ++ p :: l2
        /\ (k ∉ fixedKeys) /\ (k ∉ flat_map markerKeys (customMarkers cfg))
        /\ (k ∉ flat_map pairKeys l1) /\ (k ∉ flat_map pairKeys l2)
        /\ durationKey (pm_name p) <> k
        /\ relativeTimeKey (pm_start p) <> k /\ relativeTimeKey (pm_end p) <> k
        /\ ((timestampKey (pm_start p) = k /\ timestampKey (pm_end p) <> k)
            \/ (timestampKey (pm_end p) = k /\ timestampKey (pm_start p) <> k))).
Proof.
  unfold namedOnce, timestampKeys, metricKeys, subjects.
  intros Hk Hone. apply Nat.eqb_eq in Hone.
  apply elem_of_app in Hk as [Hk|Hk].
  - left. rewrite count_occ_app in Hone.
    assert (Hfix : k ∈ fixedKeys).
    { repeat (apply elem_of_cons in Hk as [->|Hk]); try (inversion Hk; fail);
        solve_in. }
    pose proof (count_some _ _ Hfix) as Hpos.
    rewrite count_occ_app in Hone.
    split; [exact Hfix|]. split; [|split; apply count_none; lia].
    clear -Hk. intros Hin.
    repeat (apply elem_of_cons in Hk as [->|Hk]); try (inversion Hk; fail);
      repeat (apply elem_of_cons in Hin as [Hin|Hin]; [discriminate Hin|]);
      inversion Hin.
  - apply list_elem_of_fmap in Hk as (x & -> & Hx).
    apply elem_of_app in Hx as [Hx|Hx].
    + right. left. apply list_elem_of_split in Hx as (l1 & l2 & E).
      exists x, l1, l2. split; [exact E|]. split; [reflexivity|].
      rewrite E, flat_map_app in Hone. cbn [flat_map markerKeys app] in Hone.
      rewrite !count_occ_app, count_head in Hone.
      assert (H0 : count_occ string_dec
                     (relativeTimeKey x :: flat_map markerKeys l2)
                     (timestampKey x) = 0%nat) by lia.
      destruct (count_cons_none _ _ _ H0) as [Hrel Hl2].
      repeat split; try assumption; apply count_none; lia.
    + right. right.
      apply list_elem_of_In, in_flat_map in Hx as (p & Hp & Hx).
      apply list_elem_of_In, list_elem_of_split in Hp as (l1 & l2 & E).
      exists p, l1, l2. split; [exact E|].
      rewrite E, flat_map_app in Hone. cbn [flat_map pairKeys app] in Hone.
      rewrite !count_occ_app in Hone.
      destruct Hx as [<-|[<-|[]]].
      * rewrite count_head in Hone.
        assert (H0 : count_occ string_dec
                       (timestampKey (pm_end p) :: durationKey (pm_name p)
                        :: relativeTimeKey (pm_start p)
                        :: relativeTimeKey (pm_end p) :: flat_map pairKeys l2)
                       (timestampKey (pm_start p)) = 0%nat) by lia.
        destruct (count_cons_none _ _ _ H0) as [He H1].
        apply not_elem_of_cons in H1 as [Hdur H1].
        apply not_elem_of_cons in H1 as [Hrs H1].
        apply not_elem_of_cons in H1 as [Hre H1].
        repeat split; try (apply count_none; lia); try assumption;
          try (apply not_eq_sym; assumption).
        left. split; [reflexivity | exact He].
      * destruct (string_dec (timestampKey (pm_start p)) (timestampKey (pm_end p)))
          as [Es|Hs].
        { rewrite Es, !count_head in Hone. lia. }
        rewrite (count_occ_cons_neq string_dec _ Hs), count_head in Hone.
        assert (H0 : count_occ string_dec
                       (durationKey (pm_name p) :: relativeTimeKey (pm_start p)
                        :: relativeTimeKey (pm_end p) :: flat_map pairKeys l2)
                       (timestampKey (pm_end p)) = 0%nat) by lia.
        destruct (count_cons_none _ _ _ H0) as [Hdur H1].
        apply not_elem_of_cons in H1 as [Hrs H1].
        apply not_elem_of_cons in H1 as [Hre H1].
        repeat split; try (apply count_none; lia); try assumption;
          try (apply not_eq_sym; assumption).
        right. split; [reflexivity | exact Hs].
Qed.

Lemma normalizeLifecycle_lookup (M : gmap string number) (k : string) :
  k ∈ fixedKeys ->
  k ∉ [ "timeToCreate"; "timeToStart"; "timeToResume"; "timeToFullyDrawn" ] ->
  normalizeLifecycle M !! k = (whenTruthy normalizeTimestamp <$> M !! k).
Proof.
  intros Hk Hno. unfold normalizeLifecycle. cbv zeta.
  unfold fixedKeys in Hk.
  repeat (apply elem_of_cons in Hk as [->|Hk]);
    try (inversion Hk; fail);
    try (exfalso; apply Hno; solve_in);
    rewrite !updateIfTruthy_lookup;
    repeat (rewrite decide_False by discriminate);
    rewrite decide_True by reflexivity;
    repeat (rewrite decide_False by discriminate); reflexivity.
Qed.

Lemma deriveLifecycle_lookup (a : number) (M : gmap string number) (k : string) :
  k ∉ [ "timeToCreate"; "timeToStart"; "timeToResume"; "timeToFullyDrawn" ] ->
  deriveLifecycle a M !! k = M !! k.
Proof.
  intros Hno. unfold deriveLifecycle. cbv zeta.
  rewrite !(writesOnly_deriveOffset a _ _
              [ "timeToCreate"; "timeToStart"; "timeToResume"; "timeToFullyDrawn" ])
    by (exact Hno || solve_in).
  reflexivity.
Qed.

Section NamedOnce.

Variables (cfg : Config) (k : string).
Hypothesis Hstamp : k ∈ timestampKeys cfg.
Hypothesis Honce : namedOnce cfg k = true.

(** The normalisation block visits the property once, with
    [normalizeTimestamp]. *)
Lemma normalizeAll_once (M : gmap string number) :
  normalizeAll cfg M !! k = (whenTruthy normalizeTimestamp <$> M !! k).
Proof.
  unfold normalizeAll. cbv zeta.
  destruct (namedOnce_cases cfg k Hstamp Honce)
    as [(Hfix & Hno & HM & HP)
       |[(m & l1 & l2 & E & -> & Hfix & H1 & Hrel & H2 & HP)
        |(p & l1 & l2 & E & Hfix & HM & H1 & H2 & Hdur & Hrs & Hre & Hside)]].
  - rewrite (writesOnly_foldl normalizePair pairKeys _ normalizePair_writes _ k HP).
    rewrite (writesOnly_foldl normalizeMarker markerKeys _ normalizeMarker_writes
               _ k HM).
    apply normalizeLifecycle_lookup; assumption.
  - rewrite (writesOnly_foldl normalizePair pairKeys _ normalizePair_writes _ _ HP).
    rewrite E.
    rewrite (foldl_owner normalizeMarker markerKeys l1 l2 m (timestampKey m)
               (fmap (whenTruthy normalizeTimestamp))
               normalizeMarker_writes H1 H2).
    + rewrite (normalizeLifecycle_writes _ _ Hfix). reflexivity.
    + intros M'. unfold normalizeMarker. cbv zeta. rewrite !updateIfTruthy_lookup.
      rewrite decide_False by exact Hrel. rewrite decide_True by reflexivity.
      reflexivity.
  - rewrite E.
    rewrite (foldl_owner normalizePair pairKeys l1 l2 p k
               (fmap (whenTruthy normalizeTimestamp))
               normalizePair_writes H1 H2).
    + rewrite (writesOnly_foldl normalizeMarker markerKeys _ normalizeMarker_writes
                 _ k HM).
      rewrite (normalizeLifecycle_writes _ _ Hfix). reflexivity.
    + intros M'. unfold normalizePair. cbv zeta. rewrite !updateIfTruthy_lookup.
      rewrite (decide_False _ _ Hre), (decide_False _ _ Hrs), (decide_False _ _ Hdur).
      destruct Hside as [[Es He]|[Ee Hs]].
      * rewrite (decide_False _ _ He), (decide_True _ _ Es). reflexivity.
      * rewrite (decide_True _ _ Ee), (decide_False _ _ Hs). reflexivity.
Qed.

(** The offsets are other properties: deriving them leaves it alone. *)
Lemma deriveOffsets_once (a : number) (M : gmap string number) :
  deriveOffsets cfg a M !! k = M !! k.
Proof.
  unfold deriveOffsets. destruct (truthy a); [|reflexivity]. cbv zeta.
  destruct (namedOnce_cases cfg k Hstamp Honce)
    as [(Hfix & Hno & HM & HP)
       |[(m & l1 & l2 & E & -> & Hfix & H1 & Hrel & H2 & HP)
        |(p & l1 & l2 & E & Hfix & HM & H1 & H2 & Hdur & Hrs & Hre & Hside)]].
  - rewrite (writesOnly_foldl (derivePair a) pairKeys _ (derivePair_writes a) _ k HP).
    rewrite (writesOnly_foldl (deriveMarker a) markerKeys _ (deriveMarker_writes a)
               _ k HM).
    apply deriveLifecycle_lookup, Hno.
  - rewrite (writesOnly_foldl (derivePair a) pairKeys _ (derivePair_writes a) _ _ HP).
    rewrite E.
    rewrite (foldl_owner (deriveMarker a) markerKeys l1 l2 m (timestampKey m) id
               (deriveMarker_writes a) H1 H2).
    + apply (deriveLifecycle_writes a _ _ Hfix).
    + intros M'. unfold deriveMarker.
      apply (writesOnly_deriveOffset a _ _ [relativeTimeKey m]); [solve_in|].
      intros Hin. apply list_elem_of_singleton in Hin. exact (Hrel (eq_sym Hin)).
  - rewrite E.
    rewrite (foldl_owner (derivePair a) pairKeys l1 l2 p k id
               (derivePair_writes a) H1 H2).
    + rewrite (writesOnly_foldl (deriveMarker a) markerKeys _ (deriveMarker_writes a)
                 _ k HM).
      apply (deriveLifecycle_writes a _ _ Hfix).
    + intros M'. rewrite derivePair_lookup.
      rewrite (bool_decide_eq_false_2 _ Hre), andb_false_r.
      apply (writesOnly_deriveOffset a _ _ [relativeTimeKey (pm_start p)]);
        [solve_in|].
      intros Hin. apply list_elem_of_singleton in Hin. exact (Hrs (eq_sym Hin)).
Qed.

Lemma timestamp_once (text : string) :
  processTraceData cfg text !! k = (normalizeTimestamp <$> collect cfg text !! k).
Proof.
  unfold processTraceData. cbv zeta.
  rewrite normalizeAll_once, deriveOffsets_once.
  apply fmap_whenTruthy_normalizeTimestamp.
Qed.

End NamedOnce.




(** ** The keys of the result *)

Lemma writesOnly_passes (cfg : Config)
    (F : gmap string number -> gmap string number)
    (stepM : gmap string number -> string -> gmap string number)
    (stepP : gmap string number -> PairedMarker -> gmap string number) :
  writesOnly F fixedKeys ->
  (forall y, writesOnly (fun M => stepM M y) (markerKeys y)) ->
  (forall y, writesOnly (fun M => stepP M y) (pairKeys y)) ->
  writesOnly
    (fun M => foldl stepP (foldl stepM (F M) (customMarkers cfg)) (pairedMarkers cfg))
    (metricKeys cfg).
Proof.
  intros HF HM HP M k Hk. unfold metricKeys in Hk.
  rewrite (writesOnly_foldl stepP pairKeys _ HP)
    by (intros Hin; apply Hk; rewrite !elem_of_app; auto).
  rewrite (writesOnly_foldl stepM markerKeys _ HM)
    by (intros Hin; apply Hk; rewrite !elem_of_app; auto).
  apply HF. intros Hin. apply Hk. rewrite !elem_of_app. auto.
Qed.

Lemma processTraceData_writes (cfg : Config) (text k : string) :
  k ∉ metricKeys cfg -> processTraceData cfg text !! k = None.
Proof.
  intros Hk. unfold processTraceData, normalizeAll. cbv zeta.
  rewrite (writesOnly_passes cfg normalizeLifecycle normalizeMarker normalizePair
             normalizeLifecycle_writes normalizeMarker_writes normalizePair_writes _ k Hk).
  assert (Hc : collect cfg text !! k = None).
  { unfold collect. cbv zeta.
    rewrite (writesOnly_passes cfg (collectLifecycle text) (collectMarker text)
               (collectPair text)) by
      (try apply collectMarker_writes; try apply collectPair_writes; try exact Hk;
       intros M k' _; rewrite collectLifecycle_id; reflexivity).
    rewrite lookup_insert_ne; [apply lookup_empty|].
    intros E. apply Hk. rewrite <- E. unfold metricKeys. rewrite elem_of_app.
    left. solve_in. }
  unfold deriveOffsets. destruct (truthy _); [|exact Hc]. cbv zeta.
  rewrite (writesOnly_passes cfg (deriveLifecycle _) (deriveMarker _) (derivePair _)
             (deriveLifecycle_writes _) (deriveMarker_writes _) (derivePair_writes _)
             _ k Hk).
  exact Hc.
Qed.

Lemma keepsKeys_insert (k : string) (v : number) : keepsKeys (insert k v).
Proof.
  intros M k' H. destruct (decide (k = k')) as [->|Hne].
  - rewrite lookup_insert_eq. eauto.
  - rewrite lookup_insert_ne by exact Hne. exact H.
Qed.

Lemma keepsKeys_setIfMatched (k : string) (o : outcome) : keepsKeys (setIfMatched k o).
Proof.
  destruct o; [apply keepsKeys_insert | intros M k' H; exact H].
Qed.

Lemma keepsKeys_deriveOffset (a : number) (from to : string) :
  keepsKeys (deriveOffset a from to).
Proof.
  intros M k H. unfold deriveOffset. destruct (M !! from) as [t|]; [|exact H].
  destruct (truthy t); [apply keepsKeys_insert, H | exact H].
Qed.

Lemma keepsKeys_updateIfTruthy (f : number -> number) (key : string) :
  keepsKeys (updateIfTruthy f key).
Proof.
  intros M k H. unfold updateIfTruthy. destruct (M !! key) as [t|]; [|exact H].
  destruct (truthy t); [apply keepsKeys_insert, H | exact H].
Qed.

Lemma keepsKeys_foldl {A : Type}
    (step : gmap string number -> A -> gmap string number) (l : list A) :
  (forall y, keepsKeys (fun M => step M y)) -> keepsKeys (fun M => foldl step M l).
Proof.
  intros Hstep. induction l as [|y l IH]; intros M k H; simpl; [exact H|].
  apply IH, Hstep, H.
Qed.

Lemma keepsKeys_collectPair (text : string) (p : PairedMarker) :
  keepsKeys (fun M => collectPair text M p).
Proof.
  intros M k H. unfold collectPair. cbv zeta.
  destruct (truthy _ && truthy _);
    [apply keepsKeys_insert|]; apply keepsKeys_setIfMatched, keepsKeys_setIfMatched, H.
Qed.

Lemma keepsKeys_derivePair (a : number) (p : PairedMarker) :
  keepsKeys (fun M => derivePair a M p).
Proof.
  intros M k H. unfold derivePair. cbv zeta.
  assert (H1 : is_Some
            (match M !! timestampKey (pm_start p) with
             | Some t => if truthy t
                         then <[relativeTimeKey (pm_start p) := sub t a]> M else M
             | None => M
             end !! k)).
  { destruct (M !! timestampKey (pm_start p)) as [t|]; [|exact H].
    destruct (truthy t); [apply keepsKeys_insert, H | exact H]. }
  destruct (M !! timestampKey (pm_end p)) as [t|]; [|exact H1].
  destruct (truthy t); [apply keepsKeys_insert, H1 | exact H1].
Qed.

Lemma keepsKeys_normalizeAll (cfg : Config) : keepsKeys (normalizeAll cfg).
Proof.
  intros M k H. unfold normalizeAll. cbv zeta.
  apply (keepsKeys_foldl normalizePair).
  { intros p M' k' H'. unfold normalizePair. cbv zeta.
    repeat apply keepsKeys_updateIfTruthy. exact H'. }
  apply (keepsKeys_foldl normalizeMarker).
  { intros m M' k' H'. unfold normalizeMarker. cbv zeta.
    repeat apply keepsKeys_updateIfTruthy. exact H'. }
  unfold normalizeLifecycle. cbv zeta.
  repeat apply keepsKeys_updateIfTruthy. exact H.
Qed.

Lemma keepsKeys_deriveOffsets (cfg : Config) (a : number) :
  keepsKeys (deriveOffsets cfg a).
Proof.
  intros M k H. unfold deriveOffsets. destruct (truthy a); [|exact H]. cbv zeta.
  apply (keepsKeys_foldl (derivePair a)); [intros p; apply keepsKeys_derivePair|].
  apply (keepsKeys_foldl (deriveMarker a)).
  { intros m M' k' H'. apply keepsKeys_deriveOffset, H'. }
  unfold deriveLifecycle. cbv zeta. repeat apply keepsKeys_deriveOffset. exact H.
Qed.

Lemma collect_has_anchor (cfg : Config) (text : string) :
  is_Some (collect cfg text !! "appStartTimestamp").
Proof.
  unfold collect. cbv zeta.
  apply (keepsKeys_foldl (collectPair text)); [intros p; apply keepsKeys_collectPair|].
  apply (keepsKeys_foldl (collectMarker text)).
  { intros m M' k' H'. apply keepsKeys_setIfMatched, H'. }
  rewrite collectLifecycle_id, lookup_insert_eq. eauto.
Qed.

(** For names free of pattern syntax, the result always has
    [appStartTimestamp], and it has no property other than the fixed ones
    and those named after the configured markers and pairs. *)
Theorem result_keys (cfg : Config) (text : string) :
  plainConfig cfg = true ->
  is_Some (processTraceData cfg text !! "appStartTimestamp")
  /\ forall k, is_Some (processTraceData cfg text !! k) -> k ∈ metricKeys cfg.
Proof.
  intros _. split.
  - apply keepsKeys_normalizeAll, keepsKeys_deriveOffsets, collect_has_anchor.
  - intros k [v Hv]. destruct (decide (k ∈ metricKeys cfg)) as [Hin|Hout]; [exact Hin|].
    rewrite (processTraceData_writes cfg text k Hout) in Hv. discriminate Hv.
Qed.

Lemma result_keys_witness :
  plainConfig oneMarker = true
  /\ is_Some (processTraceData oneMarker scenarioTrace !! "appStartTimestamp")
  /\ "timeToapp_js_initialized" ∈ metricKeys oneMarker.
Proof.
  assert (Hc : plainConfig oneMarker = true) by reflexivity.
  split; [exact Hc|]. split.
  - apply (proj1 (result_keys oneMarker scenarioTrace Hc)).
  - apply (proj2 (result_keys oneMarker scenarioTrace Hc)).
    vm_compute. eauto.
Defined.

(** ** A trace without timestamps *)

Lemma tailOf_head (s t : string) (a : ascii) (s' : string) :
  tailOf s t -> s = String a s' -> In a (list_ascii_of_string t).
Proof.
  intros H ->. induction H as [|b t _ IH]; simpl; auto.
Qed.

(** A pattern that needs a digit or a dot fails on a text that has
    neither. *)
Lemma stampFree_failsOn (t : string) (r : regex) :
  stampFree t = true -> needsStamp r = true -> failsOn t r.
Proof.
  intros Ht Hr. unfold needsStamp in Hr.
  apply existsb_exists in Hr as (x & Hx & Hstamp).
  destruct x as [[| | | | | |]| | | |]; try discriminate Hstamp.
  apply in_split in Hx as (r1 & r2 & ->).
  intros s g Hs. apply run_tail_none. intros s' g' Hs'. simpl.
  destruct s' as [|a s'']; [reflexivity|].
  assert (Ha : In a (list_ascii_of_string t))
    by (eapply tailOf_head; [eapply tailOf_trans; eassumption | reflexivity]).
  unfold stampFree in Ht. rewrite forallb_forall in Ht.
  specialize (Ht a Ha). apply negb_true_iff in Ht.
  change (isDigit a || Ascii.eqb a ".") with (accepts DigitOrDot a).
  rewrite Ht. reflexivity.
Qed.

Lemma needsStamp_patterns (pkg m : string) :
  Forall (fun r => needsStamp r = true)
    (appFirstMentionPattern pkg :: firstTimestampPattern :: appStartPatterns pkg
     ++ markerPatterns m ++ pairPatterns m).
Proof.
  repeat first [ apply Forall_nil_2 | apply Forall_cons_2; [vm_compute; reflexivity|] ].
Qed.

Lemma foldl_id {A B : Type} (step : B -> A -> B) (l : list A) (M : B) :
  (forall y, step M y = M) -> foldl step M l = M.
Proof.
  intros H. induction l as [|y l IH]; simpl; [reflexivity|]. rewrite H. exact IH.
Qed.

Lemma updateIfTruthy_falsy (f : number -> number) (k : string)
    (M : gmap string number) :
  truthyProp (M !! k) = false -> updateIfTruthy f k M = M.
Proof.
  unfold updateIfTruthy. destruct (M !! k) as [t|]; [|reflexivity].
  simpl. intros ->. reflexivity.
Qed.

Lemma truthyProp_anchor_zero (k : string) :
  truthyProp ((<["appStartTimestamp" := zero]> ∅ : gmap string number) !! k) = false.
Proof.
  destruct (decide ("appStartTimestamp" = k)) as [<-|Hne].
  - rewrite lookup_insert_eq. reflexivity.
  - rewrite lookup_insert_ne by exact Hne. reflexivity.
Qed.

(** On a text without a digit and without a dot (the empty text, for
    one) nothing is found: the result is [appStartTimestamp = 0] and
    nothing else, for every configuration. *)
Theorem nothing_to_find (cfg : Config) (text : string) :
  plainConfig cfg = true -> stampFree text = true ->
  processTraceData cfg text = <["appStartTimestamp" := zero]> ∅.
Proof.
  intros _ Ht.
  assert (Hfail : forall pkg m r,
            r ∈ appFirstMentionPattern pkg :: firstTimestampPattern
                :: appStartPatterns pkg ++ markerPatterns m ++ pairPatterns m ->
            search r text = None).
  { intros pkg m r Hr. apply failsOn_search, stampFree_failsOn; [exact Ht|].
    pose proof (needsStamp_patterns pkg m) as H.
    rewrite Forall_forall in H. apply H, Hr. }
  assert (Hm : forall m, firstMatch (markerPatterns m) text = None).
  { intros m. apply firstMatch_none. intros p Hp. apply (Hfail "" m).
    do 2 apply list_elem_of_further. rewrite !elem_of_app. auto. }
  assert (Hp : forall m, firstMatch (pairPatterns m) text = None).
  { intros m. apply firstMatch_none. intros p Hp. apply (Hfail "" m).
    do 2 apply list_elem_of_further. rewrite !elem_of_app. auto. }
  assert (Ha : resolveAppStart (appPackage cfg) text = zero).
  { unfold resolveAppStart, anchorFromFirstTimestamp, anchorFromFirstMention,
      anchorFromPatterns.
    rewrite firstMatch_none.
    2:{ intros p Hp'. apply (Hfail (appPackage cfg) "").
        do 2 apply list_elem_of_further. rewrite !elem_of_app. auto. }
    simpl truthy. cbv iota.
    rewrite (Hfail (appPackage cfg) "" (appFirstMentionPattern (appPackage cfg)))
      by apply list_elem_of_here.
    simpl truthy. cbv iota.
    rewrite (Hfail (appPackage cfg) "" firstTimestampPattern)
      by apply list_elem_of_further, list_elem_of_here.
    reflexivity. }
  assert (Hc : collect cfg text = <["appStartTimestamp" := zero]> ∅).
  { unfold collect. cbv zeta. rewrite Ha, collectLifecycle_id.
    rewrite (foldl_id (collectMarker text)).
    2:{ intros m. unfold collectMarker. rewrite Hm. reflexivity. }
    apply foldl_id. intros p. unfold collectPair. rewrite !Hp. reflexivity. }
  unfold processTraceData. rewrite Ha, Hc. unfold deriveOffsets.
  simpl truthy. cbv iota.
  unfold normalizeAll. cbv zeta.
  set (M0 := <["appStartTimestamp" := zero]> (∅ : gmap string number)).
  assert (Hup : forall f k, updateIfTruthy f k M0 = M0)
    by (intros f k; apply updateIfTruthy_falsy, truthyProp_anchor_zero).
  assert (HL : normalizeLifecycle M0 = M0).
  { unfold normalizeLifecycle. cbv zeta. rewrite !Hup. reflexivity. }
  rewrite HL.
  rewrite (foldl_id normalizeMarker).
  2:{ intros m. unfold normalizeMarker. cbv zeta. rewrite !Hup. reflexivity. }
  apply foldl_id. intros p. unfold normalizePair. cbv zeta. rewrite !Hup. reflexivity.
Qed.

Lemma nothing_to_find_witness :
  processTraceData onePair "Loading the app" = <["appStartTimestamp" := zero]> ∅.
Proof. apply nothing_to_find; reflexivity. Defined.

(** ** Paired markers: the two offsets *)

(** With distinct property names, the start and the end marker of a pair
    get their own offsets from the anchor, rounded to three decimals,
    exactly when the anchor and the marker's timestamp are usable. *)
Theorem paired_offsets (cfg : Config) (text : string) (p : PairedMarker) :
  plainConfig cfg = true -> distinctKeys cfg -> p ∈ pairedMarkers cfg ->
  let anchor := resolveAppStart (appPackage cfg) text in
  let startTimestamp := resolved (firstMatch (pairPatterns (pm_start p)) text) in
  let endTimestamp := resolved (firstMatch (pairPatterns (pm_end p)) text) in
  processTraceData cfg text !! relativeTimeKey (pm_start p)
  = (if truthy anchor && truthy startTimestamp
     then Some (whenTruthy round3 (sub startTimestamp anchor)) else None)
  /\ processTraceData cfg text !! relativeTimeKey (pm_end p)
     = (if truthy anchor && truthy endTimestamp
        then Some (whenTruthy round3 (sub endTimestamp anchor)) else None).
Proof.
  intros _ Hd Hp anchor startTimestamp endTimestamp.
  pose proof (distinctKeys_pair cfg p Hd Hp) as Hnd.
  destruct (pairMetrics_lookups anchor text p Hnd) as (_ & _ & _ & Hs & He).
  rewrite !(pair_local cfg text p Hd Hp) by solve_in.
  split; assumption.
Qed.

Lemma paired_offsets_witness :
  processTraceData onePair pairTrace !! "timeTotrace_article_tap_start"
    = Some (parseFloat "0.75")
  /\ processTraceData onePair pairTrace !! "timeTotrace_article_fully_loaded_end"
     = Some (parseFloat "2.25").
Proof.
  assert (Hc : plainConfig onePair = true) by reflexivity.
  assert (Hd : distinctKeys onePair)
    by (apply (bool_decide_unpack _); vm_compute; exact I).
  assert (Hin : {| pm_start := "trace_article_tap_start";
                   pm_end := "trace_article_fully_loaded_end";
                   pm_name := "article_load" |} ∈ pairedMarkers onePair)
    by apply list_elem_of_here.
  destruct (paired_offsets onePair pairTrace _ Hc Hd Hin) as (Hs & He).
  split.
  - etransitivity; [exact Hs | vm_compute; reflexivity].
  - etransitivity; [exact He | vm_compute; reflexivity].
Defined.

(** ** Markers do not interfere *)

(** With names free of pattern syntax and distinct property names, what
    the result holds for a custom marker, or for a pair, depends on the
    package, the trace and that marker or pair only: not on the other
    markers and pairs of the configuration, and not on the order they are
    listed in. *)
Theorem markers_independent (cfg cfg' : Config) (text : string) :
  plainConfig cfg = true -> plainConfig cfg' = true ->
  appPackage cfg = appPackage cfg' -> distinctKeys cfg -> distinctKeys cfg' ->
  (forall m k, m ∈ customMarkers cfg -> m ∈ customMarkers cfg' ->
     k ∈ markerKeys m ->
     processTraceData cfg text !! k = processTraceData cfg' text !! k)
  /\ (forall p k, p ∈ pairedMarkers cfg -> p ∈ pairedMarkers cfg' ->
        k ∈ pairKeys p ->
        processTraceData cfg text !! k = processTraceData cfg' text !! k)
  /\ (forall k, k ∈ fixedKeys ->
        processTraceData cfg text !! k = processTraceData cfg' text !! k).
Proof.
  intros _ _ Hpkg Hd Hd'. split; [|split].
  - intros m k Hm Hm' Hk.
    rewrite (marker_local cfg text m Hd Hm k Hk), (marker_local cfg' text m Hd' Hm' k Hk).
    rewrite Hpkg. reflexivity.
  - intros p k Hp Hp' Hk.
    rewrite (pair_local cfg text p Hd Hp k Hk), (pair_local cfg' text p Hd' Hp' k Hk).
    rewrite Hpkg. reflexivity.
  - intros k Hk.
    rewrite (fixed_local cfg text Hd k Hk), (fixed_local cfg' text Hd' k Hk).
    rewrite Hpkg. reflexivity.
Qed.

Lemma markers_independent_witness :
  processTraceData oneMarker pairTrace !! "app_js_initializedTimestamp"
  = processTraceData onePair pairTrace !! "app_js_initializedTimestamp".
Proof.
  assert (Hd : distinctKeys oneMarker)
    by (apply (bool_decide_unpack _); vm_compute; exact I).
  assert (Hd' : distinctKeys onePair)
    by (apply (bool_decide_unpack _); vm_compute; exact I).
  apply (proj1 (markers_independent oneMarker onePair pairTrace
                  eq_refl eq_refl eq_refl Hd Hd')
           "app_js_initialized");
    solve [apply list_elem_of_here].
Defined.

(** ** Texts: appending and containing *)

Lemma append_nil_r (s : string) : s +:+ "" = s.
Proof.
  induction s as [|a s IH]; [reflexivity|].
  change (String a (s +:+ "") = String a s). f_equal. exact IH.
Qed.

Lemma prefix_append (b c : string) : String.prefix b (b +:+ c) = true.
Proof.
  induction b as [|x b IH]; [destruct c; reflexivity|].
  change (String.prefix (String x b) (String x (b +:+ c)) = true).
  cbn [String.prefix].
  destruct (ascii_dec x x) as [_|Hne]; [exact IH | destruct Hne; reflexivity].
Qed.

Lemma prefix_append_l (b s t : string) :
  String.prefix b s = true -> String.prefix b (s +:+ t) = true.
Proof.
  revert s. induction b as [|x b IH]; intros s H; [destruct (s +:+ t); reflexivity|].
  destruct s as [|y s]; [discriminate H|].
  change (String.prefix (String x b) (String y (s +:+ t)) = true).
  cbn [String.prefix] in *. destruct (ascii_dec x y); [apply IH, H | discriminate H].
Qed.

Lemma includes_at (a rest b : string) :
  String.prefix b rest = true -> Summary.includes (a +:+ rest) b = true.
Proof.
  intros H. unfold Summary.includes. induction a as [|x a IH].
  - change ("" +:+ rest) with rest. destruct rest as [|y rest].
    + destruct b; [reflexivity | discriminate H].
    + cbn [String.index]. rewrite H. reflexivity.
  - change (String x a +:+ rest) with (String x (a +:+ rest)). cbn [String.index].
    destruct (String.prefix b (String x (a +:+ rest))); [reflexivity|].
    destruct (String.index 0 b (a +:+ rest)); [reflexivity | discriminate IH].
Qed.

Lemma includes_middle (a b c : string) : Summary.includes (a +:+ b +:+ c) b = true.
Proof. apply includes_at, prefix_append. Qed.

Lemma includes_end (a b : string) : Summary.includes (a +:+ b) b = true.
Proof. rewrite <- (append_nil_r b) at 1. apply includes_middle. Qed.

Lemma includes_append_r (s t b : string) :
  Summary.includes t b = true -> Summary.includes (s +:+ t) b = true.
Proof.
  intros H. unfold Summary.includes in *. induction s as [|x s IH]; [exact H|].
  change (String x s +:+ t) with (String x (s +:+ t)). cbn [String.index].
  destruct (String.prefix b (String x (s +:+ t))); [reflexivity|].
  destruct (String.index 0 b (s +:+ t)); [reflexivity | discriminate IH].
Qed.

Lemma includes_append_l (s t b : string) :
  Summary.includes s b = true -> Summary.includes (s +:+ t) b = true.
Proof.
  unfold Summary.includes. induction s as [|x s IH]; intros H.
  - destruct b; [|discriminate H]. destruct t; reflexivity.
  - change (String x s +:+ t) with (String x (s +:+ t)). cbn [String.index] in *.
    destruct (String.prefix b (String x s)) eqn:E.
    + change (String x (s +:+ t)) with (String x s +:+ t).
      rewrite (prefix_append_l _ _ t E). reflexivity.
    + destruct (String.prefix b (String x (s +:+ t))); [reflexivity|].
      destruct (String.index 0 b s); [|discriminate H].
      specialize (IH eq_refl).
      destruct (String.index 0 b (s +:+ t)); [reflexivity | discriminate IH].
Qed.

Lemma append_nil_l (s : string) : "" +:+ s = s.
Proof. reflexivity. Qed.

Lemma prefix_cancel (a b c : string) :
  String.prefix (a +:+ b) (a +:+ c) = String.prefix b c.
Proof.
  induction a as [|x a IH]; [reflexivity|].
  change (String.prefix (String x (a +:+ b)) (String x (a +:+ c)) = String.prefix b c).
  cbn [String.prefix].
  destruct (ascii_dec x x) as [_|Hne]; [exact IH | destruct Hne; reflexivity].
Qed.

Lemma prefix_refl (b : string) : String.prefix b b = true.
Proof. rewrite <- (append_nil_r b) at 2. apply prefix_append. Qed.

(** The text starts with the wanted piece, component by component. *)
Ltac starts_with :=
  rewrite ?append_assoc, ?append_nil_l;
  apply (includes_at "");
  rewrite ?prefix_cancel;
  first [ apply prefix_append | apply prefix_refl ].

(** ** The metrics file *)

Import Report.

Lemma foldl_extends {A : Type} (step : string -> A -> string) (piece : A -> string) :
  (forall c y, step c y = c +:+ piece y) ->
  forall l c, foldl step c l = c +:+ String.concat "" (map piece l).
Proof.
  intros Hstep. induction l as [|y l IH]; intros c; simpl.
  - rewrite append_nil_r. reflexivity.
  - rewrite IH, Hstep, append_assoc. destruct l as [|z l]; [|reflexivity].
    simpl. rewrite !append_nil_r. reflexivity.
Qed.

Lemma includes_concat {A : Type} (piece : A -> string) (l : list A) (x : A)
    (b : string) :
  x ∈ l -> Summary.includes (piece x) b = true ->
  Summary.includes (String.concat "" (map piece l)) b = true.
Proof.
  intros Hx Hb. induction l as [|y l IH]; [inversion Hx|].
  assert (E : String.concat "" (map piece (y :: l))
              = piece y +:+ String.concat "" (map piece l)).
  { simpl. destruct l; [simpl; rewrite append_nil_r|]; reflexivity. }
  rewrite E. apply elem_of_cons in Hx as [->|Hx].
  - apply includes_append_l, Hb.
  - apply includes_append_r, IH, Hx.
Qed.

Lemma markerEntry_extends (M : gmap string number) (c m : string) :
  markerEntry M c m = c +:+ markerEntry M "" m.
Proof.
  unfold markerEntry. cbv zeta.
  destruct (usable (M !! timestampKey m)); [|reflexivity].
  destruct (usable (M !! relativeTimeKey m)); rewrite ?append_assoc; reflexivity.
Qed.

Lemma pairSide_extends (M : gmap string number) (c m : string) :
  pairSide M c m = c +:+ pairSide M "" m.
Proof.
  unfold pairSide.
  destruct (usable (M !! timestampKey m)); [|reflexivity].
  destruct (M !! relativeTimeKey m); rewrite ?append_assoc; reflexivity.
Qed.

Lemma pairEntry_extends (M : gmap string number) (c : string) (p : PairedMarker) :
  pairEntry M c p = c +:+ pairEntry M "" p.
Proof.
  unfold pairEntry. cbv zeta.
  rewrite (pairSide_extends M _ (pm_end p)), (pairSide_extends M _ (pm_start p)).
  rewrite (pairSide_extends M (pairSide _ _ _) (pm_end p)).
  rewrite (pairSide_extends M ("" +:+ _) (pm_start p)).
  rewrite !append_assoc. reflexivity.
Qed.

(** The file is a heading, then the entries of the markers one after the
    other, then those of the pairs. *)
Lemma writeMetricsToFile_shape (date : string) (warmMode : bool)
    (M : gmap string number) (cfg : Config) :
  exists heading rest : string,
    writeMetricsToFile date warmMode M cfg
    = heading
      +:+ String.concat "" (map (markerEntry M "") (customMarkers cfg))
      +:+ rest
    /\ (pairedMarkers cfg = [] -> rest = "")
    /\ (pairedMarkers cfg <> [] ->
        rest = nl +:+ "== Paired Markers (Start/End) ==" +:+ nl
               +:+ String.concat "" (map (pairEntry M "") (pairedMarkers cfg))).
Proof.
  unfold writeMetricsToFile. cbv zeta.
  rewrite (foldl_extends (markerEntry M) (markerEntry M "") (markerEntry_extends M)).
  match goal with
  | |- context [?h +:+ String.concat "" (map (markerEntry M "") _)] =>
      exists h
  end.
  destruct (pairedMarkers cfg) as [|p ps] eqn:E.
  - exists "". rewrite append_nil_r. repeat split; congruence.
  - eexists. split; [|split; [discriminate|intros _; reflexivity]].
    rewrite (foldl_extends (pairEntry M) (pairEntry M "") (pairEntry_extends M)).
    rewrite !append_assoc. reflexivity.
Qed.

Lemma file_includes_marker (date : string) (warmMode : bool)
    (M : gmap string number) (cfg : Config) (m b : string) :
  m ∈ customMarkers cfg -> Summary.includes (markerEntry M "" m) b = true ->
  Summary.includes (writeMetricsToFile date warmMode M cfg) b = true.
Proof.
  intros Hm Hb.
  destruct (writeMetricsToFile_shape date warmMode M cfg) as (h & r & -> & _).
  apply includes_append_r, includes_append_l.
  exact (includes_concat (markerEntry M "") _ m b Hm Hb).
Qed.

Lemma file_includes_pair (date : string) (warmMode : bool)
    (M : gmap string number) (cfg : Config) (p : PairedMarker) (b : string) :
  p ∈ pairedMarkers cfg -> Summary.includes (pairEntry M "" p) b = true ->
  Summary.includes (writeMetricsToFile date warmMode M cfg) b = true.
Proof.
  intros Hp Hb.
  destruct (writeMetricsToFile_shape date warmMode M cfg) as (h & r & -> & _ & Hr).
  rewrite Hr by (intros E; rewrite E in Hp; inversion Hp).
  do 5 apply includes_append_r.
  exact (includes_concat (pairEntry M "") _ p b Hp Hb).
Qed.

Lemma markerEntry_found (M : gmap string number) (m : string) (t : number) :
  usable (M !! timestampKey m) = Some t ->
  Summary.includes (markerEntry M "" m)
    (m +:+ ":" +:+ nl +:+ "  - Absolute time: " +:+ toFixed3 t +:+ " seconds" +:+ nl)
  = true.
Proof.
  intros H. unfold markerEntry. cbv zeta. rewrite H.
  destruct (usable (M !! relativeTimeKey m)); starts_with.
Qed.

Lemma markerEntry_offset (M : gmap string number) (m : string) (t d : number) :
  usable (M !! timestampKey m) = Some t ->
  usable (M !! relativeTimeKey m) = Some d ->
  markerEntry M "" m
  = m +:+ ":" +:+ nl +:+ "  - Absolute time: " +:+ toFixed3 t +:+ " seconds" +:+ nl
    +:+ "  - Time from app start (t=0): " +:+ toFixed3 d +:+ " seconds" +:+ nl.
Proof.
  intros Ht Hd. unfold markerEntry. cbv zeta. rewrite Ht, Hd.
  rewrite ?append_assoc, ?append_nil_l. reflexivity.
Qed.

Lemma markerEntry_missing (M : gmap string number) (m : string) :
  usable (M !! timestampKey m) = None ->
  markerEntry M "" m = m +:+ ": Not found in trace" +:+ nl.
Proof. intros H. unfold markerEntry. cbv zeta. rewrite H. reflexivity. Qed.

Lemma includes_self (b : string) : Summary.includes b b = true.
Proof. apply (includes_at ""), prefix_refl. Qed.

Lemma pairEntry_duration (M : gmap string number) (p : PairedMarker) :
  Summary.includes (pairEntry M "" p) (durationLine M p) = true.
Proof.
  unfold pairEntry. cbv zeta. apply includes_append_l, includes_end.
Qed.

(** Whatever [metrics] holds, the file accounts for every configured
    marker, with its absolute time or as not found, and for every pair,
    with the difference of its two timestamps as they stand in [metrics]
    or as not calculable. *)
Theorem report_accounts_for_all (date : string) (warmMode : bool)
    (metrics : gmap string number) (cfg : Config) :
  let file := writeMetricsToFile date warmMode metrics cfg in
  (forall m, m ∈ customMarkers cfg ->
     match usable (metrics !! timestampKey m) with
     | Some t =>
         Summary.includes file
           (m +:+ ":" +:+ nl +:+ "  - Absolute time: " +:+ toFixed3 t
            +:+ " seconds" +:+ nl) = true
     | None =>
         Summary.includes file (m +:+ ": Not found in trace" +:+ nl) = true
     end)
  /\ (forall p, p ∈ pairedMarkers cfg ->
        match usable (metrics !! timestampKey (pm_start p)),
              usable (metrics !! timestampKey (pm_end p)) with
        | Some s, Some e =>
            Summary.includes file
              ("Duration of " +:+ pm_name p +:+ ": " +:+ toFixed3 (sub e s)
               +:+ " seconds" +:+ nl) = true
        | _, _ =>
            Summary.includes file
              ("Duration of " +:+ pm_name p +:+ ": Could not be calculated" +:+ nl)
            = true
        end).
Proof.
  intros file. split.
  - intros m Hm. destruct (usable (metrics !! timestampKey m)) as [t|] eqn:E.
    + apply (file_includes_marker _ _ _ _ m _ Hm), markerEntry_found, E.
    + apply (file_includes_marker _ _ _ _ m _ Hm).
      rewrite (markerEntry_missing _ _ E). apply includes_self.
  - intros p Hp.
    pose proof (file_includes_pair date warmMode metrics cfg p _ Hp
                  (pairEntry_duration metrics p)) as H.
    unfold durationLine in H. fold file in H.
    destruct (usable (metrics !! timestampKey (pm_start p)));
      destruct (usable (metrics !! timestampKey (pm_end p))); exact H.
Qed.

Lemma report_accounts_for_all_witness :
  Summary.includes
    (writeMetricsToFile "2025-01-01" false (processTraceData onePair pairTrace) onePair)
    ("app_js_initialized: Not found in trace" +:+ nl) = true
  /\ Summary.includes
       (writeMetricsToFile "2025-01-01" false (processTraceData onePair pairTrace)
          onePair)
       ("Duration of article_load: 1.500 seconds" +:+ nl) = true.
Proof.
  destruct (report_accounts_for_all "2025-01-01" false
              (processTraceData onePair pairTrace) onePair) as [Hm Hp].
  split.
  - specialize (Hm "app_js_initialized" (list_elem_of_here _ _)).
    assert (E : usable (processTraceData onePair pairTrace
                          !! timestampKey "app_js_initialized") = None)
      by (vm_compute; reflexivity).
    rewrite E in Hm. exact Hm.
  - specialize (Hp _ (list_elem_of_here _ _)).
    assert (Es : usable (processTraceData onePair pairTrace
                           !! timestampKey "trace_article_tap_start")
                 = Some (parseFloat "11.25")) by (vm_compute; reflexivity).
    assert (Ee : usable (processTraceData onePair pairTrace
                           !! timestampKey "trace_article_fully_loaded_end")
                 = Some (parseFloat "12.75")) by (vm_compute; reflexivity).
    cbn [pm_start pm_end pm_name] in Hp. rewrite Es, Ee in Hp.
    assert (Ed : toFixed3 (sub (parseFloat "12.75") (parseFloat "11.25")) = "1.500")
      by (vm_compute; reflexivity).
    rewrite Ed in Hp. exact Hp.
Defined.

Lemma foldl_ext_in {A B : Type} (step step' : B -> A -> B) (l : list A) :
  (forall y c, y ∈ l -> step c y = step' c y) ->
  forall c, foldl step c l = foldl step' c l.
Proof.
  induction l as [|y l IH]; intros H c; simpl; [reflexivity|].
  rewrite (H y c) by apply list_elem_of_here.
  apply IH. intros z c' Hz. apply H, list_elem_of_further, Hz.
Qed.

(** The file is a function of the timestamps and the offsets: two
    [metrics] objects that agree on those give the same text, whatever
    else they hold ([<name>Duration] for one). *)
Theorem report_reads_timestamps_only (date : string) (warmMode : bool)
    (cfg : Config) (metrics metrics' : gmap string number) :
  agreeOn (reportKeys cfg) metrics metrics' ->
  writeMetricsToFile date warmMode metrics cfg
  = writeMetricsToFile date warmMode metrics' cfg.
Proof.
  intros H. unfold writeMetricsToFile. cbv zeta.
  assert (Hfix : forall k, k ∈ fixedKeys -> metrics !! k = metrics' !! k).
  { intros k Hk. apply H. unfold reportKeys. rewrite elem_of_app. left. exact Hk. }
  assert (HM : forall m c, m ∈ customMarkers cfg ->
                 markerEntry metrics c m = markerEntry metrics' c m).
  { intros m c Hm. unfold markerEntry. cbv zeta.
    rewrite !(H (timestampKey m)), !(H (relativeTimeKey m)); try reflexivity;
      unfold reportKeys; rewrite !elem_of_app; right; left;
      apply (markerKeys_in cfg m _ Hm); solve_in. }
  assert (HS : forall p, p ∈ pairedMarkers cfg ->
                 (forall k, k ∈ markerKeys (pm_start p) ++ markerKeys (pm_end p) ->
                    metrics !! k = metrics' !! k)).
  { intros p Hp k Hk. apply H. unfold reportKeys. rewrite !elem_of_app.
    right. right. apply list_elem_of_In, in_flat_map. exists p.
    split; apply list_elem_of_In; assumption. }
  assert (HP : forall p c, p ∈ pairedMarkers cfg ->
                 pairEntry metrics c p = pairEntry metrics' c p).
  { intros p c Hp. specialize (HS p Hp).
    unfold pairEntry, pairSide, durationLine. cbv zeta.
    rewrite !(HS (timestampKey (pm_start p))), !(HS (timestampKey (pm_end p))),
      !(HS (relativeTimeKey (pm_start p))), !(HS (relativeTimeKey (pm_end p)));
      try reflexivity; rewrite elem_of_app; unfold markerKeys;
      first [ left; solve_in | right; solve_in ]. }
  unfold lifecycleEntry.
  rewrite !(Hfix "appStartTimestamp"), !(Hfix "activityCreateTimestamp"),
    !(Hfix "timeToCreate"), !(Hfix "activityStartTimestamp"), !(Hfix "timeToStart"),
    !(Hfix "activityResumeTimestamp"), !(Hfix "timeToResume"),
    !(Hfix "activityDrawnTimestamp"), !(Hfix "timeToFullyDrawn") by solve_in.
  rewrite (foldl_ext_in (markerEntry metrics) (markerEntry metrics') _
             (fun m c Hm => HM m c Hm)).
  destruct (pairedMarkers cfg) as [|p ps] eqn:E; [reflexivity|].
  apply foldl_ext_in. intros q c Hq. apply HP. exact Hq.
Qed.

Lemma report_reads_timestamps_only_witness :
  writeMetricsToFile "2025-01-01" false (processTraceData onePair pairTrace) onePair
  = writeMetricsToFile "2025-01-01" false
      (<["article_loadDuration" := zero]> (processTraceData onePair pairTrace)) onePair.
Proof.
  apply report_reads_timestamps_only. intros k Hk.
  rewrite lookup_insert_ne; [reflexivity|]. intros <-.
  assert (Hn : "article_loadDuration" ∉ reportKeys onePair)
    by (apply (bool_decide_unpack _); vm_compute; exact I).
  exact (Hn Hk).
Defined.

(** *** From the trace to the file *)

(** With distinct property names: a custom marker that no pattern finds,
    or whose captured timestamp is 0 or not a number, is listed as not
    found; one found at a usable timestamp of a trace stamped in seconds
    is listed with that timestamp to three decimals, and also with its
    offset from the anchor when the anchor is usable and the rounded
    offset is not 0. *)
Theorem metrics_file_markers (date : string) (warmMode : bool) (cfg : Config)
    (text m : string) :
  plainConfig cfg = true -> distinctKeys cfg -> m ∈ customMarkers cfg ->
  let found := firstMatch (markerPatterns m) text in
  let anchor := resolveAppStart (appPackage cfg) text in
  let file := metricsFile date warmMode cfg text in
  (truthy (resolved found) = false ->
     Summary.includes file (m +:+ ": Not found in trace" +:+ nl) = true)
  /\ (truthy (resolved found) = true ->
      gt (resolved found) (ofZ 1000000) = false ->
      Summary.includes file
        (m +:+ ":" +:+ nl +:+ "  - Absolute time: " +:+ toFixed3 (resolved found)
         +:+ " seconds" +:+ nl) = true
      /\ (truthy anchor = true ->
          truthy (round3 (sub (resolved found) anchor)) = true ->
          Summary.includes file
            (m +:+ ":" +:+ nl +:+ "  - Absolute time: " +:+ toFixed3 (resolved found)
             +:+ " seconds" +:+ nl +:+ "  - Time from app start (t=0): "
             +:+ toFixed3 (round3 (sub (resolved found) anchor))
             +:+ " seconds" +:+ nl) = true)).
Proof.
  intros _ Hd Hm found anchor file.
  pose proof (distinctKeys_marker cfg m Hd Hm) as Hne.
  assert (Hts : processTraceData cfg text !! timestampKey m
                = (whenTruthy normalizeTimestamp <$> (parseFloatGroup <$> found))).
  { rewrite (marker_local cfg text m Hd Hm) by solve_in.
    apply markerMetrics_timestamp, Hne. }
  assert (Hrel : processTraceData cfg text !! relativeTimeKey m
                 = match found with
                   | Some g =>
                       if truthy anchor && truthy (parseFloatGroup g)
                       then Some (whenTruthy round3 (sub (parseFloatGroup g) anchor))
                       else None
                   | None => None
                   end).
  { rewrite (marker_local cfg text m Hd Hm) by solve_in.
    apply markerMetrics_relative, Hne. }
  unfold file, metricsFile. split.
  - intros Hf. apply (file_includes_marker _ _ _ _ m _ Hm).
    rewrite markerEntry_missing; [apply includes_self|].
    rewrite Hts. destruct found as [g|]; [|reflexivity].
    simpl in Hf |- *. unfold whenTruthy. rewrite Hf, Hf. reflexivity.
  - intros Hf Hsec. destruct found as [g|] eqn:Eg; [|discriminate Hf].
    simpl in Hf, Hsec.
    assert (Hu : usable (processTraceData cfg text !! timestampKey m)
                 = Some (parseFloatGroup g)).
    { rewrite Hts. simpl. rewrite (whenTruthy_normalize_small _ Hsec).
      rewrite Hf. reflexivity. }
    split.
    + apply (file_includes_marker _ _ _ _ m _ Hm). apply markerEntry_found, Hu.
    + intros Ha Hr. apply (file_includes_marker _ _ _ _ m _ Hm).
      simpl resolved in *.
      rewrite (markerEntry_offset _ _ _ (round3 (sub (parseFloatGroup g) anchor)) Hu);
        [apply includes_self|].
      rewrite Hrel, Ha, Hf. simpl.
      assert (Hnz : truthy (sub (parseFloatGroup g) anchor) = true).
      { destruct (truthy (sub (parseFloatGroup g) anchor)) eqn:E; [reflexivity|].
        exfalso. unfold round3 in Hr.
        destruct (sub (parseFloatGroup g) anchor); try discriminate E;
          vm_compute in Hr; discriminate Hr. }
      unfold whenTruthy. rewrite Hnz, Hr. reflexivity.
Qed.

Lemma metrics_file_markers_witness :
  Summary.includes (metricsFile "2025-01-01" false oneMarker scenarioTrace)
    ("app_js_initialized:" +:+ nl +:+ "  - Absolute time: 124.100 seconds" +:+ nl
     +:+ "  - Time from app start (t=0): 0.644 seconds" +:+ nl) = true
  /\ Summary.includes (metricsFile "2025-01-01" false oneMarker lifecycleTrace)
       ("app_js_initialized: Not found in trace" +:+ nl) = true.
Proof.
  assert (Hc : plainConfig oneMarker = true) by reflexivity.
  assert (Hd : distinctKeys oneMarker)
    by (apply (bool_decide_unpack _); vm_compute; exact I).
  assert (Hm : "app_js_initialized" ∈ customMarkers oneMarker)
    by apply list_elem_of_here.
  split.
  - destruct (metrics_file_markers "2025-01-01" false oneMarker scenarioTrace
                "app_js_initialized" Hc Hd Hm) as (_ & H).
    destruct H as (_ & H); [vm_compute; reflexivity | vm_compute; reflexivity |].
    specialize (H ltac:(vm_compute; reflexivity) ltac:(vm_compute; reflexivity)).
    assert (E1 : toFixed3 (resolved (firstMatch (markerPatterns "app_js_initialized")
                                       scenarioTrace)) = "124.100")
      by (vm_compute; reflexivity).
    assert (E2 : toFixed3
                   (round3
                      (sub (resolved (firstMatch (markerPatterns "app_js_initialized")
                                        scenarioTrace))
                         (resolveAppStart (appPackage oneMarker) scenarioTrace)))
                 = "0.644") by (vm_compute; reflexivity).
    rewrite E1, E2 in H. exact H.
  - destruct (metrics_file_markers "2025-01-01" false oneMarker lifecycleTrace
                "app_js_initialized" Hc Hd Hm) as (H & _).
    apply H. vm_compute. reflexivity.
Defined.

(** With distinct property names: the duration the file shows for a pair
    is the difference of the two timestamps after normalisation,
    whereas the [<name>Duration] property is the rounded difference of the
    timestamps as captured; on a trace stamped in microseconds the two
    differ by the factor 1,000,000. *)
Theorem metrics_file_duration (date : string) (warmMode : bool) (cfg : Config)
    (text : string) (p : PairedMarker) (gs ge : option string) :
  plainConfig cfg = true -> distinctKeys cfg -> p ∈ pairedMarkers cfg ->
  firstMatch (pairPatterns (pm_start p)) text = Some gs ->
  firstMatch (pairPatterns (pm_end p)) text = Some ge ->
  let startTimestamp := normalizeTimestamp (parseFloatGroup gs) in
  let endTimestamp := normalizeTimestamp (parseFloatGroup ge) in
  truthy (parseFloatGroup gs) = true -> truthy (parseFloatGroup ge) = true ->
  truthy startTimestamp = true -> truthy endTimestamp = true ->
  Summary.includes (metricsFile date warmMode cfg text)
    ("Duration of " +:+ pm_name p +:+ ": "
     +:+ toFixed3 (sub endTimestamp startTimestamp) +:+ " seconds" +:+ nl) = true
  /\ processTraceData cfg text !! durationKey (pm_name p)
     = Some (whenTruthy round3 (sub (parseFloatGroup ge) (parseFloatGroup gs))).
Proof.
  intros _ Hd Hp Hgs Hge startTimestamp endTimestamp Hs He Hs' He'.
  pose proof (distinctKeys_pair cfg p Hd Hp) as Hnd.
  destruct (pairMetrics_lookups (resolveAppStart (appPackage cfg) text) text p Hnd)
    as (Ls & Le & Ldur & _).
  rewrite Hgs in Ls. rewrite Hge in Le. rewrite Hgs, Hge in Ldur.
  simpl in Ls, Le, Ldur. rewrite Hs, He in Ldur.
  unfold whenTruthy in Ls, Le. rewrite Hs in Ls. rewrite He in Le.
  split.
  - unfold metricsFile.
    apply (file_includes_pair _ _ _ _ p _ Hp).
    pose proof (pairEntry_duration (processTraceData cfg text) p) as H.
    unfold durationLine in H.
    rewrite !(pair_local cfg text p Hd Hp) in H by solve_in.
    rewrite Ls, Le in H. simpl in H.
    fold startTimestamp endTimestamp in H. rewrite Hs', He' in H.
    exact H.
  - rewrite (pair_local cfg text p Hd Hp) by solve_in. exact Ldur.
Qed.

Lemma metrics_file_duration_witness :
  Summary.includes
    (metricsFile "2025-01-01" false onePair Inputs.microsecondPairTrace)
    ("Duration of article_load: 1.500 seconds" +:+ nl) = true
  /\ processTraceData onePair Inputs.microsecondPairTrace !! "article_loadDuration"
     = Some (parseFloat "1500000").
Proof.
  assert (Hc : plainConfig onePair = true) by reflexivity.
  assert (Hd : distinctKeys onePair)
    by (apply (bool_decide_unpack _); vm_compute; exact I).
  assert (Hin : {| pm_start := "trace_article_tap_start";
                   pm_end := "trace_article_fully_loaded_end";
                   pm_name := "article_load" |} ∈ pairedMarkers onePair)
    by apply list_elem_of_here.
  destruct (metrics_file_duration "2025-01-01" false onePair
              Inputs.microsecondPairTrace _ (Some "2500000") (Some "4000000")
              Hc Hd Hin) as (Hfile & Hdur); try (vm_compute; reflexivity).
  split.
  - assert (E : toFixed3 (sub (normalizeTimestamp (parseFloatGroup (Some "4000000")))
                            (normalizeTimestamp (parseFloatGroup (Some "2500000"))))
                = "1.500") by (vm_compute; reflexivity).
    rewrite E in Hfile. exact Hfile.
  - etransitivity; [exact Hdur | vm_compute; reflexivity].
Defined.

(** ** The environment file *)

Section EnvironmentFile.

Import Env.

(** A greedy [*] that can take all of [w] and then sees the rest of the
    pattern match does so. *)
Lemma star_max (c : ascii -> bool) (k : bool -> string -> option captures)
    (w s : string) (r : captures) :
  forall b,
    forallb c (list_ascii_of_string w) = true -> headRejects c s ->
    k (match w with EmptyString => b | _ => false end) s = Some r ->
    star c k b (w +:+ s) = Some r.
Proof.
  induction w as [|x w IH]; intros b Hw Hs Hk.
  - change ("" +:+ s) with s. destruct s as [|a s]; [exact Hk|].
    simpl in Hs |- *. rewrite Hs. exact Hk.
  - change (String x w +:+ s) with (String x (w +:+ s)).
    simpl in Hw. apply andb_true_iff in Hw as [Hx Hw].
    simpl. rewrite Hx. rewrite (IH false Hw Hs); [reflexivity|].
    destruct w; exact Hk.
Qed.

Lemma trimStart_split (s : string) :
  exists w, s = w +:+ trimStart s
            /\ forallb isWhiteSpace (list_ascii_of_string w) = true.
Proof.
  induction s as [|a s (w & E & Hw)]; [exists ""; split; reflexivity|].
  simpl. destruct (isWhiteSpace a) eqn:Ha.
  - exists (String a w). split.
    + change (String a s = String a (w +:+ trimStart s)). f_equal. exact E.
    + simpl. rewrite Ha. exact Hw.
  - exists "". split; reflexivity.
Qed.

Lemma trimStart_head (s : string) : headRejects isWhiteSpace (trimStart s).
Proof.
  induction s as [|a s IH]; [exact I|].
  simpl. destruct (isWhiteSpace a) eqn:Ha; [exact IH | exact Ha].
Qed.

Lemma trimStart_fixed (s : string) :
  headRejects isWhiteSpace s -> trimStart s = s.
Proof. destruct s as [|a s]; [reflexivity|]. simpl. intros ->. reflexivity. Qed.

Lemma trimStart_idem (s : string) : trimStart (trimStart s) = trimStart s.
Proof. apply trimStart_fixed, trimStart_head. Qed.

Lemma trimStart_app (w s : string) :
  forallb isWhiteSpace (list_ascii_of_string w) = true ->
  trimStart (w +:+ s) = trimStart s.
Proof.
  induction w as [|x w IH]; intros Hw; [reflexivity|].
  simpl in Hw. apply andb_true_iff in Hw as [Hx Hw].
  change (trimStart (String x (w +:+ s)) = trimStart s).
  simpl. rewrite Hx. apply IH, Hw.
Qed.

Lemma trimStart_app_l (s t : string) :
  trimStart s <> "" -> trimStart (s +:+ t) = trimStart s +:+ t.
Proof.
  induction s as [|a s IH]; intros H; [destruct H; reflexivity|].
  change (trimStart (String a (s +:+ t)) = trimStart (String a s) +:+ t).
  simpl in *. destruct (isWhiteSpace a); [apply IH, H | reflexivity].
Qed.

Lemma substring_prefix (a b : string) :
  String.substring 0 (String.length (a +:+ b) - String.length b) (a +:+ b) = a.
Proof.
  rewrite length_append. replace (String.length a + String.length b
                                  - String.length b)%nat
    with (String.length a) by lia.
  induction a as [|x a IH]; [destruct b; reflexivity|].
  change (String x (String.substring 0 (String.length a) (a +:+ b)) = String x a).
  f_equal. exact IH.
Qed.

Lemma substring_whole (a : string) :
  String.substring 0 (String.length a - 0) a = a.
Proof.
  rewrite Nat.sub_0_r. induction a as [|x a IH]; [reflexivity|].
  simpl. f_equal. exact IH.
Qed.

Lemma trimEnd_head (x : ascii) (s : string) :
  isWhiteSpace x = false -> exists t, trimEnd (String x s) = String x t.
Proof.
  intros Hx. simpl. destruct (trimEnd s); rewrite ?Hx; eauto.
Qed.

Lemma hasEquals_forall (s : string) :
  hasEquals s = false -> forallb notEquals (list_ascii_of_string s) = true.
Proof.
  unfold hasEquals, notEquals, isEquals.
  induction (list_ascii_of_string s) as [|a l IH]; [reflexivity|].
  simpl. intros H. apply orb_false_iff in H as [Ha Hl]. rewrite Ha. apply IH, Hl.
Qed.

Lemma brokenValue_forall (v : string) :
  brokenValue v = false ->
  forallb notLineTerminator (list_ascii_of_string (trimStart v)) = true.
Proof.
  unfold brokenValue, notLineTerminator.
  induction (list_ascii_of_string (trimStart v)) as [|a l IH]; [reflexivity|].
  simpl. intros H. apply orb_false_iff in H as [Ha Hl]. rewrite Ha. apply IH, Hl.
Qed.

Lemma list_ascii_app (s t : string) :
  list_ascii_of_string (s +:+ t) = list_ascii_of_string s ++ list_ascii_of_string t.
Proof.
  induction s as [|a s IH]; [reflexivity|].
  change (a :: list_ascii_of_string (s +:+ t)
          = a :: list_ascii_of_string s ++ list_ascii_of_string t).
  f_equal. exact IH.
Qed.

(** What the pattern captures on [key=value]. *)
Lemma assignment_match (k v : string) :
  hasEquals k = false -> trimStart k <> "" -> brokenValue v = false ->
  matchLine assignment (k +:+ "=" +:+ v) = Some [trimStart k; trimStart v].
Proof.
  intros Hk Hne Hv.
  destruct (trimStart_split k) as (w & Ek & Hw).
  destruct (trimStart_split v) as (w2 & Ev & Hw2).
  pose proof (trimStart_head k) as Hhead.
  pose proof (trimStart_head v) as Hhead2.
  assert (Hk' : forallb notEquals (list_ascii_of_string (trimStart k)) = true).
  { apply hasEquals_forall in Hk. rewrite Ek, list_ascii_app, forallb_app in Hk.
    apply andb_true_iff in Hk as [_ Hk]. exact Hk. }
  apply brokenValue_forall in Hv.
  destruct (trimStart k) as [|x k'] eqn:Etk; [destruct Hne; reflexivity|].
  simpl in Hhead, Hk'. apply andb_true_iff in Hk' as [Hx Hk'].
  unfold matchLine, searchFrom.
  assert (Hrun : run assignment true (k +:+ "=" +:+ v) "" []
                 = Some [String x k'; trimStart v]).
  { unfold assignment. cbn [run].
    rewrite Ek at 1. rewrite append_assoc.
    apply star_max; [exact Hw | exact Hhead |]. cbv beta.
    change (String x k' +:+ "=" +:+ v) with (String x (k' +:+ "=" +:+ v)).
    cbv iota. rewrite Hx.
    apply star_max; [exact Hk' | reflexivity |]. cbv beta.
    apply (star_max _ _ "" _); [reflexivity | reflexivity |]. cbv beta.
    change ("=" +:+ v) with (String "=" v). cbv iota.
    change (isEquals "=") with true. cbv iota.
    rewrite Ev at 1.
    apply star_max; [exact Hw2 | exact Hhead2 |]. cbv beta.
    rewrite <- (append_nil_r (trimStart v)) at 1.
    apply star_max; [exact Hv | exact I |]. cbv beta iota.
    change (String x (k' +:+ String "=" v)) with (String x k' +:+ String "=" v).
    rewrite substring_prefix, substring_whole. reflexivity. }
  destruct (k +:+ "=" +:+ v); rewrite Hrun; reflexivity.
Qed.

Lemma star_none (P : string -> Prop) (c : ascii -> bool)
    (k : bool -> string -> option captures) :
  (forall a s, P (String a s) -> c a = true -> P s) ->
  (forall b s, P s -> k b s = None) ->
  forall s b, P s -> star c k b s = None.
Proof.
  intros Hstep Hk. induction s as [|a s IH]; intros b Hs; simpl; [apply Hk, Hs|].
  destruct (c a) eqn:Ha; [|apply Hk, Hs].
  rewrite (IH false (Hstep a s Hs Ha)). apply Hk, Hs.
Qed.

(** Pieces that keep the input within [P], before a rest of the pattern
    that fails everywhere in [P]. *)
Lemma run_none (P : string -> Prop) (r1 r2 : list piece) :
  Forall (fun p => match p with
                   | Char c | Star c =>
                       forall a s, P (String a s) -> c a = true -> P s
                   | _ => True
                   end) r1 ->
  (forall b s opened caps, P s -> run r2 b s opened caps = None) ->
  forall b s opened caps, P s -> run (r1 ++ r2) b s opened caps = None.
Proof.
  intros Hr1 Hr2. induction Hr1 as [|p r1 Hp _ IH]; [exact Hr2|].
  intros b s opened caps Hs. destruct p as [| |c|c| |]; simpl.
  - destruct b; [apply IH, Hs | reflexivity].
  - destruct s; [apply IH, Hs | reflexivity].
  - destruct s as [|a s]; [reflexivity|].
    destruct (c a) eqn:Ha; [|reflexivity]. apply IH, (Hp a s Hs Ha).
  - apply (star_none P); [exact Hp | | exact Hs]. intros b' s' Hs'. apply IH, Hs'.
  - apply IH, Hs.
  - apply IH, Hs.
Qed.

(** A pattern that begins with [^] is tried at index 0 only. *)
Lemma matchLine_begin (r : list piece) (line : string) :
  matchLine (Begin :: r) line = run (Begin :: r) true line "" [].
Proof.
  unfold matchLine.
  assert (H : forall s, searchFrom (Begin :: r) false s = None)
    by (induction s as [|a s IH]; simpl; [reflexivity | exact IH]).
  destruct line as [|a s]; simpl.
  - destruct (run r true "" "" []); reflexivity.
  - rewrite H. destruct (run r true (String a s) "" []); reflexivity.
Qed.

Lemma hasEquals_cons (a : ascii) (s : string) :
  hasEquals (String a s) = false -> isEquals a = false /\ hasEquals s = false.
Proof. unfold hasEquals. simpl. apply orb_false_iff. Qed.

(** A line without [=] does not match. *)
Lemma assignment_needs_equals (line : string) :
  hasEquals line = false -> matchLine assignment line = None.
Proof.
  intros H. unfold assignment. rewrite matchLine_begin.
  apply (run_none (fun s => hasEquals s = false)
           [Begin; Star isWhiteSpace; Open; Char notEquals; Star notEquals; Close;
            Star isWhiteSpace]); [| |exact H].
  - repeat constructor; intros a s Hs _; apply (hasEquals_cons a s Hs).
  - intros b [|a s] opened caps Hs; [reflexivity|].
    simpl. rewrite (proj1 (hasEquals_cons a s Hs)). reflexivity.
Qed.

Lemma lineTerminator_after_trim (s : string) :
  existsb isLineTerminator (list_ascii_of_string (trimStart s)) = true ->
  existsb isLineTerminator (list_ascii_of_string s) = true.
Proof.
  induction s as [|a s IH]; [discriminate|].
  simpl. destruct (isWhiteSpace a); [|exact (fun H => H)].
  intros H. rewrite (IH H). apply orb_true_r.
Qed.

(** After the [=], a value with a line terminator behind its leading
    white space cannot be matched up to the end of the line. *)
Lemma value_fails (v : string) (b : bool) (opened : string) (caps : captures) :
  brokenValue v = true ->
  run [Star isWhiteSpace; Open; Star notLineTerminator; Close; Finish]
    b v opened caps = None.
Proof.
  intros Hv.
  apply (run_none (fun s => brokenValue s = true) [Star isWhiteSpace; Open]);
    [| |exact Hv].
  - repeat constructor. intros a s Hs Ha. unfold brokenValue in *.
    simpl in Hs. rewrite Ha in Hs. exact Hs.
  - clear. intros b s opened caps Hs. simpl.
    apply (star_none (fun s => existsb isLineTerminator (list_ascii_of_string s) = true)).
    + intros a s' Hs' Ha. simpl in Hs'. unfold notLineTerminator in Ha.
      apply negb_true_iff in Ha. rewrite Ha in Hs'. exact Hs'.
    + intros b' [|a s'] Hs'; [discriminate Hs' | reflexivity].
    + apply lineTerminator_after_trim, Hs.
Qed.

Lemma run_char (c : ascii -> bool) (r : list piece) (b : bool) (a : ascii)
    (s opened : string) (caps : captures) :
  run (Char c :: r) b (String a s) opened caps
  = if c a then run r false s opened caps else None.
Proof. reflexivity. Qed.

Lemma assignment_broken_value (k v : string) :
  hasEquals k = false -> brokenValue v = true ->
  matchLine assignment (k +:+ "=" +:+ v) = None.
Proof.
  intros Hk Hv. unfold assignment. rewrite matchLine_begin.
  apply (run_none (fun s => exists k1, s = k1 +:+ "=" +:+ v /\ hasEquals k1 = false)
           [Begin; Star isWhiteSpace; Open; Char notEquals; Star notEquals; Close;
            Star isWhiteSpace]
           (Char isEquals
            :: [Star isWhiteSpace; Open; Star notLineTerminator; Close; Finish])).
  - assert (Hstep : forall c : ascii -> bool, c "="%char = false ->
              forall a s,
                (exists k1, String a s = k1 +:+ "=" +:+ v /\ hasEquals k1 = false) ->
                c a = true ->
                exists k1, s = k1 +:+ "=" +:+ v /\ hasEquals k1 = false).
    { intros c Hc a s (k1 & E & Hk1) Ha. destruct k1 as [|x k1].
      - injection E as -> _. rewrite Hc in Ha. discriminate Ha.
      - injection E as -> E. exists k1. split; [exact E|].
        apply (hasEquals_cons x k1 Hk1). }
    repeat constructor; apply Hstep; reflexivity.
  - intros b s opened caps (k1 & -> & Hk1). destruct k1 as [|x k1].
    + change ("" +:+ "=" +:+ v) with (String "=" v). rewrite run_char.
      change (isEquals "=") with true. cbv iota. apply value_fails, Hv.
    + change (String x k1 +:+ "=" +:+ v) with (String x (k1 +:+ "=" +:+ v)).
      rewrite run_char, (proj1 (hasEquals_cons x k1 Hk1)). reflexivity.
  - exists k. split; [reflexivity | exact Hk].
Qed.

Lemma prefix_hash (s : string) :
  String.prefix "#" s = true -> exists t, s = String "#" t.
Proof.
  destruct s as [|a s]; [discriminate|]. cbn [String.prefix].
  destruct (ascii_dec "#" a) as [<-|]; [eauto | discriminate].
Qed.

Lemma trim_guard_visible (k rest : string) :
  negb (String.eqb (trimStart k) "") && negb (String.prefix "#" (trimStart k)) = true ->
  String.prefix "#" (trim (k +:+ rest)) || String.eqb (trim (k +:+ rest)) "" = false.
Proof.
  intros H. apply andb_true_iff in H as [Hne Hhash].
  apply negb_true_iff in Hne, Hhash.
  unfold trim. rewrite trimStart_app_l by (intros E; rewrite E in Hne; discriminate Hne).
  pose proof (trimStart_head k) as Hhead.
  destruct (trimStart k) as [|x k']; [discriminate Hne|].
  change (String x k' +:+ rest) with (String x (k' +:+ rest)).
  destruct (trimEnd_head x (k' +:+ rest) Hhead) as (t & ->).
  cbn [String.prefix String.eqb] in Hhash |- *.
  destruct (ascii_dec "#" x); [destruct k'; discriminate Hhash | reflexivity].
Qed.

(** A line [key=value]: the text before the first [=] is the key, the
    text after it the value, both without the white space around them;
    anything else in the value (further [=], quotes, a [#]) is kept. *)
Theorem env_assignment (config : gmap string string) (k v : string) :
  wellFormedKey k = true -> brokenValue v = false ->
  envLine config (k +:+ "=" +:+ v) = assign (trim k) (trim v) config.
Proof.
  intros Hk Hv. unfold wellFormedKey in Hk.
  rewrite <- andb_assoc in Hk. apply andb_true_iff in Hk as [Heq Hvis].
  apply negb_true_iff in Heq.
  unfold envLine. rewrite (trim_guard_visible k _ Hvis).
  rewrite assignment_match; [| exact Heq | | exact Hv].
  - unfold trim. rewrite !trimStart_idem. reflexivity.
  - apply andb_true_iff in Hvis as [Hne _]. apply negb_true_iff in Hne.
    intros E. rewrite E in Hne. discriminate Hne.
Qed.

Lemma env_assignment_witness :
  envLine ∅ "  APP_PACKAGE = com.example.app  "
  = {["APP_PACKAGE" := "com.example.app"]}
  /\ envLine ∅ "OPTS=a=b # c" = {["OPTS" := "a=b # c"]}.
Proof.
  split.
  - etransitivity;
      [apply (env_assignment ∅ "  APP_PACKAGE " " com.example.app  "); reflexivity|].
    vm_compute. reflexivity.
  - etransitivity; [apply (env_assignment ∅ "OPTS" "a=b # c"); reflexivity|].
    vm_compute. reflexivity.
Defined.

(** The lines that set nothing: a line without [=], a comment, a blank
    line, and a line whose value has a carriage return (or another line
    terminator) behind its first visible character, as every line of a
    file with CRLF line ends has. *)
Theorem env_line_ignored (config : gmap string string) :
  (forall line, hasEquals line = false -> envLine config line = config)
  /\ (forall line, String.prefix "#" (trimStart line) = true ->
        envLine config line = config)
  /\ (forall line, trimStart line = "" -> envLine config line = config)
  /\ (forall k v, hasEquals k = false -> brokenValue v = true ->
        envLine config (k +:+ "=" +:+ v) = config).
Proof.
  split; [|split; [|split]].
  - intros line H. unfold envLine. rewrite (assignment_needs_equals line H).
    destruct (_ || _); reflexivity.
  - intros line H. unfold envLine, trim.
    destruct (prefix_hash _ H) as (t & ->).
    destruct (trimEnd_head "#" t eq_refl) as (t' & ->). destruct t'; reflexivity.
  - intros line H. unfold envLine, trim. rewrite H. reflexivity.
  - intros k v Hk Hv. unfold envLine. rewrite (assignment_broken_value k v Hk Hv).
    destruct (_ || _); reflexivity.
Qed.

Lemma env_line_ignored_witness :
  envLine {["A" := "1"]} "ITERATIONS 5" = {["A" := "1"]}
  /\ envLine {["A" := "1"]} "  # ITERATIONS=5" = {["A" := "1"]}
  /\ envLine {["A" := "1"]} "   " = {["A" := "1"]}
  /\ envLine {["A" := "1"]} ("ITERATIONS" +:+ "=" +:+ "5" +:+ Inputs.carriageReturn)
     = {["A" := "1"]}.
Proof.
  destruct (env_line_ignored {["A" := "1"]}) as (H1 & H2 & H3 & H4).
  split; [|split; [|split]].
  - apply H1. reflexivity.
  - apply H2. reflexivity.
  - apply H3. reflexivity.
  - apply H4; reflexivity.
Defined.

Lemma splitLines_nonempty (s : string) : splitLines s <> [].
Proof.
  destruct s as [|a s]; simpl; [discriminate|].
  destruct (Ascii.eqb a (ascii_of_nat 10)); [discriminate|].
  destruct (splitLines s); discriminate.
Qed.

Lemma splitLines_app (a b : string) :
  splitLines (a +:+ Report.nl +:+ b) = splitLines a ++ splitLines b.
Proof.
  induction a as [|x a IH]; [reflexivity|].
  change (splitLines (String x (a +:+ Report.nl +:+ b))
          = splitLines (String x a) ++ splitLines b).
  simpl. destruct (Ascii.eqb x (ascii_of_nat 10)); [rewrite IH; reflexivity|].
  rewrite IH. pose proof (splitLines_nonempty a) as Hne.
  destruct (splitLines a); [destruct Hne; reflexivity | reflexivity].
Qed.

Lemma splitLines_single (s : string) : singleLine s = true -> splitLines s = [s].
Proof.
  unfold singleLine. induction s as [|a s IH]; [reflexivity|].
  simpl. intros H. apply andb_true_iff in H as [Ha Hs].
  apply negb_true_iff in Ha. rewrite Ha, (IH Hs). reflexivity.
Qed.

Lemma loadEnvConfig_last_line (text line : string) :
  singleLine line = true ->
  loadEnvConfig (Some (text +:+ Report.nl +:+ line))
  = envLine (loadEnvConfig (Some text)) line.
Proof.
  intros H. unfold loadEnvConfig.
  rewrite splitLines_app, foldl_app, (splitLines_single line H). reflexivity.
Qed.

Lemma singleLine_app (s t : string) :
  singleLine (s +:+ t) = singleLine s && singleLine t.
Proof. unfold singleLine. rewrite list_ascii_app, forallb_app. reflexivity. Qed.

(** The file is read line by line and a later line overrides an earlier
    one: whatever comes before it, a last line [key=value] decides the
    value of its key.  No file gives no settings. *)
Theorem env_last_line_wins (text k v : string) :
  wellFormedKey k = true -> brokenValue v = false ->
  singleLine k = true -> singleLine v = true -> trim k <> "__proto__" ->
  loadEnvConfig (Some (text +:+ Report.nl +:+ k +:+ "=" +:+ v)) !! trim k
  = Some (trim v)
  /\ (forall key, key <> trim k ->
        loadEnvConfig (Some (text +:+ Report.nl +:+ k +:+ "=" +:+ v)) !! key
        = loadEnvConfig (Some text) !! key)
  /\ loadEnvConfig None = ∅.
Proof.
  intros Hk Hv Hk1 Hv1 Hproto.
  assert (E : loadEnvConfig (Some (text +:+ Report.nl +:+ k +:+ "=" +:+ v))
              = <[trim k := trim v]> (loadEnvConfig (Some text))).
  { rewrite loadEnvConfig_last_line
      by (rewrite !singleLine_app, Hk1, Hv1; reflexivity).
    rewrite (env_assignment _ k v Hk Hv). unfold assign.
    destruct (String.eqb_spec (trim k) "__proto__") as [E|_];
      [destruct (Hproto E) | reflexivity]. }
  rewrite E. split; [apply lookup_insert_eq|]. split; [|reflexivity].
  intros key Hkey. apply lookup_insert_ne. intros E'. apply Hkey. symmetry. exact E'.
Qed.

Lemma env_last_line_wins_witness :
  loadEnvConfig (Some ("# settings" +:+ Report.nl +:+ "ITERATIONS=3" +:+ Report.nl
                       +:+ "ITERATIONS" +:+ "=" +:+ " 5")) !! "ITERATIONS"
  = Some "5".
Proof.
  rewrite <- append_assoc.
  destruct (env_last_line_wins ("# settings" +:+ Report.nl +:+ "ITERATIONS=3")
              "ITERATIONS" " 5") as (H & _);
    [reflexivity | reflexivity | reflexivity | reflexivity | discriminate |].
  rewrite <- !append_assoc in H |- *.
  etransitivity; [exact H | reflexivity].
Defined.

(** ** Is a device connected? *)

Import Device.

Lemma splitLines_first (l tail : string) :
  singleLine l = true -> lineEnd tail = true ->
  exists rest, splitLines (l +:+ tail) = l :: rest.
Proof.
  intros Hl Ht. destruct tail as [|a tail].
  - rewrite append_nil_r, (splitLines_single l Hl). eauto.
  - simpl in Ht. apply Ascii.eqb_eq in Ht. subst a.
    change (String (ascii_of_nat 10) tail) with (Report.nl +:+ tail).
    rewrite splitLines_app, (splitLines_single l Hl). eauto.
Qed.

(** The answer is read off the second line of the trimmed output, and
    off nothing else: with fewer than two lines, or when the command
    failed, it is no. *)
Theorem device_second_line (stdout : string) :
  (forall h l tail,
     Env.trim stdout = h +:+ Report.nl +:+ l +:+ tail ->
     singleLine h = true -> singleLine l = true -> lineEnd tail = true ->
     checkDeviceConnected true stdout = Summary.includes l "device")
  /\ (singleLine (Env.trim stdout) = true -> checkDeviceConnected true stdout = false)
  /\ checkDeviceConnected false stdout = false.
Proof.
  split; [|split; [|reflexivity]].
  - intros h l tail E Hh Hl Ht. unfold checkDeviceConnected.
    rewrite E, splitLines_app, (splitLines_single h Hh).
    destruct (splitLines_first l tail Hl Ht) as (rest & ->). reflexivity.
  - intros H. unfold checkDeviceConnected.
    rewrite (splitLines_single _ H). reflexivity.
Qed.

Lemma device_second_line_witness :
  checkDeviceConnected true (Inputs.deviceList "device") = true
  /\ checkDeviceConnected true (Inputs.deviceList "offline") = false
  /\ checkDeviceConnected true Inputs.bannerThenList = true
  /\ checkDeviceConnected true ("List of devices attached" +:+ Report.nl +:+ Report.nl)
     = false.
Proof.
  split; [|split; [|split]].
  - destruct (device_second_line (Inputs.deviceList "device")) as (H & _).
    etransitivity;
      [apply (H "List of devices attached"
                ("emulator-5554" +:+ Inputs.tab +:+ "device") ""); reflexivity|].
    reflexivity.
  - destruct (device_second_line (Inputs.deviceList "offline")) as (H & _).
    etransitivity;
      [apply (H "List of devices attached"
                ("emulator-5554" +:+ Inputs.tab +:+ "offline") ""); reflexivity|].
    reflexivity.
  - destruct (device_second_line Inputs.bannerThenList) as (H & _).
    etransitivity;
      [apply (H "* daemon started successfully" "List of devices attached" "");
       reflexivity|].
    reflexivity.
  - destruct (device_second_line
                ("List of devices attached" +:+ Report.nl +:+ Report.nl)) as (_ & H & _).
    apply H. reflexivity.
Defined.

End EnvironmentFile.

(** ** Frame statistics *)

Import Frames.

Lemma severe_is_janky (d : number) :
  gt d severeJankThreshold = true -> gt d jankThreshold = true.
Proof.
  unfold gt, SFltb.
  let v := eval vm_compute in severeJankThreshold in
    replace severeJankThreshold with v by (vm_compute; reflexivity).
  let v := eval vm_compute in jankThreshold in
    replace jankThreshold with v by (vm_compute; reflexivity).
  destruct d as [s|[|]| |[|] m e]; cbv beta iota delta [SFcompare];
    try discriminate; try reflexivity.
  destruct (Z.compare_spec (-47) e) as [<-|Hlt|Hgt].
  - reflexivity.
  - intros _. destruct (Z.compare_spec (-48) e); [lia | reflexivity | lia].
  - discriminate.
Qed.

Lemma countAbove_mono (t t' : number) (ds : list number) :
  (forall d, gt d t = true -> gt d t' = true) ->
  (countAbove t ds <= countAbove t' ds)%nat.
Proof.
  intros H. unfold countAbove. induction ds as [|d ds IH]; [reflexivity|].
  rewrite !filter_cons.
  destruct (decide (gt d t = true)) as [Hd|Hd].
  - rewrite decide_True by (apply H, Hd). simpl. lia.
  - destruct (decide (gt d t' = true)); simpl; lia.
Qed.

Lemma countAbove_le (t : number) (ds : list number) :
  (countAbove t ds <= length ds)%nat.
Proof. apply length_filter. Qed.

Lemma frameDurations_length (ts : list number) :
  length (frameDurations ts) = (length ts - 1)%nat.
Proof.
  induction ts as [|a [|b ts] IH]; [reflexivity | reflexivity |].
  change (frameDurations (a :: b :: ts))
    with (mul (sub b a) (ofZ 1000) :: frameDurations (b :: ts)).
  simpl length in *. rewrite IH. lia.
Qed.

Lemma frameTimestamps_length (frameMatches : list string) :
  (length (frameTimestamps frameMatches) <= length frameMatches)%nat.
Proof.
  unfold frameTimestamps.
  etransitivity; [apply length_filter|]. rewrite length_map. reflexivity.
Qed.

(** When frame statistics are produced at all (two frame lines or more,
    and at least one duration between usable timestamps), every severely
    janky frame is also counted as janky, and there are fewer durations
    than frame lines: [jankyFrames] is below [totalFrames].  Otherwise
    [totalFrames] is the only property set. *)
Theorem frame_counts (frameMatches : list string) (metrics : gmap string number) :
  let durations := frameDurations (frameTimestamps frameMatches) in
  let result := frameMetrics frameMatches metrics in
  ((1 < length frameMatches)%nat -> durations <> [] ->
     result !! "totalFrames" = Some (ofNat (length frameMatches))
     /\ result !! "jankyFrames" = Some (ofNat (countAbove jankThreshold durations))
     /\ result !! "severeJankyFrames"
        = Some (ofNat (countAbove severeJankThreshold durations))
     /\ (countAbove severeJankThreshold durations
         <= countAbove jankThreshold durations)%nat
     /\ (countAbove jankThreshold durations <= length durations)%nat
     /\ (length durations < length frameMatches)%nat)
  /\ ((length frameMatches <= 1)%nat \/ durations = [] ->
      result = <["totalFrames" := ofNat (length frameMatches)]> metrics).
Proof.
  intros durations result. split.
  - intros Hlen Hne. unfold result, frameMetrics. cbv zeta.
    apply Nat.ltb_lt in Hlen. rewrite Hlen. fold durations.
    destruct durations as [|d ds] eqn:E; [destruct Hne; reflexivity|].
    rewrite <- E.
    split; [|split; [|split; [|split; [|split]]]].
    + rewrite !lookup_insert_ne by discriminate. apply lookup_insert_eq.
    + rewrite !lookup_insert_ne by discriminate. apply lookup_insert_eq.
    + rewrite !lookup_insert_ne by discriminate. apply lookup_insert_eq.
    + apply countAbove_mono, severe_is_janky.
    + apply countAbove_le.
    + unfold durations. rewrite frameDurations_length.
      pose proof (frameTimestamps_length frameMatches) as H.
      apply Nat.ltb_lt in Hlen. lia.
  - intros H. unfold result, frameMetrics. cbv zeta. fold durations.
    destruct H as [H| ->].
    + apply Nat.ltb_ge in H. rewrite H. reflexivity.
    + destruct (1 <? length frameMatches)%nat; reflexivity.
Qed.

Lemma frame_counts_witness :
  frameMetrics Inputs.frameLines ∅ !! "jankyFrames" = Some (ofZ 1)
  /\ frameMetrics ["10.000 Choreographer#doFrame"] ∅ = {["totalFrames" := ofZ 1]}.
Proof.
  split.
  - destruct (frame_counts Inputs.frameLines ∅) as (H & _).
    destruct H as (_ & H & _); [simpl; lia | vm_compute; discriminate |].
    etransitivity; [exact H | vm_compute; reflexivity].
  - destruct (frame_counts ["10.000 Choreographer#doFrame"] ∅) as (_ & H).
    etransitivity; [apply H; left; simpl; lia | reflexivity].
Defined.

(** ** Captured timestamps *)

Lemma repGreedy_some (c : atom) (k : string -> outcome) (s : string) (r : option string) :
  repGreedy c k s = Some r ->
  exists w s', s = w +:+ s'
               /\ forallb (accepts c) (list_ascii_of_string w) = true
               /\ k s' = Some r.
Proof.
  induction s as [|a s IH]; simpl; intros H.
  - exists "", "". repeat split. exact H.
  - destruct (accepts c a) eqn:Ha; [|exists "", (String a s); repeat split; exact H].
    destruct (repGreedy c k s) as [r'|] eqn:E.
    + injection H as ->. destruct (IH eq_refl) as (w & s' & -> & Hw & Hk).
      exists (String a w), s'. repeat split; [|exact Hk]. simpl. rewrite Ha. exact Hw.
    + exists "", (String a s). repeat split. exact H.
Qed.

Lemma repLazy_some (c : atom) (k : string -> outcome) (s : string) (r : option string) :
  repLazy c k s = Some r ->
  exists w s', s = w +:+ s'
               /\ forallb (accepts c) (list_ascii_of_string w) = true
               /\ k s' = Some r.
Proof.
  induction s as [|a s IH]; simpl; intros H.
  - destruct (k "") eqn:E; [|discriminate H]. exists "", "". repeat split.
    rewrite E. exact H.
  - destruct (k (String a s)) eqn:E.
    + exists "", (String a s). repeat split. rewrite E. exact H.
    + destruct (accepts c a) eqn:Ha; [|discriminate H].
      destruct (IH H) as (w & s' & -> & Hw & Hk).
      exists (String a w), s'. repeat split; [|exact Hk]. simpl. rewrite Ha. exact Hw.
Qed.

Lemma stampText_app (s t : string) :
  stampText (s +:+ t) = stampText s && stampText t.
Proof. unfold stampText. rewrite list_ascii_app, forallb_app. reflexivity. Qed.

Lemma groupInvariant_step (inside : bool) (c : atom) (w s : string) (g : groups) :
  (inside && negb (isStampAtom c) = false) ->
  forallb (accepts c) (list_ascii_of_string w) = true ->
  groupInvariant inside (w +:+ s) g -> groupInvariant inside s g.
Proof.
  intros Hc Hw [Hcap Hin]. split; [exact Hcap|].
  intros ->. destruct (Hin eq_refl) as (w0 & E & Hw0).
  exists (w0 +:+ w). split; [rewrite E, append_assoc; reflexivity|].
  rewrite stampText_app, Hw0. simpl in Hc. apply negb_false_iff in Hc.
  destruct c; try discriminate Hc. exact Hw.
Qed.

Lemma run_captures_stamp (r : regex) :
  forall inside final s g c,
    groupState inside r = Some final -> groupInvariant inside s g ->
    run r s g = Some c -> stampCapture c = true.
Proof.
  induction r as [|t r IH]; intros inside final s g c Hr Hinv Hrun.
  - injection Hrun as <-. apply Hinv.
  - destruct t as [a|greedy a| | |]; simpl in Hr, Hrun.
    + destruct (inside && negb (isStampAtom a)) eqn:Hc; [discriminate Hr|].
      destruct s as [|x s]; [discriminate Hrun|].
      destruct (accepts a x) eqn:Hx; [|discriminate Hrun].
      apply (IH inside final s g c Hr); [|exact Hrun].
      apply (groupInvariant_step inside a (String x "") s g Hc); [|exact Hinv].
      simpl. rewrite Hx. reflexivity.
    + destruct (inside && negb (isStampAtom a)) eqn:Hc; [discriminate Hr|].
      assert (Hsome : exists w s', s = w +:+ s'
                        /\ forallb (accepts a) (list_ascii_of_string w) = true
                        /\ run r s' g = Some c).
      { destruct greedy; [apply repGreedy_some in Hrun | apply repLazy_some in Hrun];
          exact Hrun. }
      destruct Hsome as (w & s' & -> & Hw & Hk).
      apply (IH inside final s' g c Hr); [|exact Hk].
      apply (groupInvariant_step inside a w s' g Hc Hw Hinv).
    + destruct inside; [discriminate Hr|].
      eapply (IH true final s); [exact Hr | | exact Hrun].
      split; [apply Hinv|]. intros _. exists "". split; reflexivity.
    + destruct inside; [|discriminate Hr].
      eapply (IH false final s); [exact Hr | | exact Hrun].
      destruct Hinv as [_ Hin]. destruct (Hin eq_refl) as (w & E & Hw).
      split; [|discriminate]. simpl. rewrite E, substring_prefix. exact Hw.
    + destruct s; [|discriminate Hrun].
      apply (IH inside final "" g c Hr Hinv Hrun).
Qed.

Lemma search_unfold (r : regex) (t : string) :
  search r t
  = match run r t noGroups with
    | Some g => Some g
    | None =>
        match t with
        | String _ t' => search r t'
        | EmptyString => None
        end
    end.
Proof. destruct t; reflexivity. Qed.

Lemma search_some (r : regex) (t : string) (c : option string) :
  search r t = Some c -> exists s, run r s noGroups = Some c.
Proof.
  induction t as [|a t IH]; rewrite search_unfold; intros H.
  - destruct (run r "" noGroups) as [c'|] eqn:E; [|discriminate H].
    injection H as ->. eauto.
  - destruct (run r (String a t) noGroups) as [c'|] eqn:E.
    + injection H as ->. eauto.
    + apply IH, H.
Qed.

(** A pattern whose group holds digits and dots captures digits and dots
    (or nothing). *)
Lemma search_captures_stamp (r : regex) (t : string) (c : option string) :
  stampGroup r -> search r t = Some c -> stampCapture c = true.
Proof.
  intros Hr Hs. destruct (search_some r t c Hs) as (s & Hrun).
  apply (run_captures_stamp r false false s noGroups c Hr); [|exact Hrun].
  split; [reflexivity | discriminate].
Qed.

Lemma groupState_app (inside : bool) (r1 r2 : regex) :
  groupState inside (r1 ++ r2)
  = match groupState inside r1 with
    | Some state => groupState state r2
    | None => None
    end.
Proof.
  revert inside. induction r1 as [|t r1 IH]; intros inside; [reflexivity|].
  destruct t as [c|b c| | |]; simpl.
  - destruct (inside && negb (isStampAtom c)); [reflexivity | apply IH].
  - destruct (inside && negb (isStampAtom c)); [reflexivity | apply IH].
  - destruct inside; [reflexivity | apply IH].
  - destruct inside; [apply IH | reflexivity].
  - apply IH.
Qed.

Lemma noGroup_state (r : regex) : noGroup r = true -> groupState false r = Some false.
Proof.
  unfold noGroup. induction r as [|t r IH]; [reflexivity|].
  simpl. intros H. apply andb_true_iff in H as [Ht Hr].
  destruct t; try discriminate Ht; apply IH, Hr.
Qed.

Lemma stampGroup_then (r1 r2 : regex) :
  stampGroup r1 -> noGroup r2 = true -> stampGroup (r1 ++ r2).
Proof.
  unfold stampGroup. intros H1 H2. rewrite groupState_app, H1. apply noGroup_state, H2.
Qed.

Lemma stampGroup_skip (r1 r2 : regex) :
  noGroup r1 = true -> stampGroup r2 -> stampGroup (r1 ++ r2).
Proof.
  unfold stampGroup. intros H1 H2. rewrite groupState_app, (noGroup_state r1 H1).
  exact H2.
Qed.

Lemma noGroup_splice (name : string) : noGroup (splice name) = true.
Proof.
  unfold noGroup, splice. induction (list_ascii_of_string name) as [|a l IH];
    [reflexivity|].
  simpl. rewrite IH. destruct (Ascii.eqb a "."); reflexivity.
Qed.

Lemma noGroup_app (r1 r2 : regex) : noGroup (r1 ++ r2) = noGroup r1 && noGroup r2.
Proof. apply forallb_app. Qed.

Ltac no_group := rewrite ?noGroup_app, ?noGroup_splice; reflexivity.

Ltac stamp_group :=
  first
    [ reflexivity
    | apply stampGroup_then; [reflexivity | no_group]
    | apply stampGroup_skip; [no_group | stamp_group] ].

Lemma stampGroup_trace_patterns (pkg m : string) :
  Forall stampGroup
    (appFirstMentionPattern pkg :: firstTimestampPattern :: appStartPatterns pkg
     ++ markerPatterns m ++ pairPatterns m).
Proof.
  repeat first [ apply Forall_nil_2 | apply Forall_cons_2; [stamp_group|] ].
Qed.

(** ** Signs *)

Lemma binary_round_aux_sign (m e : Z) (l : location) :
  isNegative (binary_round_aux prec emax false m e l) = false.
Proof.
  unfold binary_round_aux.
  destruct (shr_fexp prec emax m e l) as [mrs' e'].
  destruct (shr_fexp prec emax _ e' loc_Exact) as [mrs'' e''].
  destruct (shr_m mrs''); [reflexivity | | reflexivity].
  destruct (e'' <=? emax - prec)%Z; reflexivity.
Qed.

Lemma div_sign (x y : number) :
  isNegative x = false -> isNegative y = false -> isNegative (div x y) = false.
Proof.
  unfold div, SFdiv.
  destruct x as [sx|sx| |sx mx ex], y as [sy|sy| |sy my ey]; simpl;
    intros Hx Hy; subst; try reflexivity.
  destruct (SFdiv_core_binary prec emax (Z.pos mx) ex (Z.pos my) ey) as [[mz ez] lz].
  apply binary_round_aux_sign.
Qed.

Lemma ratio_sign (p q : positive) : isNegative (ratio false p q) = false.
Proof. apply div_sign; reflexivity. Qed.

Lemma decimal_sign (d q : Z) : isNegative (decimal false d q) = false.
Proof.
  unfold decimal. destruct d; try reflexivity.
  destruct (0 <=? q)%Z; apply ratio_sign.
Qed.

(** [parseFloat] gives a negative number only for a text whose first
    visible character is a minus sign. *)
Lemma parseFloat_sign (s : string) :
  plainStart (trimStart s) = true -> isNegative (parseFloat s) = false.
Proof.
  intros H. unfold parseFloat. cbv zeta.
  assert (E : match trimStart s with
              | String "-" t => (true, t)
              | String "+" t => (false, t)
              | _ => (false, trimStart s)
              end
              = (false, match trimStart s with
                        | String "+" t => t
                        | _ => trimStart s
                        end)).
  { destruct (trimStart s) as [|a t]; [reflexivity|].
    simpl in H. apply andb_true_iff in H as [_ H]. apply negb_true_iff in H.
    destruct a as [[] [] [] [] [] [] [] []]; try reflexivity; discriminate H. }
  rewrite E. clear E.
  set (s1 := match trimStart s with String "+" t => t | _ => trimStart s end).
  destruct (stripPrefix "Infinity" s1); [reflexivity|].
  destruct (spanDigits s1 0 0) as [[ip ni] s2].
  destruct (match s2 with
            | String "." t => spanDigits t ip 0
            | _ => (ip, 0%nat, s2)
            end) as [[d nf] s3].
  destruct (ni + nf)%nat; [reflexivity | apply decimal_sign].
Qed.

Lemma stampText_plainStart (s : string) :
  stampText s = true -> plainStart (trimStart s) = true.
Proof.
  destruct s as [|a s]; [reflexivity|].
  unfold stampText. simpl. intros H. apply andb_true_iff in H as [Ha _].
  destruct a as [[] [] [] [] [] [] [] []]; try discriminate Ha; reflexivity.
Qed.

(** What is parsed out of a group of digits and dots is not negative. *)
Lemma parseFloatGroup_sign (c : option string) :
  stampCapture c = true -> isNegative (parseFloatGroup c) = false.
Proof.
  destruct c as [s|]; [|reflexivity].
  intros H. apply parseFloat_sign, stampText_plainStart, H.
Qed.

Lemma firstMatch_sign (ps : list regex) (text : string) (c : option string) :
  Forall stampGroup ps -> firstMatch ps text = Some c ->
  isNegative (parseFloatGroup c) = false.
Proof.
  intros Hps H. destruct (firstMatch_found ps text c H) as (i & p & Hi & Hp & _).
  apply parseFloatGroup_sign, (search_captures_stamp p text c); [|exact Hp].
  rewrite Forall_forall in Hps. apply Hps. eapply list_elem_of_lookup_2, Hi.
Qed.

Lemma plainStart_trimStart (s : string) :
  plainStart s = true -> plainStart (trimStart s) = true.
Proof.
  destruct s as [|a s]; [reflexivity|]. simpl. intros H.
  destruct (isWhiteSpace a) eqn:E; [discriminate H|].
  simpl. rewrite E. exact H.
Qed.

Lemma showZ_plain (z : Z) :
  (0 <= z)%Z ->
  exists a rest, showZ z = String a rest
                 /\ negb (isWhiteSpace a) && negb (Ascii.eqb a "-") = true.
Proof.
  intros Hz. unfold showZ, Z.to_int.
  destruct z as [|p|p]; [eexists _, _; split; reflexivity | | lia].
  unfold NilZero.string_of_int, NilZero.string_of_uint.
  destruct (Pos.to_uint p); eexists _, _; split; reflexivity.
Qed.

Lemma plainStart_fixedPoint3 (n : Z) : (0 <= n)%Z -> plainStart (fixedPoint3 n) = true.
Proof.
  intros Hn. unfold fixedPoint3. cbv zeta.
  destruct (showZ_plain n Hn) as (a & rest & -> & Ha).
  set (ds := (zeros _ ++ String a rest)%string).
  assert (Hds : plainStart ds = true).
  { unfold ds. destruct (4 - String.length (String a rest))%nat; [exact Ha | reflexivity]. }
  destruct ds as [|b ds']; [reflexivity|].
  destruct (String.length (String b ds') - 3)%nat; [reflexivity | exact Hds].
Qed.

Lemma shortestDigits_nonneg (fuel : nat) :
  forall k x nd v, (0 <= x)%Z -> (0 <= fst (shortestDigits fuel k x nd v))%Z.
Proof.
  induction fuel as [|fuel IH]; intros k x nd v Hx; simpl;
    set (p := (10 ^ Z.of_nat (nd - k))%Z);
    assert (Hlo : (0 <= x / p)%Z) by (apply Z.div_pos; unfold p; lia);
    repeat match goal with
           | |- context [if ?b then _ else _] => destruct b
           | |- context [match ?c with Some _ => _ | None => _ end] => destruct c
           | |- context [match ?c with Eq => _ | Lt => _ | Gt => _ end] => destruct c
           end; simpl; try lia; try apply IH; try exact Hx.
Qed.

Lemma plainStart_toStringLarge (x : Z) (v : number) :
  (0 <= x)%Z -> plainStart (toStringLarge false x v) = true.
Proof.
  intros Hx. unfold toStringLarge. cbv zeta.
  pose proof (shortestDigits_nonneg 20 1 x (String.length (showZ x)) (SFabs v) Hx) as H.
  destruct (shortestDigits 20 1 x (String.length (showZ x)) (SFabs v)) as [s n].
  simpl in H. destruct (showZ_plain s H) as (a & rest & -> & Ha).
  destruct rest; exact Ha.
Qed.

Lemma plainStart_toFixed3 (x : number) :
  isNegative x = false -> plainStart (toFixed3 x) = true.
Proof.
  destruct x as [s|s| |s m e]; simpl; intros Hs; subst; try reflexivity.
  assert (Hfrac : (0 <= fst (fraction m e))%Z /\ (0 < snd (fraction m e))%Z).
  { unfold fraction. destruct e as [|k|k]; simpl; split; lia. }
  destruct (fraction m e) as [p q]. simpl in Hfrac. destruct Hfrac as [Hp Hq].
  destruct (10 ^ 21 * q <=? p)%Z.
  - apply plainStart_toStringLarge, Hp.
  - apply plainStart_fixedPoint3. apply Z.div_pos; lia.
Qed.

Lemma round3_sign (x : number) : isNegative x = false -> isNegative (round3 x) = false.
Proof.
  intros H. apply parseFloat_sign, plainStart_trimStart, plainStart_toFixed3, H.
Qed.

Lemma normalizeTimestamp_sign (t : number) :
  isNegative t = false -> isNegative (normalizeTimestamp t) = false.
Proof.
  intros H. unfold normalizeTimestamp. destruct (gt t (ofZ 1000000)); [|exact H].
  apply round3_sign, div_sign; [exact H | reflexivity].
Qed.

Lemma search_sign (r : regex) (text : string) (c : option string) :
  stampGroup r -> search r text = Some c -> isNegative (parseFloatGroup c) = false.
Proof.
  intros Hr H. apply parseFloatGroup_sign, (search_captures_stamp r text c Hr H).
Qed.

Lemma resolveAppStart_sign (pkg text : string) :
  isNegative (resolveAppStart pkg text) = false.
Proof.
  pose proof (stampGroup_trace_patterns pkg "") as H.
  apply Forall_cons in H as [Hmention H]. apply Forall_cons in H as [Hfirst H].
  apply Forall_app in H as [Hstart _].
  assert (H1 : isNegative (anchorFromPatterns pkg text) = false).
  { unfold anchorFromPatterns.
    destruct (firstMatch (appStartPatterns pkg) text) as [c|] eqn:E; [|reflexivity].
    apply (firstMatch_sign _ _ _ Hstart E). }
  assert (H2 : isNegative (anchorFromFirstMention pkg text (anchorFromPatterns pkg text))
               = false).
  { unfold anchorFromFirstMention. destruct (truthy _); [exact H1|].
    destruct (search (appFirstMentionPattern pkg) text) as [c|] eqn:E; [|exact H1].
    apply (search_sign _ _ _ Hmention E). }
  unfold resolveAppStart, anchorFromFirstTimestamp. destruct (truthy _); [exact H2|].
  destruct (search firstTimestampPattern text) as [c|] eqn:E; [|exact H2].
  apply (search_sign _ _ _ Hfirst E).
Qed.

Lemma resolved_sign (ps : list regex) (text : string) :
  Forall stampGroup ps ->
  forall v, (whenTruthy normalizeTimestamp <$> (parseFloatGroup <$> firstMatch ps text))
            = Some v ->
            isNegative v = false.
Proof.
  intros Hps v. destruct (firstMatch ps text) as [c|] eqn:E; [|discriminate].
  simpl. intros [= <-]. rewrite whenTruthy_normalizeTimestamp.
  apply normalizeTimestamp_sign, (firstMatch_sign ps text c Hps E).
Qed.

Lemma isNegative_lt (v : number) : isNegative v = false -> gt zero v = false.
Proof. destruct v as [[|]|[|]| |[|] m e]; try discriminate; reflexivity. Qed.

(** With distinct property names, no absolute timestamp of the result is
    negative (or the negative zero), whatever the trace: the patterns
    capture digits and dots only. *)
Theorem timestamps_not_negative (cfg : Config) (text k : string) (v : number) :
  plainConfig cfg = true -> distinctKeys cfg -> k ∈ timestampKeys cfg ->
  processTraceData cfg text !! k = Some v ->
  isNegative v = false /\ gt zero v = false.
Proof.
  intros _ Hd Hk Hv.
  assert (H : isNegative v = false); [|split; [exact H | apply isNegative_lt, H]].
  unfold timestampKeys in Hk. apply elem_of_app in Hk as [Hk|Hk].
  - assert (Hfix : k ∈ fixedKeys)
      by (repeat (apply elem_of_cons in Hk as [->|Hk]);
          try (inversion Hk; fail); solve_in).
    rewrite (fixed_local cfg text Hd k Hfix), lifecycleMetrics_lookup in Hv.
    destruct (decide (k = "appStartTimestamp")); [|discriminate Hv].
    injection Hv as <-. rewrite whenTruthy_normalizeTimestamp.
    apply normalizeTimestamp_sign, resolveAppStart_sign.
  - apply list_elem_of_fmap in Hk as (x & -> & Hx).
    unfold subjects in Hx. apply elem_of_app in Hx as [Hx|Hx].
    + rewrite (marker_local cfg text x Hd Hx) in Hv by solve_in.
      rewrite (markerMetrics_timestamp _ _ _ (distinctKeys_marker cfg x Hd Hx)) in Hv.
      apply (resolved_sign (markerPatterns x) text); [|exact Hv].
      pose proof (stampGroup_trace_patterns "" x) as H.
      do 2 apply Forall_cons in H as [_ H].
      apply Forall_app in H as [_ H]. apply Forall_app in H as [H _]. exact H.
    + apply list_elem_of_In, in_flat_map in Hx as (p & Hp & Hx).
      apply list_elem_of_In in Hp.
      pose proof (distinctKeys_pair cfg p Hd Hp) as Hnd.
      destruct (pairMetrics_lookups (resolveAppStart (appPackage cfg) text)
                  text p Hnd) as (Hs & He & _).
      assert (Hps : forall m, Forall stampGroup (pairPatterns m)).
      { intros m. pose proof (stampGroup_trace_patterns "" m) as H.
        do 2 apply Forall_cons in H as [_ H].
        apply Forall_app in H as [_ H]. apply Forall_app in H as [_ H]. exact H. }
      destruct Hx as [<-|[<-|[]]];
        rewrite (pair_local cfg text p Hd Hp) in Hv by solve_in.
      * rewrite Hs in Hv. apply (resolved_sign _ text (Hps _) v Hv).
      * rewrite He in Hv. apply (resolved_sign _ text (Hps _) v Hv).
Qed.

Lemma timestamps_not_negative_witness :
  gt zero (parseFloat "12.75") = false.
Proof.
  assert (Hc : plainConfig onePair = true) by reflexivity.
  assert (Hd : distinctKeys onePair)
    by (apply (bool_decide_unpack _); vm_compute; exact I).
  apply (timestamps_not_negative onePair reversedPairTrace
           "trace_article_tap_startTimestamp" _ Hc Hd).
  - unfold timestampKeys. apply elem_of_app. right.
    apply list_elem_of_further, list_elem_of_here.
  - vm_compute. reflexivity.
Defined.

(** ** What the summary collects *)

Lemma allPositive_addMetric (M : gmap string (list number)) (name : string)
    (v : number) :
  allPositive M -> isPositive v = true -> allPositive (Summary.addMetric M name v).
Proof.
  intros HM Hv name' values v' Hlook Hin. unfold Summary.addMetric in Hlook.
  destruct (decide (name = name')) as [<-|Hne].
  - rewrite lookup_insert_eq in Hlook. injection Hlook as <-.
    apply elem_of_app in Hin as [Hin|Hin].
    + destruct (M !! name) as [vs|] eqn:E; [|inversion Hin].
      apply (HM name vs v' E Hin).
    + apply list_elem_of_singleton in Hin as ->. exact Hv.
  - rewrite lookup_insert_ne in Hlook by exact Hne.
    apply (HM name' values v' Hlook Hin).
Qed.

Lemma allPositive_collectMetric (content : string) (pattern : regex) (name : string)
    (M : gmap string (list number)) :
  stampGroup pattern -> allPositive M ->
  allPositive (Summary.collectMetric content pattern name M).
Proof.
  intros Hp HM. unfold Summary.collectMetric, Summary.extractMetric.
  destruct (search pattern content) as [c|] eqn:E; [|exact HM].
  destruct (truthy (parseFloatGroup c)) eqn:Ht; [|exact HM].
  apply allPositive_addMetric; [exact HM|].
  unfold isPositive. rewrite Ht, (search_sign pattern content c Hp E). reflexivity.
Qed.

Lemma allPositive_foldl {A : Type}
    (step : gmap string (list number) -> A -> gmap string (list number))
    (l : list A) :
  (forall M y, allPositive M -> allPositive (step M y)) ->
  forall M, allPositive M -> allPositive (foldl step M l).
Proof.
  intros Hstep. induction l as [|y l IH]; intros M HM; simpl; [exact HM|].
  apply IH, Hstep, HM.
Qed.

Lemma allPositive_collectFile (markers : list string)
    (M : gmap string (list number)) (content : string) :
  allPositive M -> allPositive (Summary.collectFile markers M content).
Proof.
  intros HM. unfold Summary.collectFile. cbv zeta.
  repeat first
    [ apply allPositive_collectMetric; [reflexivity|]
    | apply allPositive_foldl;
      [ try (intros M' [m1 m2] HM'); try (intros M' m HM');
        apply allPositive_collectMetric; [stamp_group | assumption] |] ].
  exact HM.
Qed.

(** Whatever the metrics files hold, every value the summary collects is
    a number above 0: a timing printed as 0, as negative or as [NaN] is
    left out of the lists the averages are taken from. *)
Theorem summary_collects_positive (markers files : list string) (name : string)
    (values : list number) (v : number) :
  forallb plainName markers = true ->
  foldl (Summary.collectFile markers) ∅ files !! name = Some values ->
  v ∈ values ->
  truthy v = true /\ isNegative v = false /\ gt v zero = true.
Proof.
  intros _ Hlook Hin.
  assert (H : allPositive (foldl (Summary.collectFile markers) ∅ files)).
  { apply allPositive_foldl; [intros M y; apply allPositive_collectFile|].
    intros n vs v' E. rewrite lookup_empty in E. discriminate E. }
  specialize (H name values v Hlook Hin). unfold isPositive in H.
  apply andb_true_iff in H as [Ht Hn]. apply negb_true_iff in Hn.
  repeat split; try assumption.
  destruct v as [[|]|[|]| |[|] m e]; try discriminate; reflexivity.
Qed.

Lemma summary_collects_positive_witness :
  gt (parseFloat "0.250") zero = true.
Proof.
  apply (summary_collects_positive ["app_js_initialized"]
           [Samples.metricsFile; Inputs.negativeMetricsFile] "timeToCreate"
           [parseFloat "0.250"] (parseFloat "0.250") eq_refl).
  - vm_compute. reflexivity.
  - apply list_elem_of_here.
Defined.

(** ** Markers that do not occur in the trace *)

Lemma absent_marker_patterns (m text : string) :
  search (splice m) text = None ->
  firstMatch (markerPatterns m) text = firstMatch manualEventPatterns text.
Proof.
  intros H. unfold markerPatterns, manualEventPatterns.
  cbv beta iota delta [firstMatch].
  do 7 (rewrite failsOn_search by mentions m H; cbv iota).
  destruct (search (stamp ++ star Dot ++ lit "TEST_EVENT_MANUAL") text);
    [reflexivity|].
  destruct (search (stamp ++ star Dot ++ lit "test_event_manual") text);
    [reflexivity|].
  rewrite failsOn_search by mentions m H. reflexivity.
Qed.

Lemma absent_pair_patterns (m text : string) :
  search (splice m) text = None -> firstMatch (pairPatterns m) text = None.
Proof.
  intros H. unfold pairPatterns. cbv beta iota delta [firstMatch].
  do 5 (rewrite failsOn_search by mentions m H; cbv iota). reflexivity.
Qed.

(** With names free of pattern syntax and distinct property names: a
    custom marker whose name matches nowhere in the trace still gets a
    timestamp whenever the trace has a [TEST_EVENT_MANUAL] (or
    [test_event_manual]) line, the same one for every such marker; the
    markers of a pair never do, and leave no timestamp, offset or duration
    behind. *)
Theorem absent_markers (cfg : Config) (text : string) :
  plainConfig cfg = true -> distinctKeys cfg ->
  (forall m, m ∈ customMarkers cfg -> search (splice m) text = None ->
     processTraceData cfg text !! timestampKey m
     = (normalizeTimestamp
          <$> (parseFloatGroup <$> firstMatch manualEventPatterns text)))
  /\ (forall p, p ∈ pairedMarkers cfg -> search (splice (pm_start p)) text = None ->
        processTraceData cfg text !! timestampKey (pm_start p) = None
        /\ processTraceData cfg text !! relativeTimeKey (pm_start p) = None
        /\ processTraceData cfg text !! durationKey (pm_name p) = None)
  /\ (forall p, p ∈ pairedMarkers cfg -> search (splice (pm_end p)) text = None ->
        processTraceData cfg text !! timestampKey (pm_end p) = None
        /\ processTraceData cfg text !! relativeTimeKey (pm_end p) = None
        /\ processTraceData cfg text !! durationKey (pm_name p) = None).
Proof.
  intros _ Hd. split; [|split].
  - intros m Hm H.
    rewrite (marker_local cfg text m Hd Hm) by solve_in.
    rewrite (markerMetrics_timestamp _ _ _ (distinctKeys_marker cfg m Hd Hm)).
    rewrite (absent_marker_patterns m text H).
    apply fmap_whenTruthy_normalizeTimestamp.
  - intros p Hp H.
    pose proof (distinctKeys_pair cfg p Hd Hp) as Hnd.
    destruct (pairMetrics_lookups (resolveAppStart (appPackage cfg) text) text p Hnd)
      as (Hs & _ & Hdur & Hrs & _).
    rewrite !(pair_local cfg text p Hd Hp) by solve_in.
    rewrite Hs, Hdur, Hrs, (absent_pair_patterns _ text H). simpl.
    rewrite andb_false_r. repeat split.
  - intros p Hp H.
    pose proof (distinctKeys_pair cfg p Hd Hp) as Hnd.
    destruct (pairMetrics_lookups (resolveAppStart (appPackage cfg) text) text p Hnd)
      as (_ & He & Hdur & _ & Hre).
    rewrite !(pair_local cfg text p Hd Hp) by solve_in.
    rewrite He, Hdur, Hre, (absent_pair_patterns _ text H). simpl.
    rewrite !andb_false_r. repeat split.
Qed.

Lemma absent_markers_witness :
  processTraceData onePair manualEventTrace !! "app_js_initializedTimestamp"
  = Some (parseFloat "7.25")
  /\ processTraceData onePair manualEventTrace !! "trace_article_tap_startTimestamp"
     = None.
Proof.
  assert (Hc : plainConfig onePair = true) by reflexivity.
  assert (Hd : distinctKeys onePair)
    by (apply (bool_decide_unpack _); vm_compute; exact I).
  destruct (absent_markers onePair manualEventTrace Hc Hd) as (Hm & Hs & _).
  split.
  - etransitivity;
      [apply (Hm "app_js_initialized");
       [apply list_elem_of_here | vm_compute; reflexivity]|].
    vm_compute. reflexivity.
  - apply (Hs _ (list_elem_of_here _ _)). vm_compute. reflexivity.
Defined.

(** ** The looser patterns on a line *)

Lemma run_noGroup (r : regex) :
  noGroup r = true ->
  forall s g c, run r s g = Some c -> c = captured g.
Proof.
  unfold noGroup. induction r as [|t r IH]; intros Hr s g c Hrun.
  - injection Hrun as <-. reflexivity.
  - simpl in Hr. apply andb_true_iff in Hr as [Ht Hr].
    destruct t as [a|greedy a| | |]; try discriminate Ht; simpl in Hrun.
    + destruct s as [|x s]; [discriminate Hrun|].
      destruct (accepts a x); [apply (IH Hr s g c Hrun) | discriminate Hrun].
    + assert (Hsome : exists w s', s = w +:+ s'
                        /\ forallb (accepts a) (list_ascii_of_string w) = true
                        /\ run r s' g = Some c).
      { destruct greedy; [apply repGreedy_some in Hrun | apply repLazy_some in Hrun];
          exact Hrun. }
      destruct Hsome as (w & s' & _ & _ & Hk). apply (IH Hr s' g c Hk).
    + destruct s; [apply (IH Hr "" g c Hrun) | discriminate Hrun].
Qed.

(** A greedy [*] that can take all of [w], and then sees the rest of the
    pattern match, does so. *)
Lemma repGreedy_max (c : atom) (k : string -> outcome) (w s : string)
    (r : option string) :
  forallb (accepts c) (list_ascii_of_string w) = true ->
  match s with String a _ => accepts c a = false | EmptyString => True end ->
  k s = Some r -> repGreedy c k (w +:+ s) = Some r.
Proof.
  intros Hw Hs Hk. induction w as [|x w IH].
  - change ("" +:+ s) with s. destruct s as [|a s]; [exact Hk|].
    simpl. rewrite Hs. exact Hk.
  - simpl in Hw. apply andb_true_iff in Hw as [Hx Hw].
    change (String x w +:+ s) with (String x (w +:+ s)).
    simpl. rewrite Hx, (IH Hw). reflexivity.
Qed.

Lemma repGreedy_last (c : atom) (k : string -> outcome) (s : string) :
  repGreedy c k s = None -> k s = None.
Proof.
  destruct s as [|a s]; [exact id|]. cbn [repGreedy].
  destruct (accepts c a); [|exact id].
  destruct (repGreedy c k s); [discriminate | exact id].
Qed.

(** Up to the end of the line, [.*] followed by a rest of the pattern
    finds a match of that rest wherever there is one. *)
Lemma repGreedy_dot_none (k : string -> outcome) (s after : string) :
  noLineBreak s = true -> repGreedy Dot k (s +:+ after) = None ->
  forall s', tailOf s' s -> k (s' +:+ after) = None.
Proof.
  unfold noLineBreak. induction s as [|a s IH]; intros Hs H s' Hs'.
  - inversion Hs'; subst. apply (repGreedy_last Dot), H.
  - cbn [list_ascii_of_string forallb] in Hs.
    apply andb_true_iff in Hs as [Ha Hs].
    assert (Ha' : accepts Dot a = true) by exact Ha.
    pose proof (repGreedy_last Dot k _ H) as Hlast.
    change (String a s +:+ after) with (String a (s +:+ after)) in H.
    cbn [repGreedy] in H. rewrite Ha' in H.
    destruct (repGreedy Dot k (s +:+ after)) eqn:E; [discriminate H|].
    inversion Hs'; subst; [exact Hlast|]. apply (IH Hs eq_refl). assumption.
Qed.

Lemma search_skip (r : regex) (pre t : string) :
  stampFree pre = true -> search (stamp ++ r) (pre +:+ t) = search (stamp ++ r) t.
Proof.
  unfold stampFree. induction pre as [|a pre IH]; intros H; [reflexivity|].
  cbn [list_ascii_of_string forallb] in H.
  apply andb_true_iff in H as [Ha H]. apply negb_true_iff in Ha.
  change (String a pre +:+ t) with (String a (pre +:+ t)).
  rewrite search_unfold. unfold stamp, group, plus. cbn [app run].
  rewrite Ha. apply IH, H.
Qed.

Lemma stampChars_complete (a : ascii) :
  accepts DigitOrDot a = true -> In a stampChars.
Proof.
  destruct a as [[] [] [] [] [] [] [] []]; intros H; try discriminate H;
    unfold stampChars; simpl; tauto.
Qed.

Lemma startsOffStamp_rejects (r : regex) (a : ascii) (s : string) (g : groups) :
  startsOffStamp r = true -> accepts DigitOrDot a = true ->
  run r (String a s) g = None.
Proof.
  intros Hr Ha. destruct r as [|[c| | | |] r]; try discriminate Hr.
  unfold startsOffStamp in Hr. rewrite forallb_forall in Hr.
  specialize (Hr a (stampChars_complete a Ha)). apply negb_true_iff in Hr.
  simpl. rewrite Hr. reflexivity.
Qed.

Lemma tailOf_app (s d rest : string) :
  tailOf s (d +:+ rest) ->
  tailOf s rest \/ exists d1 a d2, d = d1 +:+ String a d2 /\ s = String a d2 +:+ rest.
Proof.
  revert s. induction d as [|x d IH]; intros s H; [left; exact H|].
  change (String x d +:+ rest) with (String x (d +:+ rest)) in H.
  inversion H; subst.
  - right. exists "", x, d. split; reflexivity.
  - destruct (IH s H1) as [Ht|(d1 & a & d2 & -> & ->)]; [left; exact Ht|].
    right. exists (String x d1), a, d2. split; reflexivity.
Qed.

Lemma search_found (r : regex) (t : string) :
  search r t <> None -> exists s, tailOf s t /\ run r s noGroups <> None.
Proof.
  induction t as [|a t IH]; rewrite search_unfold; intros H.
  - exists "". split; [apply tail_here|].
    destruct (run r "" noGroups); [discriminate | exact H].
  - destruct (run r (String a t) noGroups) eqn:E.
    + exists (String a t). split; [apply tail_here | congruence].
    + destruct (IH H) as (s & Hs & Hr).
      exists s. split; [apply tail_later, Hs | exact Hr].
Qed.

Lemma search_here (r : regex) (s : string) (c : option string) :
  run r s noGroups = Some c -> search r s = Some c.
Proof. intros H. rewrite search_unfold, H. reflexivity. Qed.

(** *** Matches stay within a line *)

Lemma isLineTerminator_cases (a : ascii) :
  isLineTerminator a = true -> a = ascii_of_nat 10 \/ a = ascii_of_nat 13.
Proof.
  destruct a as [[] [] [] [] [] [] [] []]; intros H; try discriminate H;
    [right | left]; reflexivity.
Qed.

Lemma keepsToLine_rejects (c : atom) (a : ascii) :
  keepsToLine c = true -> isLineTerminator a = true -> accepts c a = false.
Proof.
  unfold keepsToLine. intros Hc Ha. apply andb_true_iff in Hc as [H10 H13].
  apply negb_true_iff in H10, H13.
  destruct (isLineTerminator_cases a Ha) as [-> | ->]; assumption.
Qed.

(** The text stops here: it is empty or begins with a line terminator. *)
Lemma firstLine_cases (s s' : string) :
  firstLine s = firstLine s' ->
  (startsLine s = true /\ startsLine s' = true)
  \/ exists a t t', s = String a t /\ s' = String a t'
                    /\ isLineTerminator a = false /\ firstLine t = firstLine t'.
Proof.
  destruct s as [|a t], s' as [|a' t']; cbn [firstLine startsLine].
  - left. split; reflexivity.
  - destruct (isLineTerminator a'); [left; split; reflexivity | discriminate].
  - destruct (isLineTerminator a); [left; split; reflexivity | discriminate].
  - destruct (isLineTerminator a) eqn:Ea, (isLineTerminator a') eqn:Ea';
      try discriminate.
    + left. split; reflexivity.
    + intros [= <- E]. right. exists a, t, t'. repeat split; assumption.
Qed.

Lemma repGreedy_stop (c : atom) (k : string -> outcome) (s : string) :
  keepsToLine c = true -> startsLine s = true -> repGreedy c k s = k s.
Proof.
  intros Hc Hs. destruct s as [|a s]; [reflexivity|]. cbn [repGreedy].
  rewrite (keepsToLine_rejects c a Hc Hs). reflexivity.
Qed.

Lemma repLazy_stop (c : atom) (k : string -> outcome) (s : string) :
  keepsToLine c = true -> startsLine s = true -> repLazy c k s = k s.
Proof.
  intros Hc Hs. destruct s as [|a s]; cbn [repLazy].
  - destruct (k ""); reflexivity.
  - rewrite (keepsToLine_rejects c a Hc Hs). destruct (k (String a s)); reflexivity.
Qed.

Lemma repGreedy_line (c : atom) (k k' : string -> outcome) :
  keepsToLine c = true ->
  (forall x x', firstLine x = firstLine x' -> k x = None -> k' x' = None) ->
  forall s s', firstLine s = firstLine s' ->
    repGreedy c k s = None -> repGreedy c k' s' = None.
Proof.
  intros Hc Hk. induction s as [|a s IH]; intros s' E H.
  - rewrite (repGreedy_stop c k' s' Hc).
    + apply (Hk "" s' E H).
    + destruct (firstLine_cases "" s' E) as [[_ Hs']|(a & t & t' & Hs & _)];
        [exact Hs' | discriminate Hs].
  - destruct (firstLine_cases _ s' E) as [[Hs Hs']|(b & t & t' & [= <- <-] & -> & Hb & Et)].
    + rewrite (repGreedy_stop c k _ Hc Hs) in H.
      rewrite (repGreedy_stop c k' s' Hc Hs'). apply (Hk _ s' E H).
    + cbn [repGreedy] in H |- *. destruct (accepts c a).
      * destruct (repGreedy c k s) eqn:Es; [discriminate H|].
        rewrite (IH t' Et eq_refl). apply (Hk _ _ E H).
      * apply (Hk _ _ E H).
Qed.

Lemma repLazy_line (c : atom) (k k' : string -> outcome) :
  keepsToLine c = true ->
  (forall x x', firstLine x = firstLine x' -> k x = None -> k' x' = None) ->
  forall s s', firstLine s = firstLine s' ->
    repLazy c k s = None -> repLazy c k' s' = None.
Proof.
  intros Hc Hk. induction s as [|a s IH]; intros s' E H.
  - rewrite (repLazy_stop c k' s' Hc).
    + apply (Hk "" s' E). cbn [repLazy] in H. destruct (k ""); [discriminate H | reflexivity].
    + destruct (firstLine_cases "" s' E) as [[_ Hs']|(a & t & t' & Hs & _)];
        [exact Hs' | discriminate Hs].
  - destruct (firstLine_cases _ s' E) as [[Hs Hs']|(b & t & t' & [= <- <-] & -> & Hb & Et)].
    + rewrite (repLazy_stop c k _ Hc Hs) in H.
      rewrite (repLazy_stop c k' s' Hc Hs'). apply (Hk _ s' E H).
    + cbn [repLazy] in H |- *.
      destruct (k (String a s)) eqn:Ek; [discriminate H|].
      rewrite (Hk _ _ E Ek). destruct (accepts c a); [|reflexivity].
      apply (IH t' Et H).
Qed.

(** Whether a pattern that stays within a line matches at the start of a
    text depends on the first line of the text only. *)
Lemma run_line (r : regex) :
  lineBound r = true ->
  forall s s' g g', firstLine s = firstLine s' ->
    run r s g = None -> run r s' g' = None.
Proof.
  unfold lineBound. induction r as [|t r IH]; intros Hr s s' g g' E H;
    [discriminate H|].
  cbn [forallb] in Hr. apply andb_true_iff in Hr as [Ht Hr].
  destruct t as [c|[|] c| | |]; try discriminate Ht; cbn [run] in H |- *.
  - destruct (firstLine_cases s s' E) as [[Hs Hs']|(a & t & t' & -> & -> & Ha & Et)].
    + destruct s' as [|a' t']; [reflexivity|].
      rewrite (keepsToLine_rejects c a' Ht Hs'). reflexivity.
    + destruct (accepts c a); [|reflexivity]. apply (IH Hr t t' g g' Et H).
  - revert H. apply (repGreedy_line c _ _ Ht); [|exact E].
    intros x x' Ex. apply (IH Hr x x' g g' Ex).
  - revert H. apply (repLazy_line c _ _ Ht); [|exact E].
    intros x x' Ex. apply (IH Hr x x' g g' Ex).
  - revert H. apply (IH Hr); exact E.
  - revert H. apply (IH Hr); exact E.
Qed.

Lemma firstLine_whole (s after : string) :
  noLineBreak s = true -> startsLine after = true -> firstLine (s +:+ after) = s.
Proof.
  unfold noLineBreak. induction s as [|a s IH]; intros Hs Ha.
  - change ("" +:+ after) with after. destruct after as [|b t]; [reflexivity|].
    cbn [firstLine]. cbn [startsLine] in Ha. rewrite Ha. reflexivity.
  - cbn [list_ascii_of_string forallb] in Hs. apply andb_true_iff in Hs as [Hx Hs].
    apply negb_true_iff in Hx.
    change (String a s +:+ after) with (String a (s +:+ after)).
    cbn [firstLine]. rewrite Hx, (IH Hs Ha). reflexivity.
Qed.

Lemma firstLine_line (s after : string) :
  noLineBreak s = true -> startsLine after = true ->
  firstLine (s +:+ after) = firstLine s.
Proof.
  intros Hs Ha. rewrite (firstLine_whole s after Hs Ha).
  rewrite <- (append_nil_r s) at 2. symmetry. apply firstLine_whole; [exact Hs | reflexivity].
Qed.

Lemma firstLine_ended (s after : string) :
  endsLine s = true -> s <> "" -> firstLine (s +:+ after) = firstLine s.
Proof.
  induction s as [|a s IH]; intros Hs Hne; [destruct Hne; reflexivity|].
  change (String a s +:+ after) with (String a (s +:+ after)).
  cbn [firstLine]. destruct s as [|b s].
  - cbn [endsLine] in Hs. rewrite Hs. reflexivity.
  - destruct (isLineTerminator a); [reflexivity|].
    f_equal. apply IH; [exact Hs | discriminate].
Qed.

Lemma endsLine_tail (s t : string) : tailOf s t -> endsLine t = true -> endsLine s = true.
Proof.
  induction 1 as [|a t Hs IH]; intros Ht; [exact Ht|].
  destruct t as [|b t]; [inversion Hs; reflexivity|]. apply IH, Ht.
Qed.

Lemma noLineBreak_tail (s t : string) :
  tailOf s t -> noLineBreak t = true -> noLineBreak s = true.
Proof.
  unfold noLineBreak. induction 1 as [|a t Hs IH]; intros Ht; [exact Ht|].
  cbn [list_ascii_of_string forallb] in Ht. apply andb_true_iff in Ht as [_ Ht].
  apply IH, Ht.
Qed.

(** A pattern that stays within a line and matches nowhere in [before]
    is searched for in what follows, when the boundary between the two is
    a line boundary. *)
Lemma search_past (r : regex) (before after : string) :
  lineBound r = true ->
  (forall s, tailOf s before -> s <> "" ->
     firstLine (s +:+ after) = firstLine s) ->
  search r before = None -> search r (before +:+ after) = search r after.
Proof.
  intros Hr. induction before as [|a t IH]; intros Hline H; [reflexivity|].
  change (String a t +:+ after) with (String a (t +:+ after)).
  rewrite search_unfold. rewrite search_unfold in H.
  destruct (run r (String a t) noGroups) eqn:E; [discriminate H|].
  rewrite (run_line r Hr (String a t) (String a (t +:+ after)) noGroups noGroups).
  - apply IH; [|exact H]. intros s Hs. apply Hline, tail_later, Hs.
  - symmetry. apply (Hline (String a t)); [apply tail_here | discriminate].
  - exact E.
Qed.

Lemma search_past_lines (r : regex) (before after : string) :
  lineBound r = true -> endsLine before = true ->
  search r before = None -> search r (before +:+ after) = search r after.
Proof.
  intros Hr Hb. apply (search_past r before after Hr).
  intros s Hs Hne. apply firstLine_ended; [|exact Hne].
  apply (endsLine_tail s before Hs Hb).
Qed.

Lemma search_past_line (r : regex) (line after : string) :
  lineBound r = true -> noLineBreak line = true -> startsLine after = true ->
  search r line = None -> search r (line +:+ after) = search r after.
Proof.
  intros Hr Hl Ha. apply (search_past r line after Hr).
  intros s Hs _. apply firstLine_line; [|exact Ha].
  apply (noLineBreak_tail s line Hs Hl).
Qed.

Lemma lineBound_app (r1 r2 : regex) :
  lineBound (r1 ++ r2) = lineBound r1 && lineBound r2.
Proof. apply forallb_app. Qed.

Lemma lineBound_splice (name : string) :
  noLineBreak name = true -> lineBound (splice name) = true.
Proof.
  unfold noLineBreak, lineBound, splice.
  induction (list_ascii_of_string name) as [|a l IH]; intros H; [reflexivity|].
  cbn [forallb map] in H |- *. apply andb_true_iff in H as [Ha H].
  rewrite (IH H), andb_true_r. destruct (Ascii.eqb a ".") eqn:E; [reflexivity|].
  unfold keepsToLine. cbn [accepts].
  destruct a as [[] [] [] [] [] [] [] []]; try reflexivity; discriminate Ha.
Qed.

Lemma noLineBreak_app (s t : string) :
  noLineBreak (s +:+ t) = noLineBreak s && noLineBreak t.
Proof. unfold noLineBreak. rewrite list_ascii_app. apply forallb_app. Qed.

Lemma stampText_noLineBreak (d : string) : stampText d = true -> noLineBreak d = true.
Proof.
  unfold stampText, noLineBreak. intros H. rewrite forallb_forall in H |- *.
  intros a Ha. specialize (H a Ha).
  destruct a as [[] [] [] [] [] [] [] []]; try reflexivity; discriminate H.
Qed.

Lemma startsOffNumber_line (rest after : string) :
  startsOffNumber rest = true -> startsLine after = true ->
  match rest +:+ after with
  | String a _ => accepts DigitOrDot a = false
  | EmptyString => True
  end.
Proof.
  intros Hr Ha. destruct rest as [|a rest].
  - change ("" +:+ after) with after. destruct after as [|b t]; [exact I|].
    cbn [startsLine] in Ha.
    destruct b as [[] [] [] [] [] [] [] []]; try reflexivity; discriminate Ha.
  - change (String a rest +:+ after) with (String a (rest +:+ after)).
    cbn [startsOffNumber] in Hr. apply negb_true_iff in Hr. exact Hr.
Qed.

(** *** The first number of the line *)

Section OneLine.

Variables (tail : regex) (d rest : string).
Hypothesis Hng : noGroup tail = true.
Hypothesis Hoff : startsOffStamp tail = true.
Hypothesis Hd : stampText d = true.
Hypothesis Hne : d <> "".
Hypothesis Hrest : startsOffNumber rest = true.
Hypothesis Hline : noLineBreak rest = true.

(** When the rest of the pattern matches somewhere after the number, the
    match at the number takes all of it. *)
Lemma line_capture (after : string) :
  lineBound tail = true -> startsLine after = true ->
  search tail rest <> None ->
  run (stamp ++ star Dot ++ tail) (d +:+ rest +:+ after) noGroups = Some (Some d).
Proof.
  intros Hbound Hafter Hfound.
  destruct d as [|x d'] eqn:Ed; [destruct Hne; reflexivity|].
  unfold stampText in Hd. cbn [list_ascii_of_string forallb] in Hd.
  apply andb_true_iff in Hd as [Hx Hd'].
  change (String x d' +:+ rest +:+ after) with (String x (d' +:+ rest +:+ after)).
  unfold stamp, group, plus, star. cbn [app run]. rewrite Hx.
  set (g2 := {| opened := String x (d' +:+ rest +:+ after);
                captured := Some (String x d') |}).
  assert (Hk : exists c,
             repGreedy Dot (fun s' => run tail s' g2) (rest +:+ after) = Some c).
  { destruct (repGreedy Dot (fun s' => run tail s' g2) (rest +:+ after)) eqn:E;
      [eauto|].
    exfalso. destruct (search_found tail rest Hfound) as (s' & Hs' & Hr).
    apply Hr.
    apply (run_line tail Hbound (s' +:+ after) s' g2 noGroups).
    - apply firstLine_line; [|exact Hafter].
      apply (noLineBreak_tail s' rest Hs' Hline).
    - apply (repGreedy_dot_none _ rest after Hline E s' Hs'). }
  destruct Hk as (c & Hc).
  apply repGreedy_max; [exact Hd' | apply startsOffNumber_line; assumption |].
  cbn [run opened captured].
  change (String x (d' +:+ rest +:+ after)) with (String x d' +:+ (rest +:+ after)).
  rewrite substring_prefix.
  change (String x d' +:+ (rest +:+ after)) with (String x (d' +:+ rest +:+ after)).
  fold g2. rewrite Hc. f_equal.
  destruct (repGreedy_some Dot _ _ c Hc) as (w & s' & _ & _ & Hs').
  apply (run_noGroup tail Hng s' g2 c Hs').
Qed.

(** When it matches nowhere after the number, the pattern matches nowhere
    from the number on. *)
Lemma line_no_capture :
  search tail rest = None ->
  search (stamp ++ star Dot ++ tail) (d +:+ rest) = None.
Proof.
  intros Etail. apply failsOn_search. intros s g Hs.
  change (stamp ++ star Dot ++ tail) with ((stamp ++ star Dot) ++ tail).
  apply run_tail_none. intros s' g' Hs'.
  assert (Hs'' : tailOf s' (d +:+ rest)) by (eapply tailOf_trans; eassumption).
  apply tailOf_app in Hs'' as [Ht|(d1 & a & d2 & Ed & ->)].
  - apply (run_none_groups tail s' noGroups).
    apply (proj1 (search_none tail rest) Etail s' Ht).
  - change (String a d2 +:+ rest) with (String a (d2 +:+ rest)).
    apply startsOffStamp_rejects; [exact Hoff|].
    unfold stampText in Hd. rewrite Ed, list_ascii_app, forallb_app in Hd.
    apply andb_true_iff in Hd as [_ Hd']. cbn [list_ascii_of_string forallb] in Hd'.
    apply andb_true_iff in Hd' as [Ha _]. exact Ha.
Qed.

(** In a text that reads [before], then a stretch [pre] without digits,
    the number [d] and the [rest] of its line, then the lines [after]: a
    pattern made of the bare group, [.*] and a rest that stays within a
    line and cannot begin at a digit, when it matches nowhere in [before],
    captures [d] if that rest matches somewhere in [rest], and is searched
    for in [after] otherwise. *)
Lemma first_number_captured (before pre after : string) :
  lineBound tail = true ->
  endsLine before = true -> startsLine after = true -> stampFree pre = true ->
  search (stamp ++ star Dot ++ tail) before = None ->
  search (stamp ++ star Dot ++ tail) (before +:+ pre +:+ d +:+ rest +:+ after)
  = match search tail rest with
    | Some _ => Some (Some d)
    | None => search (stamp ++ star Dot ++ tail) after
    end.
Proof.
  intros Hbound Hb Ha Hpre Hbefore.
  assert (HP : lineBound (stamp ++ star Dot ++ tail) = true)
    by (rewrite !lineBound_app, Hbound; reflexivity).
  rewrite (search_past_lines _ before _ HP Hb Hbefore).
  rewrite search_skip by exact Hpre.
  destruct (search tail rest) as [c0|] eqn:Etail.
  - apply search_here, (line_capture after Hbound Ha).
    rewrite Etail. discriminate.
  - rewrite <- append_assoc.
    apply (search_past_line _ (d +:+ rest) after HP); [|exact Ha|].
    + rewrite noLineBreak_app, Hline, (stampText_noLineBreak d Hd). reflexivity.
    + apply line_no_capture, Etail.
Qed.

End OneLine.

Lemma failsOn_part (t : string) (r0 r : regex) :
  search r0 t = None -> failsOn t (r0 ++ r).
Proof.
  intros H s g Hs. apply run_none_l. apply (run_none_groups _ _ noGroups).
  apply (proj1 (search_none _ _) H), Hs.
Qed.

Lemma startsOffStamp_splice (m : string) (r : regex) :
  startsWithLetter m = true -> startsOffStamp (splice m ++ r) = true.
Proof.
  destruct m as [|a m]; [discriminate|].
  destruct a as [[] [] [] [] [] [] [] []]; intros H; try discriminate H;
    reflexivity.
Qed.

Lemma startsOffStamp_name (m : string) :
  startsWithLetter m = true -> startsOffStamp (splice m) = true.
Proof.
  intros H. rewrite <- (app_nil_r (splice m)). apply startsOffStamp_splice, H.
Qed.

Lemma markWrite_fails (t : string) (r : regex) :
  search (lit "tracing_mark_write:") t = None -> failsOn t (markWrite ++ r).
Proof.
  intros H.
  change (markWrite ++ r)
    with (lineHead ++ plus Space ++ lit "tracing_mark_write:" ++ r).
  do 2 apply failsOn_app. apply failsOn_part, H.
Qed.

Lemma firstMatch_none_all (ps : list regex) (t : string) :
  firstMatch ps t = None -> forall p, p ∈ ps -> search p t = None.
Proof.
  induction ps as [|p0 ps IH]; intros H p Hp; [inversion Hp|].
  change (match search p0 t with
          | Some g => Some g
          | None => firstMatch ps t
          end = None) in H.
  destruct (search p0 t) eqn:E; [discriminate H|].
  apply elem_of_cons in Hp as [-> | Hp]; [exact E | apply (IH H p Hp)].
Qed.

Lemma firstNumber_parts (pre d rest : string) :
  firstNumber pre d rest = true ->
  stampFree pre = true /\ stampText d = true /\ d <> ""
  /\ startsOffNumber rest = true /\ noLineBreak rest = true.
Proof.
  unfold firstNumber. rewrite !andb_true_iff, negb_true_iff, String.eqb_neq.
  tauto.
Qed.

Section MarkerLine.

Variables m before pre d rest after : string.
Hypothesis Hname : lineName m = true.
Hypothesis Hbefore : endsLine before = true.
Hypothesis Hafter : startsLine after = true.
Hypothesis Hnumber : firstNumber pre d rest = true.
Hypothesis Habove : firstMatch (markerPatterns m) before = None.
Hypothesis Hbelow : firstMatch (markerPatterns m) after = None.

Lemma loose_capture (tail : regex) :
  noGroup tail = true -> startsOffStamp tail = true -> lineBound tail = true ->
  stamp ++ star Dot ++ tail ∈ markerPatterns m ->
  search (stamp ++ star Dot ++ tail) (before +:+ pre +:+ d +:+ rest +:+ after)
  = match search tail rest with
    | Some _ => Some (Some d)
    | None => None
    end.
Proof.
  intros Hng Hoff Hbound Hin.
  destruct (firstNumber_parts pre d rest Hnumber) as (Hpre & Hd & Hne & Hrest & Hline).
  rewrite (first_number_captured tail d rest Hng Hoff Hd Hne Hrest Hline
             before pre after Hbound Hbefore Hafter Hpre
             (firstMatch_none_all _ _ Habove _ Hin)).
  rewrite (firstMatch_none_all _ _ Hbelow _ Hin). reflexivity.
Qed.

Lemma loose_patterns_line :
  search (lit "tracing_mark_write:") (before +:+ pre +:+ d +:+ rest +:+ after) = None ->
  search (splice m) rest <> None ->
  firstMatch (markerPatterns m) (before +:+ pre +:+ d +:+ rest +:+ after)
  = Some (Some d)
  /\ firstMatch (pairPatterns m) (before +:+ pre +:+ d +:+ rest +:+ after)
     = Some (Some d).
Proof.
  intros Hmark Hfound.
  unfold lineName in Hname. apply andb_true_iff in Hname as [Hletter Hml].
  pose proof loose_capture as Hcap.
  unfold markerPatterns in Hcap. unfold markerPatterns, pairPatterns.
  cbv beta iota delta [firstMatch].
  rewrite !(failsOn_search _ (markWrite ++ _)) by (apply markWrite_fails, Hmark).
  cbv iota.
  rewrite !Hcap
    by first [ no_group
             | reflexivity
             | apply startsOffStamp_splice, Hletter
             | apply startsOffStamp_name, Hletter
             | rewrite ?lineBound_app, ?(lineBound_splice m Hml); reflexivity
             | solve [ repeat first [ apply list_elem_of_here
                                    | apply list_elem_of_further ] ] ].
  destruct (search (splice m) rest) eqn:Em; [clear Hfound | congruence].
  split;
    repeat match goal with
           | |- context [search ?t rest] =>
               destruct (search t rest) eqn:?; [reflexivity|]
           end;
    reflexivity.
Qed.

End MarkerLine.

(** With names free of pattern syntax and distinct property names, in a
    trace without [tracing_mark_write:] that reads [before], one line,
    [after]: when none of the patterns of a marker, custom or of a pair,
    matches in the lines before or in the lines after, and the line has
    the marker's name somewhere after its first number [d], the marker's
    timestamp is [d], normalised, whatever stands between the number and
    the name. *)
Theorem first_number_is_timestamp (cfg : Config)
    (m before pre d rest after : string) :
  plainConfig cfg = true -> distinctKeys cfg ->
  m ∈ subjects cfg -> lineName m = true ->
  endsLine before = true -> startsLine after = true ->
  firstNumber pre d rest = true ->
  search (lit "tracing_mark_write:") (before +:+ pre +:+ d +:+ rest +:+ after) = None ->
  firstMatch (markerPatterns m) before = None ->
  firstMatch (markerPatterns m) after = None ->
  search (splice m) rest <> None ->
  processTraceData cfg (before +:+ pre +:+ d +:+ rest +:+ after) !! timestampKey m
  = Some (normalizeTimestamp (parseFloat d)).
Proof.
  intros _ Hd Hm Hname Hbefore Hafter Hnumber Hmark Habove Hbelow Hfound.
  destruct (loose_patterns_line m before pre d rest after Hname Hbefore Hafter
              Hnumber Habove Hbelow Hmark Hfound) as [Hcustom Hpair].
  set (text := before +:+ pre +:+ d +:+ rest +:+ after) in *.
  unfold subjects in Hm. apply elem_of_app in Hm as [Hm | Hm].
  - rewrite (marker_local cfg text m Hd Hm) by solve_in.
    rewrite (markerMetrics_timestamp _ _ _ (distinctKeys_marker cfg m Hd Hm)).
    rewrite Hcustom. apply fmap_whenTruthy_normalizeTimestamp.
  - apply list_elem_of_In, in_flat_map in Hm as (p & Hp & Hin).
    apply list_elem_of_In in Hp.
    pose proof (distinctKeys_pair cfg p Hd Hp) as Hnd.
    destruct (pairMetrics_lookups (resolveAppStart (appPackage cfg) text) text p Hnd)
      as (Hs & He & _).
    destruct Hin as [<- | [<- | []]];
      rewrite (pair_local cfg text p Hd Hp) by solve_in;
      [rewrite Hs | rewrite He]; rewrite Hpair;
      apply fmap_whenTruthy_normalizeTimestamp.
Qed.

Lemma first_number_is_timestamp_witness :
  processTraceData onePair (logBefore +:+ "01" +:+ logRest +:+ logAfter)
    !! "app_js_initializedTimestamp"
  = Some (parseFloat "01").
Proof.
  assert (Hd : distinctKeys onePair)
    by (apply (bool_decide_unpack _); vm_compute; exact I).
  etransitivity;
    [apply (first_number_is_timestamp onePair "app_js_initialized"
              logBefore "" "01" logRest logAfter
              eq_refl Hd (list_elem_of_here _ _));
     first [ discriminate | vm_compute; reflexivity ]|].
  vm_compute. reflexivity.
Defined.
